(** * seller-apis: reconciliation and batching of marketplace updates

    A shallow embedding of the pure core of [seller.py] (Ozon) and
    [market.py] (Yandex Market): [create_stocks], [create_prices],
    [price_conversion] and [divide], together with the Python builtins
    they call.

    Conventions of the embedding.
    - A Python [str] is a [string] holding its UTF-8 bytes.  The source
      only compares strings, splits them on ["."] and deletes what is not
      an ASCII digit; on UTF-8 these act byte-wise exactly as they act on
      code points, since every byte of a multi-byte character is above 127.
    - A spreadsheet cell is a [value]: text, an integer, or [None] when the
      column is missing ([dict.get] then returns [None]).  Floating-point
      cells are not modelled.
    - [int] reads the digits and the white space of every script; the
      ASCII part of that is written out, the rest is the parameter
      [Unicode].  The interpreter's limit on the length of a decimal
      conversion (4300 digits by default) is not modelled.
    - The known identifiers [offer_ids] are a Python list of strings.
    - An exception is a [result]; the list [offer_ids], which
      [create_stocks] consumes in place, is the state of [prog]. *)

From Stdlib Require Import ZArith Ascii String DecimalString DecimalFacts DecimalPos DecimalN DecimalZ.
From stdpp Require Import gmap strings list.

Open Scope string_scope.
Open Scope list_scope.
Open Scope Z_scope.

(** ** Exceptions and the two monads *)

(** The builtin that raised. *)
Inductive builtin :=
  | b_int          (* int(x) *)
  | b_range        (* range(start, stop, step) *)
  | b_split        (* x.split(sep) *)
  | b_getitem      (* x[i] *)
  | b_list_remove  (* x.remove(y) *).

Inductive exn :=
  | ValueError (origin : builtin)
  | TypeError (origin : builtin)
  | AttributeError (origin : builtin)
  | IndexError (origin : builtin).

Inductive result (A : Type) : Type :=
  | Ok (a : A)
  | Raise (e : exn).
Arguments Ok {A} a.
Arguments Raise {A} e.

Definition result_bind {A B} (m : result A) (k : A → result B) : result B :=
  match m with
  | Ok a => k a
  | Raise e => Raise e
  end.

Definition result_map {A B} (f : A → B) (m : result A) : result B :=
  result_bind m (λ a, Ok (f a)).

(** A computation over one mutable list object of strings.  The state
    survives an exception, as the partly consumed list does in Python. *)
Definition prog (A : Type) : Type := list string → result A * list string.

Definition ret {A} (a : A) : prog A := λ σ, (Ok a, σ).

Definition bind {A B} (m : prog A) (k : A → prog B) : prog B :=
  λ σ, match m σ with
       | (Ok a, σ') => k a σ'
       | (Raise e, σ') => (Raise e, σ')
       end.

Definition lift {A} (m : result A) : prog A := λ σ, (m, σ).

(** The current contents of the list object. *)
Definition contents : prog (list string) := λ σ, (Ok σ, σ).

Declare Scope prog_scope.
Delimit Scope prog_scope with prog.
Notation "x <- m ;; k" := (bind m (λ x, k))
  (at level 100, m at next level, right associativity) : prog_scope.
Notation "m ;;; k" := (bind m (λ _, k))
  (at level 100, right associativity) : prog_scope.

Declare Scope result_scope.
Delimit Scope result_scope with result.
Notation "x <- m ;; k" := (result_bind m (λ x, k))
  (at level 100, m at next level, right associativity) : result_scope.

(** ** Python values and builtins *)

(** What [int] returns for a text that has a character outside ASCII
    ([None] when it raises).  Python accepts there the decimal digits
    and the white space of all scripts; which characters these are is a
    table of the interpreter's Unicode version. *)
Class Unicode := int_beyond_ascii : string → option Z.

Module Py.

Inductive value :=
  | PyNone
  | PyInt (n : Z)
  | PyStr (s : string).

(** [str(x)] *)
Definition str (x : value) : string :=
  match x with
  | PyNone => "None"
  | PyInt n => NilEmpty.string_of_int (Z.to_int n)
  | PyStr s => s
  end.

Definition code_of (c : ascii) : N := N_of_ascii c.

(** The ASCII white space that [int] skips: tab, line feed, vertical
    tab, form feed, carriage return and space. *)
Definition is_space (c : ascii) : bool :=
  let n := code_of c in
  ((9 <=? n) && (n <=? 13) || (n =? 32))%N.

Definition is_digit (c : ascii) : bool :=
  let n := code_of c in ((48 <=? n) && (n <=? 57))%N.

Definition digit_val (c : ascii) : Z := Z.of_N (code_of c) - 48.

Fixpoint skip_spaces (s : string) : string :=
  match s with
  | String c s' => if is_space c then skip_spaces s' else s
  | EmptyString => EmptyString
  end.

(** The digits of a base-10 literal: single underscores are allowed
    between digits, white space may follow the last digit. *)
Fixpoint int_digits (acc : Z) (prev_digit : bool) (s : string) : option Z :=
  match s with
  | EmptyString => if prev_digit then Some acc else None
  | String c s' =>
      if is_digit c then int_digits (10 * acc + digit_val c) true s'
      else if Ascii.eqb c "_" then
        if prev_digit then int_digits acc false s' else None
      else if prev_digit && String.eqb (skip_spaces s) "" then Some acc
      else None
  end.

(** The ASCII text accepted by [int(s)]: white space, an optional sign,
    the digits, white space. *)
Definition parse_ascii_int (s : string) : option Z :=
  match skip_spaces s with
  | String "-" s' => Z.opp <$> int_digits 0 false s'
  | String "+" s' => int_digits 0 false s'
  | s' => int_digits 0 false s'
  end.

(** No byte of [s] is above 127. *)
Fixpoint is_ascii (s : string) : bool :=
  match s with
  | EmptyString => true
  | String c s' => (code_of c <? 128)%N && is_ascii s'
  end.

Section Int.
Context `{!Unicode}.

(** The integer that [int(s)] returns for a [str], [None] when it
    raises. *)
Definition parse_int (s : string) : option Z :=
  if is_ascii s then parse_ascii_int s else int_beyond_ascii s.

(** [int(x)] *)
Definition int (x : value) : result Z :=
  match x with
  | PyNone => Raise (TypeError b_int)
  | PyInt n => Ok n
  | PyStr s => match parse_int s with
               | Some n => Ok n
               | None => Raise (ValueError b_int)
               end
  end.

End Int.

(** [s.split(sep)] for a one-character separator: never empty. *)
Fixpoint split (sep : ascii) (s : string) : list string :=
  match s with
  | EmptyString => [EmptyString]
  | String c s' =>
      if Ascii.eqb c sep then EmptyString :: split sep s'
      else match split sep s' with
           | p :: ps => String c p :: ps
           | [] => [String c EmptyString]
           end
  end.

(** [x.split(".")]: only [str] has the method. *)
Definition split_dot (x : value) : result (list string) :=
  match x with
  | PyStr s => Ok (split "." s)
  | _ => Raise (AttributeError b_split)
  end.

(** [l[0]] *)
Definition getitem0 {A} (l : list A) : result A :=
  match l with
  | x :: _ => Ok x
  | [] => Raise (IndexError b_getitem)
  end.

(** [re.sub("[^0-9]", "", s)]: every character outside the class
    [0-9] is replaced by the empty string. *)
Fixpoint re_sub_non_digit (s : string) : string :=
  match s with
  | EmptyString => EmptyString
  | String c s' =>
      if is_digit c then String c (re_sub_non_digit s') else re_sub_non_digit s'
  end.

(** [x in l] for a list. *)
Definition py_in (x : string) (l : list string) : bool := bool_decide (x ∈ l).

(** [l.remove(x)]: the first occurrence goes; [None] when there is none. *)
Fixpoint remove_first (x : string) (l : list string) : option (list string) :=
  match l with
  | [] => None
  | y :: l' =>
      if decide (x = y) then Some l'
      else (y ::.) <$> remove_first x l'
  end.

(** [offer_ids.remove(x)] on the list object. *)
Definition list_remove (x : string) : prog unit :=
  λ σ, match remove_first x σ with
       | Some σ' => (Ok tt, σ')
       | None => (Raise (ValueError b_list_remove), σ)
       end.

(** [len(l)] *)
Definition len {A} (l : list A) : Z := Z.of_nat (length l).

(** [range(start, stop, step)], as the list of the values it yields. *)
Definition range (start stop step : Z) : result (list Z) :=
  if decide (step = 0) then Raise (ValueError b_range)
  else
    let count :=
      if decide (0 < step)
      then (if decide (start < stop) then (stop - start - 1) / step + 1 else 0)
      else (if decide (stop < start) then (start - stop - 1) / (- step) + 1 else 0) in
    Ok ((λ k, start + k * step) <$> seqZ 0 count).

(** A slice bound clipped to [0 .. len l], counting from the end when
    negative. *)
Definition clip {A} (l : list A) (i : Z) : nat :=
  Z.to_nat (if decide (i < 0) then Z.max (i + len l) 0 else Z.min i (len l)).

(** [l[i:j]] *)
Definition slice {A} (l : list A) (i j : Z) : list A :=
  take (clip l j - clip l i)%nat (drop (clip l i) l).

End Py.

(** ** Rows of the inventory spreadsheet *)

(** One record of [pd.read_excel(...).to_dict(orient="records")]:
    column name to cell. *)
Abbreviation dict := (gmap string Py.value).

(** [watch.get(key)] *)
Definition get (watch : dict) (key : string) : Py.value :=
  default Py.PyNone (watch !! key).

(** [for x in l: acc = body(x, acc)] *)
Fixpoint for_each {A B} (l : list A) (body : A → B → prog B) (acc : B) : prog B :=
  match l with
  | [] => ret acc
  | x :: l' => bind (body x acc) (for_each l' body)
  end.

(** The branch on the quantity cell, the same in both [create_stocks]. *)
Definition stock_of `{!Unicode} (watch : dict) : result Z :=
  let count := Py.str (get watch "Количество") in
  if decide (count = ">10") then Ok 100
  else if decide (count = "1") then Ok 0
  else Py.int (get watch "Количество").

(** ** seller.py *)

Module Seller.

Module Stock.
Record t := mk { offer_id : string; stock : Z }.
End Stock.

Module Price.
Record t := mk {
  auto_action_enabled : string;
  currency_code : string;
  offer_id : string;
  old_price : string;
  price : string
}.
End Price.

Definition price_conversion (price : Py.value) : result string :=
  (parts <- Py.split_dot price ;;
   integer_part <- Py.getitem0 parts ;;
   Ok (Py.re_sub_non_digit integer_part))%result.

Section Stocks.
Context `{!Unicode}.

(** Body of the first loop of [create_stocks]. *)
Definition create_stocks_row (watch : dict) (stocks : list Stock.t)
  : prog (list Stock.t) :=
  (offer_ids <- contents ;;
   if Py.py_in (Py.str (get watch "Код")) offer_ids then
     stock <- lift (stock_of watch) ;;
     let stocks := stocks ++ [Stock.mk (Py.str (get watch "Код")) stock] in
     Py.list_remove (Py.str (get watch "Код")) ;;;
     ret stocks
   else ret stocks)%prog.

Definition create_stocks (watch_remnants : list dict) : prog (list Stock.t) :=
  (stocks <- for_each watch_remnants create_stocks_row [] ;;
   offer_ids <- contents ;;
   ret (stocks ++ ((λ offer_id, Stock.mk offer_id 0) <$> offer_ids)))%prog.

End Stocks.

(** Body of the loop of [create_prices]. *)
Definition create_prices_row (watch : dict) (prices : list Price.t)
  : prog (list Price.t) :=
  (offer_ids <- contents ;;
   if Py.py_in (Py.str (get watch "Код")) offer_ids then
     converted <- lift (price_conversion (get watch "Цена")) ;;
     let price := Price.mk "UNKNOWN" "RUB" (Py.str (get watch "Код")) "0" converted in
     ret (prices ++ [price])
   else ret prices)%prog.

Definition create_prices (watch_remnants : list dict) : prog (list Price.t) :=
  for_each watch_remnants create_prices_row [].

(** [list(divide(lst, n))]: the generator run to its end, as every
    caller does.  The exception of [range] surfaces at the first
    [next]. *)
Definition divide {A} (lst : list A) (n : Z) : result (list (list A)) :=
  (indices <- Py.range 0 (Py.len lst) n ;;
   Ok ((λ i, Py.slice lst i (i + n)) <$> indices))%result.

(** The two reconciliation calls of [main], on the one list
    [offer_ids] that [get_offer_ids] returned. *)
Definition main_reconcile `{!Unicode} (watch_remnants : list dict)
  : prog (list Stock.t * list Price.t) :=
  (stocks <- create_stocks watch_remnants ;;
   prices <- create_prices watch_remnants ;;
   ret (stocks, prices))%prog.

End Seller.

(** ** market.py *)

Module Market.

(** A reading of [datetime.datetime.utcnow()]. *)
Record datetime := {
  year : Z; month : Z; day : Z;
  hour : Z; minute : Z; second : Z; microsecond : Z
}.

(** [d.replace(microsecond=us)] *)
Definition replace_microsecond (d : datetime) (us : Z) : datetime :=
  {| year := year d; month := month d; day := day d;
     hour := hour d; minute := minute d; second := second d;
     microsecond := us |}.

(** ["%0<width>d" % n] for [0 <= n]. *)
Definition zero_pad (width : nat) (n : Z) : string :=
  let digits := Py.str (Py.PyInt n) in
  String.concat "" (replicate (width - String.length digits) "0") +:+ digits.

(** [d.isoformat()] of a naive datetime. *)
Definition isoformat (d : datetime) : string :=
  zero_pad 4 (year d) +:+ "-" +:+ zero_pad 2 (month d) +:+ "-" +:+ zero_pad 2 (day d)
  +:+ "T" +:+ zero_pad 2 (hour d) +:+ ":" +:+ zero_pad 2 (minute d)
  +:+ ":" +:+ zero_pad 2 (second d)
  +:+ (if decide (microsecond d = 0) then "" else "." +:+ zero_pad 6 (microsecond d)).

Module Item.
Record t := mk { count : Z; type : string; updatedAt : string }.
End Item.

Module Stock.
Record t := mk { sku : string; warehouseId : string; items : list Item.t }.
End Stock.

Module PriceValue.
Record t := mk { value : Z; currencyId : string }.
End PriceValue.

Module Price.
Record t := mk { id : string; price : PriceValue.t }.
End Price.

Section Reconcile.
Context `{!Unicode}.

(** Body of the first loop of [create_stocks]. *)
Definition create_stocks_row (warehouse_id date : string)
    (watch : dict) (stocks : list Stock.t) : prog (list Stock.t) :=
  (offer_ids <- contents ;;
   if Py.py_in (Py.str (get watch "Код")) offer_ids then
     stock <- lift (stock_of watch) ;;
     let stocks :=
       stocks ++ [Stock.mk (Py.str (get watch "Код")) warehouse_id
                    [Item.mk stock "FIT" date]] in
     Py.list_remove (Py.str (get watch "Код")) ;;;
     ret stocks
   else ret stocks)%prog.

(** [utcnow] is what [datetime.datetime.utcnow()] returns at the call. *)
Definition create_stocks (utcnow : datetime) (watch_remnants : list dict)
    (warehouse_id : string) : prog (list Stock.t) :=
  let date := isoformat (replace_microsecond utcnow 0) +:+ "Z" in
  (stocks <- for_each watch_remnants (create_stocks_row warehouse_id date) [] ;;
   offer_ids <- contents ;;
   ret (stocks ++
        ((λ offer_id, Stock.mk offer_id warehouse_id [Item.mk 0 "FIT" date])
           <$> offer_ids)))%prog.

(** Body of the loop of [create_prices]. *)
Definition create_prices_row (watch : dict) (prices : list Price.t)
  : prog (list Price.t) :=
  (offer_ids <- contents ;;
   if Py.py_in (Py.str (get watch "Код")) offer_ids then
     converted <- lift (Seller.price_conversion (get watch "Цена")) ;;
     value <- lift (Py.int (Py.PyStr converted)) ;;
     let price := Price.mk (Py.str (get watch "Код")) (PriceValue.mk value "RUR") in
     ret (prices ++ [price])
   else ret prices)%prog.

Definition create_prices (watch_remnants : list dict) : prog (list Price.t) :=
  for_each watch_remnants create_prices_row [].

End Reconcile.

End Market.

(** ** Definitions used by the statements *)

(** The value [int_digits] reaches on the digits of [d], spelled out on
    the standard library's decimal numbers. *)
Fixpoint uint_val (acc : Z) (d : Decimal.uint) : Z :=
  match d with
  | Decimal.Nil => acc
  | Decimal.D0 d => uint_val (10 * acc + 0) d
  | Decimal.D1 d => uint_val (10 * acc + 1) d
  | Decimal.D2 d => uint_val (10 * acc + 2) d
  | Decimal.D3 d => uint_val (10 * acc + 3) d
  | Decimal.D4 d => uint_val (10 * acc + 4) d
  | Decimal.D5 d => uint_val (10 * acc + 5) d
  | Decimal.D6 d => uint_val (10 * acc + 6) d
  | Decimal.D7 d => uint_val (10 * acc + 7) d
  | Decimal.D8 d => uint_val (10 * acc + 8) d
  | Decimal.D9 d => uint_val (10 * acc + 9) d
  end.

(** The product code and the quantity descriptor of a row, as both
    [create_stocks] read them. *)
Definition code (watch : dict) : string := Py.str (get watch "Код").
Definition descriptor (watch : dict) : string := Py.str (get watch "Количество").

(** The quantity policy in the words of the specification: [">10"] is
    100, ["1"] is 0, any other descriptor is parsed as an integer. *)
Definition spec_quantity `{!Unicode} (descriptor : string) : option Z :=
  if decide (descriptor = ">10") then Some 100
  else if decide (descriptor = "1") then Some 0
  else Py.parse_int descriptor.

(** The price policy in the words of the specification: what is left of
    a text when every character that is not a digit is removed. *)
Definition digits_only (s : string) : string :=
  string_of_list_ascii (List.filter Py.is_digit (list_ascii_of_string s)).

(** The batch partition in the words of the specification: the [k]-th
    batch is the slice of [size] records that starts at record [k * size]. *)
Definition batch {A} (lst : list A) (size k : nat) : list A :=
  take size (drop (k * size) lst).

(** The number of values of [range(0, len(lst), n)] for a positive [n]. *)
Definition batch_count {A} (lst : list A) (n : Z) : nat :=
  Z.to_nat (if decide (0 < Py.len lst) then (Py.len lst - 0 - 1) / n + 1 else 0).

(** The quantity descriptor of the row does not parse to a negative
    integer. *)
Definition no_negative_quantity `{!Unicode} (watch : dict) : Prop :=
  ∀ q, Py.parse_int (descriptor watch) = Some q → 0 ≤ q.

(** The failure kinds of the specification, and the kind of each
    exception of the core: a parse failure is the [ValueError] of
    [int], an invalid argument is the [ValueError] of [range]. *)
Inductive failure := ParseError | InvalidArgument | OtherFailure.

Definition classify (e : exn) : failure :=
  match e with
  | ValueError b_int => ParseError
  | ValueError b_range => InvalidArgument
  | _ => OtherFailure
  end.

(** The exception a computation ends with, if any. *)
Definition raised {A} (r : result A * list string) : option exn :=
  match r.1 with
  | Ok _ => None
  | Raise e => Some e
  end.

(** A row whose cells have the types the specification gives them: the
    quantity is text (or an integer cell, whose [str] is its text), the
    price is text. *)
Definition has_quantity (watch : dict) : Prop := get watch "Количество" ≠ Py.PyNone.
Definition has_text_price (watch : dict) : Prop := ∃ s, get watch "Цена" = Py.PyStr s.

(** The price cell of the row is text with a digit before its first
    point: [price_conversion] returns digits, and not the empty text. *)
Definition has_price_digits (watch : dict) : Prop :=
  ∃ digits, Seller.price_conversion (get watch "Цена") = Ok digits ∧ digits ≠ "".

(** The exception of [int] on a quantity cell that does not convert. *)
Definition quantity_failure (watch : dict) : exn :=
  match get watch "Количество" with
  | Py.PyNone => TypeError b_int
  | _ => ValueError b_int
  end.

(** A price record of [seller.py] is the record of the row [watch]. *)
Definition seller_price_of (watch : dict) (p : Seller.Price.t) : Prop :=
  Seller.Price.offer_id p = code watch
  ∧ Seller.price_conversion (get watch "Цена") = Ok (Seller.Price.price p).

(** A price record of [market.py] is the record of the row [watch]. *)
Definition market_price_of `{!Unicode} (watch : dict) (p : Market.Price.t) : Prop :=
  Market.Price.id p = code watch
  ∧ ∃ converted, Seller.price_conversion (get watch "Цена") = Ok converted
       ∧ Py.int (Py.PyStr converted) = Ok (Market.PriceValue.value (Market.Price.price p)).

(** The Yandex stock record carrying what an Ozon stock record carries. *)
Definition to_market (warehouse_id date : string) (s : Seller.Stock.t) : Market.Stock.t :=
  Market.Stock.mk (Seller.Stock.offer_id s) warehouse_id
    [Market.Item.mk (Seller.Stock.stock s) "FIT" date].

(** The [updatedAt] stamp of a call at [utcnow]. *)
Definition stamp (utcnow : Market.datetime) : string :=
  Market.isoformat (Market.replace_microsecond utcnow 0) +:+ "Z".

(** A Yandex stock record without its time stamps. *)
Definition undated (s : Market.Stock.t) : string * string * list (Z * string) :=
  (Market.Stock.sku s, Market.Stock.warehouseId s,
   (λ i, (Market.Item.count i, Market.Item.type i)) <$> Market.Stock.items s).

(** What [l.remove(x)] leaves, [l] itself when [x] is not in it. *)
Definition without (x : string) (l : list string) : list string :=
  default l (Py.remove_first x l).

(** ** Sample data *)

(** An interpreter that knows no digit and no white space beyond ASCII. *)
Definition ascii_tables : Unicode := λ _, None.

(** A row with the three columns the core reads. *)
Definition row (code quantity price : Py.value) : dict :=
  {[ "Код" := code; "Количество" := quantity; "Цена" := price ]}.

Definition sample_rows : list dict :=
  [ row (Py.PyStr "100") (Py.PyStr "5") (Py.PyStr "5 000 руб.");
    row (Py.PyInt 300) (Py.PyStr ">10") (Py.PyStr "5'990.00 руб.");
    row (Py.PyStr "100") (Py.PyInt 7) (Py.PyStr "1 200.50 руб.");
    row (Py.PyStr "400") (Py.PyInt 1) (Py.PyStr "990 руб.") ].

Definition sample_offer_ids : list string := ["200"; "100"; "400"].

(** Two rows, the second with a quantity that is no number. *)
Definition rows_with_bad_quantity : list dict :=
  [ row (Py.PyStr "100") (Py.PyStr "5") (Py.PyStr "5 000 руб.");
    row (Py.PyStr "200") (Py.PyStr "n/a") (Py.PyStr "990 руб.") ].

(** Three readings of the clock: noon, the same second a quarter of a
    millisecond later, and a second after noon. *)
Definition noon : Market.datetime :=
  {| Market.year := 2024; Market.month := 3; Market.day := 9;
     Market.hour := 12; Market.minute := 0; Market.second := 0;
     Market.microsecond := 0 |}.

Definition noon_and_250_microseconds : Market.datetime :=
  Market.replace_microsecond noon 250.

Definition noon_and_1_second : Market.datetime :=
  {| Market.year := 2024; Market.month := 3; Market.day := 9;
     Market.hour := 12; Market.minute := 0; Market.second := 1;
     Market.microsecond := 0 |}.

(** ** The collaborators: marketplaces, inventory source, console

    What follows embeds the functions of [seller.py] and [market.py]
    that call out: the requests to the marketplaces, the download of
    the inventory, the two [main].  A run is a function of the log of
    what has happened so far; what a collaborator answers to a call is
    a parameter ([Ozon.World], [Yandex.World]) that may depend on the
    whole log.  A response has the shape the marketplace documents. *)

(** What a call can raise: an exception of the core, one of the three
    classes that the two [main] tell apart, or any other [Exception]. *)
Inductive error :=
  | Core (e : exn)
  | ReadTimeout       (* requests.exceptions.ReadTimeout *)
  | ConnectionError   (* requests.exceptions.ConnectionError and its subclasses *)
  | HTTPError         (* requests.exceptions.HTTPError, of raise_for_status() *)
  | OtherException.

Inductive outcome (A : Type) : Type :=
  | Return (a : A)
  | Throw (e : error).
Arguments Return {A} a.
Arguments Throw {A} e.

(** A computation that appends to the log of events [E]; [None] when a
    [while True] loop has not ended within the fuel given. *)
Definition io (E A : Type) : Type := list E → option (outcome A * list E).

Definition io_ret {E A} (a : A) : io E A := λ log, Some (Return a, log).

Definition io_bind {E A B} (m : io E A) (k : A → io E B) : io E B :=
  λ log, match m log with
         | Some (Return a, log') => k a log'
         | Some (Throw e, log') => Some (Throw e, log')
         | None => None
         end.

Declare Scope io_scope.
Delimit Scope io_scope with io.
Notation "x <- m ;; k" := (io_bind m (λ x, k))
  (at level 100, m at next level, right associativity) : io_scope.
Notation "m ;;; k" := (io_bind m (λ _, k))
  (at level 100, right associativity) : io_scope.

(** A call to a collaborator: the event is logged, the answer is the
    collaborator's. *)
Definition call {E A} (request : E) (answer : list E → outcome A) : io E A :=
  λ log, Some (answer (log ++ [request]), log ++ [request]).

(** A function of the core, run on the list object [offer_ids]; the list
    as the function leaves it is returned with the result. *)
Definition core {E A} (m : prog A) (offer_ids : list string) : io E (A * list string) :=
  λ log, Some (match m offer_ids with
               | (Ok a, offer_ids') => Return (a, offer_ids')
               | (Raise e, _) => Throw (Core e)
               end, log).

Definition core_result {E A} (r : result A) : io E A :=
  λ log, Some (match r with Ok a => Return a | Raise e => Throw (Core e) end, log).

(** [for x in l: body(x)] *)
Fixpoint io_for_each {E A} (l : list A) (body : A → io E unit) : io E unit :=
  match l with
  | [] => io_ret tt
  | x :: l' => io_bind (body x) (λ _, io_for_each l' body)
  end.

(** [try: body / except ...: handler] where the handlers catch every
    [Exception]. *)
Definition try_except {E A} (body : io E A) (handler : error → io E A) : io E A :=
  λ log, match body log with
         | Some (Throw e, log') => handler e log'
         | r => r
         end.

(** The call of an [async def] function: it returns the coroutine and
    runs nothing of the body, which runs when the coroutine is awaited. *)
Definition coroutine {E A} (body : io E A) : io E (io E A) := io_ret body.

(** [bool(x)] *)
Definition truth (x : Py.value) : bool :=
  match x with
  | Py.PyNone => false
  | Py.PyInt n => negb (n =? 0)
  | Py.PyStr s => negb (String.eqb s "")
  end.

(** *** seller.py and the Ozon API *)

Module Ozon.

(** An item of the product list; its [offer_id] is a string. *)
Record product := { offer_id : string }.

(** The [result] of [/v2/product/list]: [items], [total], [last_id]. *)
Record page := { items : list product; total : Z; last_id : string }.

Inductive event :=
  | ProductList (last_id client_id seller_token : string)
  | ImportPrices (prices : list Seller.Price.t) (client_id seller_token : string)
  | ImportStocks (stocks : list Seller.Stock.t) (client_id seller_token : string)
  | DownloadStock
  | Print (error : option error) (text : string).

(** The answers to the last event of the log: of Ozon to a request, of
    the inventory source to a download. *)
Class World := {
  product_list : list event → outcome page;
  imported : list event → outcome unit;
  downloaded : list event → outcome (list dict)
}.

Section Calls.
Context `{!World} `{!Unicode}.

Definition get_product_list (last_id client_id seller_token : string) : io event page :=
  call (ProductList last_id client_id seller_token) product_list.

(** The [while True] loop of [get_offer_ids]. *)
Fixpoint get_offer_ids_loop (fuel : nat) (client_id seller_token : string)
    (last_id : string) (product_list : list product) : io event (list product) :=
  match fuel with
  | O => λ _, None
  | S fuel' =>
      (some_prod <- get_product_list last_id client_id seller_token ;;
       let product_list := product_list ++ items some_prod in
       let total := total some_prod in
       let last_id := Ozon.last_id some_prod in
       if decide (total = Py.len product_list) then io_ret product_list
       else get_offer_ids_loop fuel' client_id seller_token last_id product_list)%io
  end.

Definition get_offer_ids (fuel : nat) (client_id seller_token : string)
  : io event (list string) :=
  (product_list <- get_offer_ids_loop fuel client_id seller_token "" [] ;;
   io_ret (offer_id <$> product_list))%io.

(** The answer of Ozon is returned to callers that all drop it. *)
Definition update_price (prices : list Seller.Price.t) (client_id seller_token : string)
  : io event unit :=
  call (ImportPrices prices client_id seller_token) imported.

Definition update_stocks (stocks : list Seller.Stock.t) (client_id seller_token : string)
  : io event unit :=
  call (ImportStocks stocks client_id seller_token) imported.

Definition download_stock : io event (list dict) := call DownloadStock downloaded.

(** The body of the coroutine [upload_prices]. *)
Definition upload_prices (fuel : nat) (watch_remnants : list dict)
    (client_id seller_token : string) : io event (list Seller.Price.t) :=
  (offer_ids <- get_offer_ids fuel client_id seller_token ;;
   created <- core (Seller.create_prices watch_remnants) offer_ids ;;
   let prices := created.1 in
   batches <- core_result (Seller.divide prices 1000) ;;
   io_for_each batches (λ some_price, update_price some_price client_id seller_token) ;;;
   io_ret prices)%io.

(** The body of the coroutine [upload_stocks]. *)
Definition upload_stocks (fuel : nat) (watch_remnants : list dict)
    (client_id seller_token : string)
  : io event (list Seller.Stock.t * list Seller.Stock.t) :=
  (offer_ids <- get_offer_ids fuel client_id seller_token ;;
   created <- core (Seller.create_stocks watch_remnants) offer_ids ;;
   let stocks := created.1 in
   batches <- core_result (Seller.divide stocks 100) ;;
   io_for_each batches (λ some_stock, update_stocks some_stock client_id seller_token) ;;;
   let not_empty := filter (λ stock, Seller.Stock.stock stock ≠ 0) stocks in
   io_ret (not_empty, stocks))%io.

(** The three [except] clauses of [main]. *)
Definition report (e : error) : io event unit :=
  match e with
  | ReadTimeout => call (Print None "Превышено время ожидания...") (λ _, Return tt)
  | ConnectionError => call (Print (Some e) "Ошибка соединения") (λ _, Return tt)
  | _ => call (Print (Some e) "ERROR_2") (λ _, Return tt)
  end.

(** The [try] block of [main]. *)
Definition main_try (fuel : nat) (seller_token client_id : string) : io event unit :=
  (offer_ids <- get_offer_ids fuel client_id seller_token ;;
   watch_remnants <- download_stock ;;
   created <- core (Seller.create_stocks watch_remnants) offer_ids ;;
   let stocks := created.1 in
   let offer_ids := created.2 in
   batches <- core_result (Seller.divide stocks 100) ;;
   io_for_each batches (λ some_stock, update_stocks some_stock client_id seller_token) ;;;
   created <- core (Seller.create_prices watch_remnants) offer_ids ;;
   let prices := created.1 in
   batches <- core_result (Seller.divide prices 900) ;;
   io_for_each batches (λ some_price, update_price some_price client_id seller_token))%io.

(** [main], with the two settings read from the environment. *)
Definition main (fuel : nat) (seller_token client_id : string) : io event unit :=
  try_except (main_try fuel seller_token client_id) report.

End Calls.

End Ozon.

(** *** market.py and the Yandex Market API *)

Module Yandex.

(** An entry of the offer mapping; [offer.shopSku] is a string. *)
Record entry := { shopSku : string }.

(** The [result] of [offer-mapping-entries]: the entries and
    [paging.nextPageToken], [None] when there is no further page. *)
Record page := { offerMappingEntries : list entry; nextPageToken : Py.value }.

Inductive event :=
  | OfferMappingEntries (page : Py.value) (campaign_id access_token : string)
  | PutStocks (stocks : list Market.Stock.t) (campaign_id access_token : string)
  | PostPrices (prices : list Market.Price.t) (campaign_id access_token : string)
  | Print (error : option error) (text : string).

(** The answers of Yandex to the last request of the log, and the clock. *)
Class World := {
  offer_mapping_entries : list event → outcome page;
  updated : list event → outcome unit;
  utcnow : list event → Market.datetime
}.

Section Calls.
Context `{!World} `{!Unicode}.

Definition get_product_list (page : Py.value) (campaign_id access_token : string)
  : io event Yandex.page :=
  call (OfferMappingEntries page campaign_id access_token) offer_mapping_entries.

Definition update_stocks (stocks : list Market.Stock.t) (campaign_id access_token : string)
  : io event unit :=
  call (PutStocks stocks campaign_id access_token) updated.

Definition update_price (prices : list Market.Price.t) (campaign_id access_token : string)
  : io event unit :=
  call (PostPrices prices campaign_id access_token) updated.

(** The [while True] loop of [get_offer_ids]. *)
Fixpoint get_offer_ids_loop (fuel : nat) (campaign_id market_token : string)
    (page : Py.value) (product_list : list entry) : io event (list entry) :=
  match fuel with
  | O => λ _, None
  | S fuel' =>
      (some_prod <- get_product_list page campaign_id market_token ;;
       let product_list := product_list ++ offerMappingEntries some_prod in
       let page := nextPageToken some_prod in
       if negb (truth page) then io_ret product_list
       else get_offer_ids_loop fuel' campaign_id market_token page product_list)%io
  end.

Definition get_offer_ids (fuel : nat) (campaign_id market_token : string)
  : io event (list string) :=
  (product_list <- get_offer_ids_loop fuel campaign_id market_token (Py.PyStr "") [] ;;
   io_ret (shopSku <$> product_list))%io.

(** [create_stocks], with the clock read at the call. *)
Definition create_stocks (watch_remnants : list dict) (offer_ids : list string)
    (warehouse_id : string) : io event (list Market.Stock.t * list string) :=
  λ log, core (Market.create_stocks (utcnow log) watch_remnants warehouse_id) offer_ids log.

(** The body of the coroutine [upload_prices]. *)
Definition upload_prices (fuel : nat) (watch_remnants : list dict)
    (campaign_id market_token : string) : io event (list Market.Price.t) :=
  (offer_ids <- get_offer_ids fuel campaign_id market_token ;;
   created <- core (Market.create_prices watch_remnants) offer_ids ;;
   let prices := created.1 in
   batches <- core_result (Seller.divide prices 500) ;;
   io_for_each batches (λ some_prices, update_price some_prices campaign_id market_token) ;;;
   io_ret prices)%io.

(** [stock.get("items")[0].get("count") != 0] *)
Definition count_not_zero (stock : Market.Stock.t) : result bool :=
  (item <- Py.getitem0 (Market.Stock.items stock) ;;
   Ok (negb (Market.Item.count item =? 0)))%result.

(** [list(filter(f, l))] for an [f] that can raise. *)
Fixpoint py_filter {A} (f : A → result bool) (l : list A) : result (list A) :=
  match l with
  | [] => Ok []
  | x :: l' =>
      (keep <- f x ;;
       rest <- py_filter f l' ;;
       Ok (if keep : bool then x :: rest else rest))%result
  end.

(** The body of the coroutine [upload_stocks]. *)
Definition upload_stocks (fuel : nat) (watch_remnants : list dict)
    (campaign_id market_token warehouse_id : string)
  : io event (list Market.Stock.t * list Market.Stock.t) :=
  (offer_ids <- get_offer_ids fuel campaign_id market_token ;;
   created <- create_stocks watch_remnants offer_ids warehouse_id ;;
   let stocks := created.1 in
   batches <- core_result (Seller.divide stocks 2000) ;;
   io_for_each batches (λ some_stock, update_stocks some_stock campaign_id market_token) ;;;
   not_empty <- core_result (py_filter count_not_zero stocks) ;;
   io_ret (not_empty, stocks))%io.

(** The three [except] clauses of [main]. *)
Definition report (e : error) : io event unit :=
  match e with
  | ReadTimeout => call (Print None "Превышено время ожидания...") (λ _, Return tt)
  | ConnectionError => call (Print (Some e) "Ошибка соединения") (λ _, Return tt)
  | _ => call (Print (Some e) "ERROR_2") (λ _, Return tt)
  end.

(** The [try] block of [main].  The two calls of [upload_prices] are
    not awaited. *)
Definition main_try (fuel : nat) (watch_remnants : list dict)
    (market_token campaign_fbs_id campaign_dbs_id warehouse_fbs_id warehouse_dbs_id : string)
  : io event unit :=
  (offer_ids <- get_offer_ids fuel campaign_fbs_id market_token ;;
   created <- create_stocks watch_remnants offer_ids warehouse_fbs_id ;;
   let stocks := created.1 in
   batches <- core_result (Seller.divide stocks 2000) ;;
   io_for_each batches
     (λ some_stock, update_stocks some_stock campaign_fbs_id market_token) ;;;
   coroutine (upload_prices fuel watch_remnants campaign_fbs_id market_token) ;;;
   offer_ids <- get_offer_ids fuel campaign_dbs_id market_token ;;
   created <- create_stocks watch_remnants offer_ids warehouse_dbs_id ;;
   let stocks := created.1 in
   batches <- core_result (Seller.divide stocks 2000) ;;
   io_for_each batches
     (λ some_stock, update_stocks some_stock campaign_dbs_id market_token) ;;;
   coroutine (upload_prices fuel watch_remnants campaign_dbs_id market_token) ;;;
   io_ret tt)%io.

(** [main] once [download_stock()] has returned [watch_remnants], with
    the five settings read from the environment. *)
Definition main (fuel : nat) (watch_remnants : list dict)
    (market_token campaign_fbs_id campaign_dbs_id warehouse_fbs_id warehouse_dbs_id : string)
  : io event unit :=
  try_except
    (main_try fuel watch_remnants market_token campaign_fbs_id campaign_dbs_id
       warehouse_fbs_id warehouse_dbs_id)
    report.

End Calls.

End Yandex.

(** ** Definitions used by the statements about the collaborators *)

(** The computation [m] only appends events that satisfy [P] to the log. *)
Definition appends {E A} (P : E → Prop) (m : io E A) : Prop :=
  ∀ log r log', m log = Some (r, log') → ∃ new, log' = log ++ new ∧ Forall P new.


(** The computation [m] ends, from whatever log: no loop in it runs out
    of fuel. *)
Definition ends {E A} (m : io E A) : Prop := ∀ log, m log ≠ None.

(** The exception of an outcome, if any. *)
Definition thrown {A} (o : outcome A) : option error :=
  match o with
  | Return _ => None
  | Throw e => Some e
  end.

(** The requests [requests], made one after the other from the log
    [log], were all answered: none raised.  [refusal] gives what the
    collaborator raised at the last request of a log, if anything. *)
Fixpoint all_answered {E} (refusal : list E → option error) (log requests : list E) : Prop :=
  match requests with
  | [] => True
  | request :: requests' =>
      refusal (log ++ [request]) = None
      ∧ all_answered refusal (log ++ [request]) requests'
  end.

(** How a run that made the requests [requests] from the log [log] has
    gone, when it ended with the exception [e] or, for [None], with
    none: every request was answered but for the last one, which raised
    [e], unless [e] came from the core, after requests that were all
    answered. *)
Definition stopped {E} (refusal : list E → option error) (log requests : list E)
    (e : option error) : Prop :=
  match e with
  | None => all_answered refusal log requests
  | Some e =>
      (all_answered refusal log requests ∧ ∃ e', e = Core e')
      ∨ ∃ front request,
          requests = front ++ [request]
          ∧ all_answered refusal log front
          ∧ refusal (log ++ requests) = Some e
  end.

(** The computation [m] stops at the first request that raises. *)
Definition orderly {E A} (refusal : list E → option error) (m : io E A) : Prop :=
  ∀ log r log', m log = Some (r, log') →
    ∃ requests, log' = log ++ requests ∧ stopped refusal log requests (thrown r).

Section OzonStatements.
Context `{!Ozon.World}.

(** What Ozon, or the inventory source, raised at the last request of
    the log. *)
Definition ozon_refusal (log : list Ozon.event) : option error :=
  match last log with
  | Some (Ozon.ProductList _ _ _) => thrown (Ozon.product_list log)
  | Some (Ozon.ImportPrices _ _ _) | Some (Ozon.ImportStocks _ _ _) =>
      thrown (Ozon.imported log)
  | Some Ozon.DownloadStock => thrown (Ozon.downloaded log)
  | Some (Ozon.Print _ _) | None => None
  end.

(** The requests by which [get_offer_ids] fetches the pages [pages],
    the first with the cursor [last_id], each other with the cursor
    that the page before it gave. *)
Definition ozon_requests (client_id seller_token last_id : string)
    (pages : list Ozon.page) : list Ozon.event :=
  (λ l, Ozon.ProductList l client_id seller_token)
    <$> take (length pages) (last_id :: (Ozon.last_id <$> pages)).

(** [pages] are the answers to these requests, made from the log [log]
    with [product_list] already fetched; the last page, and no page
    before it, reports as total the number of products fetched by
    then. *)
Definition ozon_paging (client_id seller_token : string) (log : list Ozon.event)
    (last_id : string) (product_list : list Ozon.product) (pages : list Ozon.page) : Prop :=
  (∀ (k : nat) page, pages !! k = Some page →
     Ozon.product_list
       (log ++ take (S k) (ozon_requests client_id seller_token last_id pages))
     = Return page
     ∧ ((S k < length pages)%nat →
        Ozon.total page
        ≠ Py.len (product_list ++ concat (Ozon.items <$> take (S k) pages))))
  ∧ ∃ page, last pages = Some page
      ∧ Ozon.total page = Py.len (product_list ++ concat (Ozon.items <$> pages)).

End OzonStatements.

Definition is_product_list (client_id seller_token : string) (ev : Ozon.event) : Prop :=
  ∃ last_id, ev = Ozon.ProductList last_id client_id seller_token.

Definition is_import_prices (ev : Ozon.event) : Prop :=
  ∃ prices client_id seller_token, ev = Ozon.ImportPrices prices client_id seller_token.

Definition is_ozon_print (ev : Ozon.event) : Prop :=
  ∃ e text, ev = Ozon.Print e text.

(** The line that [main] of [seller.py] prints for the exception [e]:
    the text alone for a read timeout, the exception and the text
    otherwise. *)
Definition ozon_line (e : error) : Ozon.event :=
  match e with
  | ReadTimeout => Ozon.Print None "Превышено время ожидания..."
  | ConnectionError => Ozon.Print (Some ConnectionError) "Ошибка соединения"
  | _ => Ozon.Print (Some e) "ERROR_2"
  end.

Section YandexStatements.
Context `{!Yandex.World}.


(** The requests by which [get_offer_ids] fetches the pages [pages],
    the first with the token [page], each other with the token that
    the page before it gave. *)
Definition yandex_requests (campaign_id market_token : string) (page : Py.value)
    (pages : list Yandex.page) : list Yandex.event :=
  (λ token, Yandex.OfferMappingEntries token campaign_id market_token)
    <$> take (length pages) (page :: (Yandex.nextPageToken <$> pages)).

(** [pages] are the answers to these requests, made from the log [log];
    the last page, and no page before it, gives no token. *)
Definition yandex_paging (campaign_id market_token : string) (log : list Yandex.event)
    (page : Py.value) (pages : list Yandex.page) : Prop :=
  (∀ (k : nat) answer, pages !! k = Some answer →
     Yandex.offer_mapping_entries
       (log ++ take (S k) (yandex_requests campaign_id market_token page pages))
     = Return answer
     ∧ ((S k < length pages)%nat → truth (Yandex.nextPageToken answer) = true))
  ∧ ∃ answer, last pages = Some answer ∧ truth (Yandex.nextPageToken answer) = false.

End YandexStatements.

Definition is_offer_mapping_entries (campaign_id market_token : string)
    (ev : Yandex.event) : Prop :=
  ∃ page, ev = Yandex.OfferMappingEntries page campaign_id market_token.

Definition is_post_prices (ev : Yandex.event) : Prop :=
  ∃ prices campaign_id access_token, ev = Yandex.PostPrices prices campaign_id access_token.

Definition is_yandex_print (ev : Yandex.event) : Prop :=
  ∃ e text, ev = Yandex.Print e text.



(** ** Sample worlds *)

(** An Ozon catalogue of three products that comes in two pages; every
    import is accepted and the download gives [sample_rows]. *)
Definition ozon_first_page : Ozon.page :=
  {| Ozon.items := [ {| Ozon.offer_id := "200" |}; {| Ozon.offer_id := "100" |} ];
     Ozon.total := 3;
     Ozon.last_id := "100" |}.

Definition ozon_second_page : Ozon.page :=
  {| Ozon.items := [ {| Ozon.offer_id := "400" |} ];
     Ozon.total := 3;
     Ozon.last_id := "400" |}.

Definition ozon_two_pages : Ozon.World :=
  {| Ozon.product_list log :=
       match last log with
       | Some (Ozon.ProductList "" _ _) => Return ozon_first_page
       | Some (Ozon.ProductList _ _ _) => Return ozon_second_page
       | _ => Throw OtherException
       end;
     Ozon.imported _ := Return tt;
     Ozon.downloaded _ := Return sample_rows |}.

(** Ozon refuses every request, the inventory source is not reached. *)
Definition ozon_down : Ozon.World :=
  {| Ozon.product_list _ := Throw HTTPError;
     Ozon.imported _ := Throw HTTPError;
     Ozon.downloaded _ := Throw ConnectionError |}.

(** Ozon reports one product and delivers none. *)
Definition ozon_stalling : Ozon.World :=
  {| Ozon.product_list _ := Return {| Ozon.items := []; Ozon.total := 1; Ozon.last_id := "" |};
     Ozon.imported _ := Return tt;
     Ozon.downloaded _ := Return sample_rows |}.

(** Ozon serves the catalogue and refuses every import. *)
Definition ozon_read_only : Ozon.World :=
  {| Ozon.product_list := @Ozon.product_list ozon_two_pages;
     Ozon.imported _ := Throw HTTPError;
     Ozon.downloaded _ := Return sample_rows |}.

(** A Yandex offer mapping of three entries that comes in two pages;
    every update is accepted and the clock stands at noon. *)
Definition yandex_first_page : Yandex.page :=
  {| Yandex.offerMappingEntries := [ {| Yandex.shopSku := "200" |}; {| Yandex.shopSku := "100" |} ];
     Yandex.nextPageToken := Py.PyStr "eyBuZXh0" |}.

Definition yandex_second_page : Yandex.page :=
  {| Yandex.offerMappingEntries := [ {| Yandex.shopSku := "400" |} ];
     Yandex.nextPageToken := Py.PyNone |}.

Definition yandex_two_pages : Yandex.World :=
  {| Yandex.offer_mapping_entries log :=
       match last log with
       | Some (Yandex.OfferMappingEntries (Py.PyStr "") _ _) => Return yandex_first_page
       | Some (Yandex.OfferMappingEntries _ _ _) => Return yandex_second_page
       | _ => Throw OtherException
       end;
     Yandex.updated _ := Return tt;
     Yandex.utcnow _ := noon |}.


(** Yandex refuses every request. *)
Definition yandex_down : Yandex.World :=
  {| Yandex.offer_mapping_entries _ := Throw HTTPError;
     Yandex.updated _ := Throw HTTPError;
     Yandex.utcnow _ := noon |}.

(** Yandex gives a next-page token with every page. *)
Definition yandex_endless : Yandex.World :=
  {| Yandex.offer_mapping_entries _ := Return yandex_first_page;
     Yandex.updated _ := Return tt;
     Yandex.utcnow _ := noon |}.

(** The records that the sample rows give for the sample catalogue. *)
Definition sample_stocks : list Seller.Stock.t :=
  [ Seller.Stock.mk "100" 5; Seller.Stock.mk "400" 0; Seller.Stock.mk "200" 0 ].

Definition sample_prices : list Seller.Price.t :=
  [ Seller.Price.mk "UNKNOWN" "RUB" "100" "0" "5000";
    Seller.Price.mk "UNKNOWN" "RUB" "100" "0" "1200";
    Seller.Price.mk "UNKNOWN" "RUB" "400" "0" "990" ].


Definition sample_market_prices : list Market.Price.t :=
  [ Market.Price.mk "100" (Market.PriceValue.mk 5000 "RUR");
    Market.Price.mk "100" (Market.PriceValue.mk 1200 "RUR");
    Market.Price.mk "400" (Market.PriceValue.mk 990 "RUR") ].

(** * Facts about the builtins *)

Section Decimal.
Context `{!Unicode}.

Lemma int_digits_string_of_uint d acc b :
  d ≠ Decimal.Nil ∨ b = true →
  Py.int_digits acc b (NilEmpty.string_of_uint d) = Some (uint_val acc d).
Proof.
  revert acc b.
  induction d; intros acc b Hd; cbn [NilEmpty.string_of_uint];
    try (change (Py.int_digits acc b (String ?c ?s))
           with (Py.int_digits (10 * acc + Py.digit_val c) true s);
         rewrite IHd by auto; reflexivity).
  destruct Hd as [Hd | ->]; [congruence | reflexivity].
Qed.

Lemma uint_val_pos d (acc : positive) :
  uint_val (Z.pos acc) d = Z.pos (Pos.of_uint_acc d acc).
Proof.
  revert acc.
  induction d; intros acc; cbn [uint_val Pos.of_uint_acc];
    try reflexivity; rewrite <- IHd; f_equal; lia.
Qed.

Lemma uint_val_0 d : uint_val 0 d = Z.of_N (Pos.of_uint d).
Proof.
  induction d; cbn [uint_val Pos.of_uint]; try reflexivity;
    try (apply IHd); apply (uint_val_pos d).
Qed.

Lemma uint_val_to_uint p : uint_val 0 (Pos.to_uint p) = Z.pos p.
Proof. by rewrite uint_val_0, DecimalPos.Unsigned.of_to. Qed.

Lemma is_ascii_string_of_uint d : Py.is_ascii (NilEmpty.string_of_uint d) = true.
Proof. induction d; cbn [NilEmpty.string_of_uint Py.is_ascii]; by try rewrite IHd. Qed.

Lemma is_ascii_str_int n : Py.is_ascii (Py.str (Py.PyInt n)) = true.
Proof.
  destruct n as [| p | p]; [reflexivity | |];
    cbn [Py.str Z.to_int NilEmpty.string_of_int Py.is_ascii];
    by rewrite is_ascii_string_of_uint.
Qed.

Lemma parse_ascii_int_str n : Py.parse_ascii_int (Py.str (Py.PyInt n)) = Some n.
Proof.
  destruct n as [| p | p]; [reflexivity | |]; cbn [Py.str Z.to_int NilEmpty.string_of_int].
  - pose proof (DecimalPos.Unsigned.to_uint_nonnil p) as Hnil.
    pose proof (uint_val_to_uint p) as Hval.
    pose proof (int_digits_string_of_uint (Pos.to_uint p) 0 false (or_introl Hnil)) as Hd.
    destruct (Pos.to_uint p); [congruence | ..];
      unfold Py.parse_ascii_int; cbn [NilEmpty.string_of_uint Py.skip_spaces];
      (etrans; [exact Hd | by rewrite Hval]).
  - pose proof (DecimalPos.Unsigned.to_uint_nonnil p) as Hnil.
    unfold Py.parse_ascii_int. cbn [Py.skip_spaces].
    change (Py.is_space "-") with false. cbv iota.
    rewrite int_digits_string_of_uint by auto.
    by rewrite uint_val_to_uint.
Qed.

(** [int(str(n)) == n] for every integer. *)
Lemma parse_int_str n : Py.parse_int (Py.str (Py.PyInt n)) = Some n.
Proof. unfold Py.parse_int. rewrite is_ascii_str_int. apply parse_ascii_int_str. Qed.

End Decimal.

(** * The monads *)

Section Loops.
Context {A B : Type}.

Lemma for_each_app (l1 l2 : list A) (body : A → B → prog B) acc σ :
  for_each (l1 ++ l2) body acc σ = bind (for_each l1 body acc) (for_each l2 body) σ.
Proof.
  revert acc σ. induction l1 as [| x l1 IH]; intros acc σ; [done |].
  cbn [app for_each]. unfold bind in *.
  destruct (body x acc σ) as [[a | e] σ1]; [apply IH | done].
Qed.

End Loops.

(** * List removal *)

Section Remove.
Implicit Types (x y : string) (l : list string).

Lemma remove_first_elem x l :
  x ∈ l → ∃ l', Py.remove_first x l = Some l' ∧ l ≡ₚ x :: l'.
Proof.
  induction l as [| y l IH]; intros Hin; [by apply not_elem_of_nil in Hin |].
  cbn [Py.remove_first]. destruct (decide (x = y)) as [-> | Hne]; [by eexists |].
  apply elem_of_cons in Hin as [? | Hin]; [done |].
  destruct (IH Hin) as (l' & -> & Hperm). eexists; split; [done |].
  rewrite Hperm. apply Permutation_swap.
Qed.

Lemma remove_first_None x l : x ∉ l → Py.remove_first x l = None.
Proof.
  induction l as [| y l IH]; intros Hin; [done |].
  apply not_elem_of_cons in Hin as [Hne Hin]. cbn [Py.remove_first].
  rewrite decide_False by done. by rewrite IH.
Qed.

Lemma without_perm x l : x ∈ l → l ≡ₚ x :: without x l.
Proof. intros (l' & Heq & Hperm)%remove_first_elem. unfold without. by rewrite Heq. Qed.

Lemma without_other x y l : y ∈ l → y ≠ x → y ∈ without x l.
Proof.
  intros Hy Hne. destruct (decide (x ∈ l)) as [Hx | Hx].
  - rewrite (without_perm x l Hx) in Hy.
    by apply elem_of_cons in Hy as [? | ?].
  - unfold without. by rewrite remove_first_None.
Qed.

End Remove.

(** * The loop of [create_stocks] *)

Section SellerStocks.
Context `{!Unicode}.
Import Seller.
Implicit Types (watch : dict) (stocks : list Stock.t) (σ : list string).

(** One pass of the loop body, by cases on the membership test. *)
Lemma create_stocks_row_eq watch stocks σ :
  create_stocks_row watch stocks σ =
    if decide (code watch ∈ σ) then
      match stock_of watch with
      | Ok q => (Ok (stocks ++ [Stock.mk (code watch) q]), without (code watch) σ)
      | Raise e => (Raise e, σ)
      end
    else (Ok stocks, σ).
Proof.
  unfold create_stocks_row, bind, contents, lift, Py.list_remove, Py.py_in, ret.
  fold (code watch). destruct (decide (code watch ∈ σ)) as [Hin | Hin].
  - rewrite bool_decide_eq_true_2 by done.
    destruct (stock_of watch) as [q | e]; [| done].
    destruct (remove_first_elem _ _ Hin) as (σ' & Heq & _).
    unfold without. by rewrite Heq.
  - by rewrite bool_decide_eq_false_2.
Qed.

(** What the first loop has done when it ends normally: it appended a
    record per consumed identifier, each built from one of the rows. *)
Lemma stocks_loop_ok watch_remnants : ∀ stocks σ stocks' σ',
  for_each watch_remnants create_stocks_row stocks σ = (Ok stocks', σ') →
  ∃ new,
    stocks' = stocks ++ new
    ∧ σ ≡ₚ (Stock.offer_id <$> new) ++ σ'
    ∧ Forall (λ r, ∃ watch, watch ∈ watch_remnants
                     ∧ Stock.offer_id r = code watch
                     ∧ stock_of watch = Ok (Stock.stock r)) new
    ∧ (∀ watch, watch ∈ watch_remnants → code watch ∈ σ →
                code watch ∈ Stock.offer_id <$> new).
Proof.
  induction watch_remnants as [| watch rows IH]; intros stocks σ stocks' σ' Hrun.
  { cbn in Hrun. injection Hrun as <- <-. exists []. rewrite app_nil_r.
    split_and!; [done | done | constructor |]. by intros ? ?%not_elem_of_nil. }
  cbn [for_each] in Hrun. unfold bind in Hrun.
  rewrite create_stocks_row_eq in Hrun.
  destruct (decide (code watch ∈ σ)) as [Hin | Hin].
  - destruct (stock_of watch) as [q | e] eqn:Hq; [| done].
    apply IH in Hrun as (new & -> & Hperm & Hnew & Hall).
    exists (Stock.mk (code watch) q :: new). split_and!.
    + by rewrite <- app_assoc.
    + rewrite (without_perm _ _ Hin). cbn. by rewrite Hperm.
    + constructor.
      * exists watch. split_and!; [left | done | done].
      * eapply Forall_impl; [exact Hnew |].
        intros r (w & ? & ? & ?). exists w. split_and!; [by right | done | done].
    + intros w [-> | Hw]%elem_of_cons Hcode; [left |].
      destruct (decide (code w = code watch)) as [-> | Hne]; [left |].
      right. apply Hall; [done |]. by apply without_other.
  - apply IH in Hrun as (new & -> & Hperm & Hnew & Hall).
    exists new. split_and!; [done | done | |].
    + eapply Forall_impl; [exact Hnew |].
      intros r (w & ? & ? & ?). exists w. split_and!; [by right | done | done].
    + intros w [-> | Hw]%elem_of_cons Hcode; [done |]. by apply Hall.
Qed.

(** The first loop raises only what [stock_of] raises. *)
Lemma stocks_loop_raise watch_remnants : ∀ stocks σ e σ',
  for_each watch_remnants create_stocks_row stocks σ = (Raise e, σ') →
  ∃ watch, watch ∈ watch_remnants ∧ stock_of watch = Raise e.
Proof.
  induction watch_remnants as [| watch rows IH]; intros stocks σ e σ' Hrun; [done |].
  cbn [for_each] in Hrun. unfold bind in Hrun.
  rewrite create_stocks_row_eq in Hrun.
  destruct (decide (code watch ∈ σ)) as [Hin | Hin].
  - destruct (stock_of watch) as [q | e'] eqn:Hq.
    + apply IH in Hrun as (w & ? & ?). exists w. split; [by right | done].
    + injection Hrun as -> _. exists watch. split; [left | done].
  - apply IH in Hrun as (w & ? & ?). exists w. split; [by right | done].
Qed.

Lemma create_stocks_ok watch_remnants σ stocks σ' :
  create_stocks watch_remnants σ = (Ok stocks, σ') →
  ∃ new,
    stocks = new ++ ((λ offer_id, Stock.mk offer_id 0) <$> σ')
    ∧ σ ≡ₚ (Stock.offer_id <$> new) ++ σ'
    ∧ Forall (λ r, ∃ watch, watch ∈ watch_remnants
                     ∧ Stock.offer_id r = code watch
                     ∧ stock_of watch = Ok (Stock.stock r)) new
    ∧ (∀ watch, watch ∈ watch_remnants → code watch ∈ σ →
                code watch ∈ Stock.offer_id <$> new).
Proof.
  unfold create_stocks, bind, contents, ret. intros Hrun.
  destruct (for_each _ _ _ _) as [[stocks1 | e] σ1] eqn:Hloop; [| done].
  injection Hrun as <- <-.
  apply stocks_loop_ok in Hloop as (new & -> & ? & ? & ?). by exists new.
Qed.

Lemma create_stocks_raise watch_remnants σ e σ' :
  create_stocks watch_remnants σ = (Raise e, σ') →
  ∃ watch, watch ∈ watch_remnants ∧ stock_of watch = Raise e.
Proof.
  unfold create_stocks, bind, contents, ret. intros Hrun.
  destruct (for_each _ _ _ _) as [[stocks1 | e1] σ1] eqn:Hloop; [done |].
  injection Hrun as <- <-. by eapply stocks_loop_raise.
Qed.

Lemma offer_id_zeros σ :
  Stock.offer_id <$> ((λ offer_id, Stock.mk offer_id 0) <$> σ) = σ.
Proof. rewrite <- list_fmap_compose. apply list_fmap_id. Qed.

End SellerStocks.

(** * Reconciliation of stocks *)

Section Reconciliation.
Context `{!Unicode}.
Import Seller.

(** [create_stocks] ends normally as soon as every quantity cell converts. *)
Lemma create_stocks_returns (watch_remnants : list dict) (offer_ids : list string) :
  (∀ watch, watch ∈ watch_remnants → ∃ q, stock_of watch = Ok q) →
  ∃ stocks rest, create_stocks watch_remnants offer_ids = (Ok stocks, rest).
Proof.
  intros Hall. destruct (create_stocks _ _) as [[stocks | e] rest] eqn:Hrun; [by eauto |].
  apply create_stocks_raise in Hrun as (watch & Hin & Hraise).
  destruct (Hall watch Hin) as [q Hq]. congruence.
Qed.

(** C1. The stock records that [create_stocks] returns for a
    duplicate-free list of known identifiers carry exactly these
    identifiers, each in exactly one record; an identifier that is the
    code of no inventory row has quantity 0; a row whose code is not a
    known identifier has no record. *)
Theorem create_stocks_covers_known_identifiers
    (watch_remnants : list dict) (offer_ids : list string)
    (stocks : list Stock.t) (rest : list string) :
  NoDup offer_ids →
  create_stocks watch_remnants offer_ids = (Ok stocks, rest) →
  Stock.offer_id <$> stocks ≡ₚ offer_ids
  ∧ NoDup (Stock.offer_id <$> stocks)
  ∧ (∀ i, i ∈ offer_ids →
       ∃ r, r ∈ stocks ∧ Stock.offer_id r = i
            ∧ ∀ r', r' ∈ stocks → Stock.offer_id r' = i → r' = r)
  ∧ (∀ i, i ∈ offer_ids → (∀ watch, watch ∈ watch_remnants → code watch ≠ i) →
       Stock.mk i 0 ∈ stocks)
  ∧ (∀ watch, watch ∈ watch_remnants → code watch ∉ offer_ids →
       ∀ r, r ∈ stocks → Stock.offer_id r ≠ code watch).
Proof.
  intros Hnodup (new & -> & Hperm & Hnew & _)%create_stocks_ok.
  assert (Hids : Stock.offer_id <$> new ++ ((λ offer_id, Stock.mk offer_id 0) <$> rest)
                 ≡ₚ offer_ids).
  { by rewrite fmap_app, offer_id_zeros. }
  assert (Hnodup' : NoDup (Stock.offer_id <$> new ++ ((λ offer_id, Stock.mk offer_id 0) <$> rest))).
  { by rewrite Hids. }
  split_and!; [done | done | | |].
  - intros i Hi. rewrite <- Hids in Hi.
    apply list_elem_of_fmap in Hi as (r & -> & Hr). exists r. split_and!; [done | done |].
    intros r' Hr' Heq.
    apply list_elem_of_lookup in Hr as [k Hk]. apply list_elem_of_lookup in Hr' as [k' Hk'].
    assert (k' = k) as ->; [| congruence].
    eapply NoDup_lookup; [exact Hnodup' | |]; rewrite list_lookup_fmap.
    + by rewrite Hk'.
    + rewrite Hk. cbn. by rewrite Heq.
  - intros i Hi Hrows. rewrite Hperm in Hi.
    apply elem_of_app in Hi as [Hi | Hi].
    + apply list_elem_of_fmap in Hi as (r & -> & Hr).
      rewrite Forall_forall in Hnew. destruct (Hnew r Hr) as (w & Hw & Hcode & _).
      by destruct (Hrows w Hw).
    + apply elem_of_app. right. apply list_elem_of_fmap. by exists i.
  - intros watch _ Hcode r Hr Heq. apply Hcode. rewrite <- Hids, <- Heq.
    apply list_elem_of_fmap. by exists r.
Qed.

End Reconciliation.

(** * The Yandex variant against the Ozon one *)

Section MarketStocks.
Context `{!Unicode}.
Implicit Types (watch : dict) (σ : list string).

Lemma market_create_stocks_row_eq warehouse_id date watch stocks σ :
  Market.create_stocks_row warehouse_id date watch stocks σ =
    if decide (code watch ∈ σ) then
      match stock_of watch with
      | Ok q => (Ok (stocks ++ [to_market warehouse_id date (Seller.Stock.mk (code watch) q)]),
                 without (code watch) σ)
      | Raise e => (Raise e, σ)
      end
    else (Ok stocks, σ).
Proof.
  unfold Market.create_stocks_row, bind, contents, lift, Py.list_remove, Py.py_in, ret.
  fold (code watch). destruct (decide (code watch ∈ σ)) as [Hin | Hin].
  - rewrite bool_decide_eq_true_2 by done.
    destruct (stock_of watch) as [q | e]; [| done].
    destruct (remove_first_elem _ _ Hin) as (σ' & Heq & _).
    unfold without. by rewrite Heq.
  - by rewrite bool_decide_eq_false_2.
Qed.

(** The two first loops run in lock step. *)
Lemma market_loop_as_seller warehouse_id date watch_remnants : ∀ stocks σ,
  for_each watch_remnants (Market.create_stocks_row warehouse_id date)
    (to_market warehouse_id date <$> stocks) σ
  = let r := for_each watch_remnants Seller.create_stocks_row stocks σ in
    (result_map (fmap (to_market warehouse_id date)) r.1, r.2).
Proof.
  induction watch_remnants as [| watch rows IH]; intros stocks σ; [done |].
  cbn [for_each]. unfold bind.
  rewrite market_create_stocks_row_eq, create_stocks_row_eq.
  destruct (decide (code watch ∈ σ)) as [Hin | Hin]; [| apply IH].
  destruct (stock_of watch) as [q | e]; [| done].
  rewrite <- IH. by rewrite fmap_app.
Qed.

(** [market.create_stocks] returns the records of [seller.create_stocks],
    each put in the warehouse and stamped with the time of the call, and
    consumes the list of identifiers in the same way. *)
Lemma market_create_stocks_as_seller utcnow watch_remnants warehouse_id σ :
  Market.create_stocks utcnow watch_remnants warehouse_id σ
  = (result_map (fmap (to_market warehouse_id (stamp utcnow)))
       (Seller.create_stocks watch_remnants σ).1,
     (Seller.create_stocks watch_remnants σ).2).
Proof.
  unfold Market.create_stocks, Seller.create_stocks, bind, contents, ret.
  fold (stamp utcnow).
  pose proof (market_loop_as_seller warehouse_id (stamp utcnow) watch_remnants [] σ) as Hloop.
  cbn [fmap list_fmap] in Hloop. rewrite Hloop. cbn zeta.
  destruct (for_each watch_remnants Seller.create_stocks_row [] σ) as [[stocks | e] σ']; [| done].
  cbn. by rewrite fmap_app, <- list_fmap_compose.
Qed.

Lemma market_create_stocks_ok utcnow (watch_remnants : list dict) warehouse_id σ stocks rest :
  Market.create_stocks utcnow watch_remnants warehouse_id σ = (Ok stocks, rest) →
  ∃ stocks0, Seller.create_stocks watch_remnants σ = (Ok stocks0, rest)
             ∧ stocks = to_market warehouse_id (stamp utcnow) <$> stocks0.
Proof.
  rewrite market_create_stocks_as_seller.
  destruct (Seller.create_stocks watch_remnants σ) as [[stocks0 | e] σ']; [| done].
  intros [= <- <-]. by exists stocks0.
Qed.

End MarketStocks.

(** * The quantity policy *)

Section Quantity.
Context `{!Unicode}.
Implicit Types (watch : dict) (σ : list string).

Lemma stock_of_spec watch :
  stock_of watch = match spec_quantity (descriptor watch) with
                   | Some q => Ok q
                   | None => Raise (quantity_failure watch)
                   end.
Proof.
  unfold stock_of, spec_quantity, quantity_failure, descriptor.
  destruct (decide (_ = ">10")) as [? | _]; [done |].
  destruct (decide (_ = "1")) as [? | _]; [done |].
  destruct (get watch "Количество") as [| n | s]; cbn [Py.int].
  - done.
  - by rewrite parse_int_str.
  - cbn [Py.str]. by destruct (Py.parse_int s).
Qed.

End Quantity.

(** * Reconciliation of prices *)

Section Prices.
Context `{!Unicode}.
Implicit Types (watch : dict) (σ : list string).

Lemma seller_create_prices_row_eq watch prices σ :
  Seller.create_prices_row watch prices σ =
    if decide (code watch ∈ σ) then
      match Seller.price_conversion (get watch "Цена") with
      | Ok converted =>
          (Ok (prices ++ [Seller.Price.mk "UNKNOWN" "RUB" (code watch) "0" converted]), σ)
      | Raise e => (Raise e, σ)
      end
    else (Ok prices, σ).
Proof.
  unfold Seller.create_prices_row, bind, contents, lift, Py.py_in, ret. fold (code watch).
  destruct (decide (code watch ∈ σ)) as [Hin | Hin].
  - rewrite bool_decide_eq_true_2 by done. by destruct (Seller.price_conversion _).
  - by rewrite bool_decide_eq_false_2.
Qed.

Lemma market_create_prices_row_eq watch prices σ :
  Market.create_prices_row watch prices σ =
    if decide (code watch ∈ σ) then
      match Seller.price_conversion (get watch "Цена") with
      | Ok converted =>
          match Py.int (Py.PyStr converted) with
          | Ok value =>
              (Ok (prices ++ [Market.Price.mk (code watch) (Market.PriceValue.mk value "RUR")]), σ)
          | Raise e => (Raise e, σ)
          end
      | Raise e => (Raise e, σ)
      end
    else (Ok prices, σ).
Proof.
  unfold Market.create_prices_row, bind, contents, lift, Py.py_in, ret. fold (code watch).
  destruct (decide (code watch ∈ σ)) as [Hin | Hin].
  - rewrite bool_decide_eq_true_2 by done.
    destruct (Seller.price_conversion _) as [converted | e]; [| done].
    by destruct (Py.int _).
  - by rewrite bool_decide_eq_false_2.
Qed.

(** The loop of [seller.create_prices] leaves the list of identifiers as
    it is and appends one record per row that passes the test. *)
Lemma seller_prices_loop watch_remnants : ∀ prices σ r σ',
  for_each watch_remnants Seller.create_prices_row prices σ = (r, σ') →
  σ' = σ
  ∧ ∀ prices', r = Ok prices' →
      ∃ new, prices' = prices ++ new
             ∧ Forall2 seller_price_of (filter (λ watch, code watch ∈ σ) watch_remnants) new.
Proof.
  induction watch_remnants as [| watch rows IH]; intros prices σ r σ' Hrun.
  { injection Hrun as <- <-. split; [done |]. intros ? [= <-].
    exists []. by rewrite app_nil_r. }
  cbn [for_each] in Hrun. unfold bind in Hrun.
  rewrite seller_create_prices_row_eq in Hrun.
  destruct (decide (code watch ∈ σ)) as [Hin | Hin].
  - rewrite filter_cons_True by done.
    destruct (Seller.price_conversion _) as [converted | e] eqn:Hconv.
    + apply IH in Hrun as [-> Hok]. split; [done |]. intros prices' ->.
      destruct (Hok _ eq_refl) as (new & -> & Hnew).
      eexists (_ :: new). split; [by rewrite <- app_assoc |].
      constructor; [by split | done].
    + by injection Hrun as <- <-.
  - rewrite filter_cons_False by done. by apply IH in Hrun.
Qed.

Lemma market_prices_loop watch_remnants : ∀ prices σ r σ',
  for_each watch_remnants Market.create_prices_row prices σ = (r, σ') →
  σ' = σ
  ∧ ∀ prices', r = Ok prices' →
      ∃ new, prices' = prices ++ new
             ∧ Forall2 market_price_of (filter (λ watch, code watch ∈ σ) watch_remnants) new.
Proof.
  induction watch_remnants as [| watch rows IH]; intros prices σ r σ' Hrun.
  { injection Hrun as <- <-. split; [done |]. intros ? [= <-].
    exists []. by rewrite app_nil_r. }
  cbn [for_each] in Hrun. unfold bind in Hrun.
  rewrite market_create_prices_row_eq in Hrun.
  destruct (decide (code watch ∈ σ)) as [Hin | Hin].
  - rewrite filter_cons_True by done.
    destruct (Seller.price_conversion _) as [converted | e] eqn:Hconv;
      [| by injection Hrun as <- <-].
    destruct (Py.int _) as [value | e] eqn:Hint; [| by injection Hrun as <- <-].
    apply IH in Hrun as [-> Hok]. split; [done |]. intros prices' ->.
    destruct (Hok _ eq_refl) as (new & -> & Hnew).
    eexists (_ :: new). split; [by rewrite <- app_assoc |].
    constructor; [| done]. split; [done |]. by exists converted.
  - rewrite filter_cons_False by done. by apply IH in Hrun.
Qed.

(** The identifiers of the rows that pass the membership test are known
    identifiers. *)
Lemma matched_codes_known (watch_remnants : list dict) σ c :
  c ∈ code <$> filter (λ watch, code watch ∈ σ) watch_remnants → c ∈ σ.
Proof.
  intros (watch & -> & Hin)%list_elem_of_fmap.
  by apply list_elem_of_filter in Hin as [? _].
Qed.

(** Whatever the list of identifiers, the stock records carry all of it. *)
Lemma create_stocks_ids_perm (watch_remnants : list dict) σ stocks rest :
  Seller.create_stocks watch_remnants σ = (Ok stocks, rest) →
  Seller.Stock.offer_id <$> stocks ≡ₚ σ.
Proof.
  intros (new & -> & Hperm & _)%create_stocks_ok.
  by rewrite fmap_app, offer_id_zeros.
Qed.

End Prices.

Section PriceRecords.
Context `{!Unicode}.
Implicit Types (watch : dict) (σ : list string).

Lemma sku_to_market warehouse_id date (stocks : list Seller.Stock.t) :
  Market.Stock.sku <$> (to_market warehouse_id date <$> stocks)
  = Seller.Stock.offer_id <$> stocks.
Proof. by rewrite <- list_fmap_compose. Qed.

Lemma seller_price_ids (rows : list dict) prices :
  Forall2 seller_price_of rows prices → Seller.Price.offer_id <$> prices = code <$> rows.
Proof. induction 1 as [| w p rows prices [Hid _] _ IH]; [done |]. cbn. by rewrite Hid, IH. Qed.

Lemma market_price_ids (rows : list dict) prices :
  Forall2 market_price_of rows prices → Market.Price.id <$> prices = code <$> rows.
Proof. induction 1 as [| w p rows prices [Hid _] _ IH]; [done |]. cbn. by rewrite Hid, IH. Qed.

End PriceRecords.

(** * Quantities of the stock records *)

Section Quantities.
Context `{!Unicode}.
Implicit Types (watch : dict) (σ : list string).

Lemma spec_quantity_cases d q :
  spec_quantity d = Some q → q = 100 ∨ q = 0 ∨ Py.parse_int d = Some q.
Proof.
  unfold spec_quantity. repeat case_decide; [intros [= <-] .. | intros ?]; auto.
Qed.

(** C10, as the code has it.  The quantity of a stock record is
    non-negative when no row carries a quantity descriptor that parses to
    a negative integer: the records of both [create_stocks] hold 100, 0
    or the parsed integer itself. *)
Theorem stock_quantities_nonnegative (watch_remnants : list dict) (offer_ids : list string) :
  Forall no_negative_quantity watch_remnants →
  (∀ stocks rest,
     Seller.create_stocks watch_remnants offer_ids = (Ok stocks, rest) →
     Forall (λ r, 0 ≤ Seller.Stock.stock r) stocks)
  ∧ (∀ utcnow warehouse_id stocks rest,
     Market.create_stocks utcnow watch_remnants warehouse_id offer_ids = (Ok stocks, rest) →
     Forall (λ r, Forall (λ i, 0 ≤ Market.Item.count i) (Market.Stock.items r)) stocks).
Proof.
  intros Hrows. rewrite Forall_forall in Hrows.
  assert (Hseller : ∀ stocks rest,
            Seller.create_stocks watch_remnants offer_ids = (Ok stocks, rest) →
            Forall (λ r, 0 ≤ Seller.Stock.stock r) stocks).
  { intros stocks rest (new & -> & _ & Hnew & _)%create_stocks_ok.
    apply Forall_app. split.
    - eapply Forall_impl; [exact Hnew |]. intros r (watch & Hin & _ & Hq).
      rewrite stock_of_spec in Hq.
      destruct (spec_quantity (descriptor watch)) as [q |] eqn:Hspec; [| done].
      injection Hq as <-.
      apply spec_quantity_cases in Hspec as [-> | [-> | Hparse]]; [lia | lia |].
      by apply (Hrows watch).
    - by apply Forall_fmap, Forall_true. }
  split; [exact Hseller |].
  intros utcnow warehouse_id stocks rest (stocks0 & Hrun & ->)%market_create_stocks_ok.
  apply Forall_fmap. eapply Forall_impl; [exact (Hseller _ _ Hrun) |].
  intros r Hr. cbn. by repeat constructor.
Qed.

End Quantities.

(** * One list of identifiers for two calls *)

Section Aliasing.
Context `{!Unicode}.
Implicit Types (watch : dict) (σ : list string).

Lemma filter_none {A} (P : A → Prop) `{!∀ x, Decision (P x)} (l : list A) :
  (∀ x, x ∈ l → ¬ P x) → filter P l = [].
Proof.
  induction l as [| x l IH]; intros Hall; [done |].
  rewrite filter_cons_False by (apply Hall; left).
  apply IH. intros y Hy. apply Hall. by right.
Qed.

(** After [create_stocks], no row passes the membership test any more. *)
Lemma create_stocks_consumes_matches (watch_remnants : list dict) σ stocks rest :
  NoDup σ →
  Seller.create_stocks watch_remnants σ = (Ok stocks, rest) →
  ∀ watch, watch ∈ watch_remnants → code watch ∉ rest.
Proof.
  intros Hnodup (new & _ & Hperm & _ & Hmatched)%create_stocks_ok watch Hin Hrest.
  rewrite Hperm in Hnodup. apply NoDup_app in Hnodup as (_ & Hdisjoint & _).
  apply (Hdisjoint (code watch)); [| done].
  apply Hmatched; [done |]. rewrite Hperm. apply elem_of_app. by right.
Qed.

(** [main] of [seller.py] passes to [create_prices] the list that
    [create_stocks] has consumed: it never builds a price record. *)
Lemma main_reconcile_no_prices (watch_remnants : list dict) σ stocks prices rest :
  NoDup σ →
  Seller.main_reconcile watch_remnants σ = (Ok (stocks, prices), rest) →
  prices = [].
Proof.
  intros Hnodup. unfold Seller.main_reconcile, bind, ret.
  destruct (Seller.create_stocks _ _) as [[stocks1 | e] σ1] eqn:Hstocks; [| done].
  destruct (Seller.create_prices _ _) as [[prices1 | e] σ2] eqn:Hprices; [| done].
  intros [= <- <- <-].
  apply seller_prices_loop in Hprices as [_ Hok].
  destruct (Hok _ eq_refl) as (new & -> & Hnew). cbn [app].
  assert (Hnone : filter (λ watch, code watch ∈ σ1) watch_remnants = []).
  { apply filter_none. intros watch Hin.
    by eapply create_stocks_consumes_matches. }
  rewrite Hnone in Hnew. by inversion Hnew.
Qed.

(** C6, at the input where the code departs from it.  [create_stocks]
    empties the caller's list; a second call on it returns other
    records; [create_prices] alone builds the price record, and after
    [create_stocks] on the same list it builds none. *)
Theorem create_stocks_consumes_the_callers_list :
  let watch_remnants := [row (Py.PyStr "100") (Py.PyStr "5") (Py.PyStr "5 000 руб.")] in
  Seller.create_stocks watch_remnants ["100"] = (Ok [Seller.Stock.mk "100" 5], [])
  ∧ Seller.create_stocks watch_remnants [] = (Ok [], [])
  ∧ Seller.create_prices watch_remnants ["100"]
    = (Ok [Seller.Price.mk "UNKNOWN" "RUB" "100" "0" "5000"], ["100"])
  ∧ Seller.main_reconcile watch_remnants ["100"]
    = (Ok ([Seller.Stock.mk "100" 5], []), []).
Proof. cbv zeta. split_and!; vm_compute; reflexivity. Qed.

End Aliasing.

(** * The clock of [market.create_stocks] *)

Section Clock.
Context `{!Unicode}.
Implicit Types (watch : dict) (σ : list string) (utcnow : Market.datetime).

Lemma undated_to_market warehouse_id date date' (stocks : list Seller.Stock.t) :
  undated <$> (to_market warehouse_id date <$> stocks)
  = undated <$> (to_market warehouse_id date' <$> stocks).
Proof. by rewrite <- !list_fmap_compose. Qed.

(** C7, as the code has it.  [market.create_stocks] returns the records
    of [seller.create_stocks], which are a function of the rows and the
    identifiers alone, stamped with the second of the call: two calls
    on equal arguments agree on everything but [updatedAt], and agree
    on that too when made within the same second. *)
Theorem market_create_stocks_varies_with_the_stamp_only
    utcnow1 utcnow2 (watch_remnants : list dict) warehouse_id σ :
  Market.create_stocks utcnow1 watch_remnants warehouse_id σ
  = (result_map (fmap (to_market warehouse_id (stamp utcnow1)))
       (Seller.create_stocks watch_remnants σ).1,
     (Seller.create_stocks watch_remnants σ).2)
  ∧ result_map (fmap undated) (Market.create_stocks utcnow1 watch_remnants warehouse_id σ).1
    = result_map (fmap undated) (Market.create_stocks utcnow2 watch_remnants warehouse_id σ).1
  ∧ (Market.create_stocks utcnow1 watch_remnants warehouse_id σ).2
    = (Market.create_stocks utcnow2 watch_remnants warehouse_id σ).2
  ∧ (stamp utcnow1 = stamp utcnow2 →
     Market.create_stocks utcnow1 watch_remnants warehouse_id σ
     = Market.create_stocks utcnow2 watch_remnants warehouse_id σ).
Proof.
  rewrite !market_create_stocks_as_seller. split_and!; [done | | done |].
  - destruct (Seller.create_stocks watch_remnants σ) as [[stocks | e] σ']; [| done].
    cbn. f_equal. apply undated_to_market.
  - by intros ->.
Qed.

End Clock.

(** * Failures of the core *)

Section Failures.
Context `{!Unicode}.
Implicit Types (watch : dict) (σ : list string).

Lemma split_nonempty sep s : ∃ p ps, Py.split sep s = p :: ps.
Proof.
  induction s as [| c s (p & ps & IH)]; cbn [Py.split]; [by eauto |].
  destruct (Ascii.eqb c sep); [by eauto |]. rewrite IH. by eauto.
Qed.

(** On text, [price_conversion] always returns. *)
Lemma price_conversion_text s :
  ∃ integer_part ps, Py.split "." s = integer_part :: ps
    ∧ Seller.price_conversion (Py.PyStr s) = Ok (Py.re_sub_non_digit integer_part).
Proof.
  destruct (split_nonempty "." s) as (p & ps & Hsplit). exists p, ps. split; [done |].
  unfold Seller.price_conversion. cbn [Py.split_dot result_bind]. by rewrite Hsplit.
Qed.

Lemma stock_of_raise watch e :
  has_quantity watch → stock_of watch = Raise e → e = ValueError b_int.
Proof.
  unfold has_quantity. rewrite stock_of_spec. unfold quantity_failure.
  destruct (spec_quantity _); [done |]. intros Hcell [= <-].
  by destruct (get watch "Количество").
Qed.

Lemma int_text_raise s e : Py.int (Py.PyStr s) = Raise e → e = ValueError b_int.
Proof. cbn. destruct (Py.parse_int s); by intros [= <-]. Qed.

Lemma raised_Some {A} (r : result A * list string) e :
  raised r = Some e ↔ r.1 = Raise e.
Proof. unfold raised. destruct r.1; split; congruence. Qed.

Lemma raised_market_create_stocks utcnow (watch_remnants : list dict) warehouse_id σ :
  raised (Market.create_stocks utcnow watch_remnants warehouse_id σ)
  = raised (Seller.create_stocks watch_remnants σ).
Proof.
  rewrite market_create_stocks_as_seller. unfold raised. cbn.
  by destruct (Seller.create_stocks watch_remnants σ).1.
Qed.

Lemma seller_prices_loop_raise watch_remnants : ∀ prices σ e σ',
  for_each watch_remnants Seller.create_prices_row prices σ = (Raise e, σ') →
  ∃ watch, watch ∈ watch_remnants ∧ Seller.price_conversion (get watch "Цена") = Raise e.
Proof.
  induction watch_remnants as [| watch rows IH]; intros prices σ e σ' Hrun; [done |].
  cbn [for_each] in Hrun. unfold bind in Hrun.
  rewrite seller_create_prices_row_eq in Hrun.
  destruct (decide (code watch ∈ σ)) as [Hin | Hin].
  - destruct (Seller.price_conversion _) as [converted | e'] eqn:Hconv.
    + apply IH in Hrun as (w & ? & ?). exists w. split; [by right | done].
    + injection Hrun as -> _. exists watch. split; [left | done].
  - apply IH in Hrun as (w & ? & ?). exists w. split; [by right | done].
Qed.

Lemma market_prices_loop_raise watch_remnants : ∀ prices σ e σ',
  for_each watch_remnants Market.create_prices_row prices σ = (Raise e, σ') →
  ∃ watch, watch ∈ watch_remnants
    ∧ (Seller.price_conversion (get watch "Цена") = Raise e
       ∨ ∃ converted, Py.int (Py.PyStr converted) = Raise e).
Proof.
  induction watch_remnants as [| watch rows IH]; intros prices σ e σ' Hrun; [done |].
  cbn [for_each] in Hrun. unfold bind in Hrun.
  rewrite market_create_prices_row_eq in Hrun.
  destruct (decide (code watch ∈ σ)) as [Hin | Hin].
  - destruct (Seller.price_conversion _) as [converted | e'] eqn:Hconv.
    + destruct (Py.int _) as [value | e'] eqn:Hint.
      * apply IH in Hrun as (w & ? & ?). exists w. split; [by right | done].
      * injection Hrun as -> _. exists watch. split; [left | right; by eauto].
    + injection Hrun as -> _. exists watch. split; [left | by left].
  - apply IH in Hrun as (w & ? & ?). exists w. split; [by right | done].
Qed.

(** [divide] fails for the step 0 only. *)
Lemma divide_raise {A} (lst : list A) n e :
  Seller.divide lst n = Raise e → e = ValueError b_range ∧ n = 0.
Proof.
  unfold Seller.divide, Py.range. case_decide as Hn; [by intros [= <-] | done].
Qed.

(** An identifier that is the code of none of the rows survives the loop. *)
Lemma stocks_loop_keeps (watch_remnants : list dict) stocks σ stocks' σ' c :
  for_each watch_remnants Seller.create_stocks_row stocks σ = (Ok stocks', σ') →
  c ∈ σ → c ∉ code <$> watch_remnants → c ∈ σ'.
Proof.
  intros (new & _ & Hperm & Hnew & _)%stocks_loop_ok Hin Hcodes.
  rewrite Hperm in Hin. apply elem_of_app in Hin as [Hin | Hin]; [| done].
  apply list_elem_of_fmap in Hin as (r & -> & Hr).
  rewrite Forall_forall in Hnew. destruct (Hnew r Hr) as (watch & Hw & Hcode & _).
  destruct Hcodes. rewrite Hcode. apply list_elem_of_fmap. by exists watch.
Qed.

(** The first row that carries a known identifier and a quantity which
    does not convert makes [create_stocks] fail, unless an earlier row
    has failed already. *)
Lemma create_stocks_fails_at pre watch post σ e :
  code watch ∈ σ → code watch ∉ code <$> pre → stock_of watch = Raise e →
  ∃ e', raised (Seller.create_stocks (pre ++ watch :: post) σ) = Some e'
        ∧ (e' = e ∨ ∃ watch', watch' ∈ pre ∧ stock_of watch' = Raise e').
Proof.
  intros Hin Hpre Hraise. unfold Seller.create_stocks, bind, raised.
  rewrite for_each_app. unfold bind.
  destruct (for_each pre _ _ _) as [[stocks1 | e1] σ1] eqn:Hloop.
  - cbn [for_each]. unfold bind. rewrite create_stocks_row_eq.
    rewrite decide_True by (by eapply stocks_loop_keeps).
    rewrite Hraise. cbn. by eauto.
  - cbn. exists e1. split; [done |]. right. by eapply stocks_loop_raise.
Qed.

End Failures.

(** * The quantity of a matched row *)

Section MatchedRows.
Context `{!Unicode}.
Implicit Types (watch : dict) (σ : list string).

(** The first row that carries a known identifier has its record in what
    [create_stocks] returns. *)
Lemma create_stocks_first_row pre watch post σ stocks rest :
  Seller.create_stocks (pre ++ watch :: post) σ = (Ok stocks, rest) →
  code watch ∈ σ → code watch ∉ code <$> pre →
  ∃ q, stock_of watch = Ok q ∧ Seller.Stock.mk (code watch) q ∈ stocks.
Proof.
  unfold Seller.create_stocks, bind, contents, ret. rewrite for_each_app. unfold bind.
  destruct (for_each pre _ _ _) as [[stocks1 | e1] σ1] eqn:Hpre; [| done].
  cbn [for_each]. unfold bind. rewrite create_stocks_row_eq.
  intros Hrun Hin Hfirst.
  rewrite decide_True in Hrun by (by eapply stocks_loop_keeps).
  destruct (stock_of watch) as [q | e] eqn:Hq; [| done].
  destruct (for_each post _ _ _) as [[stocks2 | e2] σ2] eqn:Hpost; [| done].
  injection Hrun as <- <-. exists q. split; [done |].
  apply stocks_loop_ok in Hpost as (new & -> & _).
  rewrite !elem_of_app. left. left. right. left.
Qed.

(** C2. For a row whose code is among the known identifiers, the record
    that either [create_stocks] appends has the quantity of the policy:
    100 for [">10"], 0 for ["1"], otherwise the integer the descriptor
    parses to, and the call fails when the descriptor does not parse.
    The record of the first row that carries the identifier is among
    those returned. *)
Theorem matched_row_quantity_follows_policy watch σ :
  code watch ∈ σ →
  (∀ stocks,
     Seller.create_stocks_row watch stocks σ =
       match spec_quantity (descriptor watch) with
       | Some q => (Ok (stocks ++ [Seller.Stock.mk (code watch) q]), without (code watch) σ)
       | None => (Raise (quantity_failure watch), σ)
       end)
  ∧ (∀ warehouse_id date stocks,
     Market.create_stocks_row warehouse_id date watch stocks σ =
       match spec_quantity (descriptor watch) with
       | Some q =>
           (Ok (stocks ++ [Market.Stock.mk (code watch) warehouse_id
                             [Market.Item.mk q "FIT" date]]),
            without (code watch) σ)
       | None => (Raise (quantity_failure watch), σ)
       end)
  ∧ (∀ pre post stocks rest,
     code watch ∉ code <$> pre →
     Seller.create_stocks (pre ++ watch :: post) σ = (Ok stocks, rest) →
     ∃ q, spec_quantity (descriptor watch) = Some q
          ∧ Seller.Stock.mk (code watch) q ∈ stocks)
  ∧ (∀ utcnow warehouse_id pre post stocks rest,
     code watch ∉ code <$> pre →
     Market.create_stocks utcnow (pre ++ watch :: post) warehouse_id σ = (Ok stocks, rest) →
     ∃ q, spec_quantity (descriptor watch) = Some q
          ∧ Market.Stock.mk (code watch) warehouse_id
              [Market.Item.mk q "FIT" (stamp utcnow)] ∈ stocks)
  ∧ (descriptor watch = ">10" → spec_quantity (descriptor watch) = Some 100)
  ∧ (descriptor watch = "1" → spec_quantity (descriptor watch) = Some 0)
  ∧ (descriptor watch ≠ ">10" → descriptor watch ≠ "1" →
     spec_quantity (descriptor watch) = Py.parse_int (descriptor watch)).
Proof.
  intros Hin.
  assert (Hfirst : ∀ pre post stocks rest,
            code watch ∉ code <$> pre →
            Seller.create_stocks (pre ++ watch :: post) σ = (Ok stocks, rest) →
            ∃ q, spec_quantity (descriptor watch) = Some q
                 ∧ Seller.Stock.mk (code watch) q ∈ stocks).
  { intros pre post stocks rest Hpre Hrun.
    destruct (create_stocks_first_row _ _ _ _ _ _ Hrun Hin Hpre) as (q & Hq & Hrecord).
    exists q. split; [| done]. rewrite stock_of_spec in Hq.
    destruct (spec_quantity _); congruence. }
  split_and!.
  - intros stocks. rewrite create_stocks_row_eq, decide_True by done.
    rewrite stock_of_spec. by destruct (spec_quantity _).
  - intros warehouse_id date stocks.
    rewrite market_create_stocks_row_eq, decide_True by done.
    rewrite stock_of_spec. by destruct (spec_quantity _).
  - exact Hfirst.
  - intros utcnow warehouse_id pre post stocks rest Hpre
      (stocks0 & Hrun & ->)%market_create_stocks_ok.
    destruct (Hfirst _ _ _ _ Hpre Hrun) as (q & Hq & Hrecord).
    exists q. split; [done |].
    apply list_elem_of_fmap. eexists. split; [| exact Hrecord]. done.
  - intros ->. done.
  - intros ->. done.
  - intros H10 H1. unfold spec_quantity. by rewrite !decide_False.
Qed.

End MatchedRows.

Section FailureKinds.
Context `{!Unicode}.
Implicit Types (watch : dict) (σ : list string).

(** What the loop of [create_stocks] leaves of a duplicate-free list
    holds the code of none of the rows it has passed. *)
Lemma stocks_loop_consumes (pre : list dict) stocks σ stocks1 σ1 :
  NoDup σ →
  for_each pre Seller.create_stocks_row stocks σ = (Ok stocks1, σ1) →
  ∀ watch, watch ∈ pre → code watch ∉ σ1.
Proof.
  intros Hnodup (new & _ & Hperm & _ & Hmatched)%stocks_loop_ok watch Hin Hrest.
  rewrite Hperm in Hnodup. apply NoDup_app in Hnodup as (_ & Hdisjoint & _).
  apply (Hdisjoint (code watch)); [| done].
  apply Hmatched; [done |]. rewrite Hperm. apply elem_of_app. by right.
Qed.

(** A row whose code an earlier row carries is skipped, when the list
    of identifiers is free of duplicates. *)
Lemma consumed_row_is_skipped pre watch post σ :
  NoDup σ → code watch ∈ code <$> pre →
  Seller.create_stocks (pre ++ watch :: post) σ = Seller.create_stocks (pre ++ post) σ.
Proof.
  intros Hnodup (w & Hcode & Hw)%list_elem_of_fmap.
  unfold Seller.create_stocks, bind. rewrite !for_each_app. unfold bind.
  destruct (for_each pre _ _ _) as [[stocks1 | e] σ1] eqn:Hpre; [| done].
  cbn [for_each]. unfold bind. rewrite create_stocks_row_eq.
  rewrite decide_False; [done |]. rewrite Hcode. by eapply stocks_loop_consumes.
Qed.

(** C9, as the code has it.  On rows that have a quantity cell and a
    text price cell, reconciliation fails only with the [ValueError] of
    [int] (a parse error) and [divide] only with the [ValueError] of
    [range] (an invalid argument, for the size 0); and the first row
    that carries a known identifier with a quantity descriptor which is
    neither [">10"] nor ["1"] nor parses as an integer makes both
    [create_stocks] fail with a parse error.  When the known identifiers
    are free of duplicates, a later row with the same code is skipped
    whatever its descriptor: both [create_stocks] do what they do
    without the row. *)
Theorem core_fails_with_parse_or_argument_errors
    (watch_remnants : list dict) (offer_ids : list string) :
  Forall has_quantity watch_remnants →
  Forall has_text_price watch_remnants →
  (∀ e, raised (Seller.create_stocks watch_remnants offer_ids) = Some e →
        classify e = ParseError)
  ∧ (∀ utcnow warehouse_id e,
        raised (Market.create_stocks utcnow watch_remnants warehouse_id offer_ids) = Some e →
        classify e = ParseError)
  ∧ raised (Seller.create_prices watch_remnants offer_ids) = None
  ∧ (∀ e, raised (Market.create_prices watch_remnants offer_ids) = Some e →
        classify e = ParseError)
  ∧ (∀ (A : Type) (lst : list A) n e,
        Seller.divide lst n = Raise e → classify e = InvalidArgument ∧ n = 0)
  ∧ (∀ pre watch post,
        watch_remnants = pre ++ watch :: post →
        code watch ∈ offer_ids → code watch ∉ code <$> pre →
        descriptor watch ≠ ">10" → descriptor watch ≠ "1" →
        Py.parse_int (descriptor watch) = None →
        (∃ e, raised (Seller.create_stocks watch_remnants offer_ids) = Some e
              ∧ classify e = ParseError)
        ∧ ∀ utcnow warehouse_id,
            ∃ e, raised (Market.create_stocks utcnow watch_remnants warehouse_id offer_ids)
                 = Some e
                 ∧ classify e = ParseError)
  ∧ (∀ pre watch post,
        watch_remnants = pre ++ watch :: post →
        NoDup offer_ids → code watch ∈ code <$> pre →
        Seller.create_stocks watch_remnants offer_ids
        = Seller.create_stocks (pre ++ post) offer_ids
        ∧ ∀ utcnow warehouse_id,
            Market.create_stocks utcnow watch_remnants warehouse_id offer_ids
            = Market.create_stocks utcnow (pre ++ post) warehouse_id offer_ids).
Proof.
  intros Hquantity Hprice.
  rewrite Forall_forall in Hquantity. rewrite Forall_forall in Hprice.
  assert (Hstocks : ∀ e, raised (Seller.create_stocks watch_remnants offer_ids) = Some e →
                         e = ValueError b_int).
  { intros e Hraised%raised_Some.
    destruct (Seller.create_stocks _ _) as [r σ'] eqn:Hrun. cbn in Hraised. subst r.
    apply create_stocks_raise in Hrun as (watch & Hin & Hraise).
    eapply stock_of_raise; [by apply Hquantity | done]. }
  split_and!.
  - by intros e ->%Hstocks.
  - intros utcnow warehouse_id e. rewrite raised_market_create_stocks. by intros ->%Hstocks.
  - destruct (raised (Seller.create_prices watch_remnants offer_ids))
      as [e |] eqn:Hraised; [exfalso | done].
    apply raised_Some in Hraised.
    destruct (Seller.create_prices _ _) as [r σ'] eqn:Hrun. cbn in Hraised. subst r.
    apply seller_prices_loop_raise in Hrun as (watch & Hin & Hraise).
    destruct (Hprice watch Hin) as [s Hs]. rewrite Hs in Hraise.
    destruct (price_conversion_text s) as (p & ps & _ & Hok). congruence.
  - intros e Hraised%raised_Some.
    destruct (Market.create_prices _ _) as [r σ'] eqn:Hrun. cbn in Hraised. subst r.
    apply market_prices_loop_raise in Hrun as (watch & Hin & [Hraise | [c Hraise]]).
    + destruct (Hprice watch Hin) as [s Hs]. rewrite Hs in Hraise.
      destruct (price_conversion_text s) as (p & ps & _ & Hok). congruence.
    + by apply int_text_raise in Hraise as ->.
  - intros A lst n e [-> ->]%divide_raise. done.
  - intros pre watch post -> Hin Hpre H10 H1 Hparse.
    assert (Hraise : stock_of watch = Raise (ValueError b_int)).
    { rewrite stock_of_spec. unfold spec_quantity. rewrite !decide_False, Hparse by done.
      f_equal. unfold quantity_failure.
      assert (Hcell : has_quantity watch) by (apply Hquantity; set_solver).
      unfold has_quantity in Hcell. by destruct (get watch "Количество"). }
    assert (Hseller : raised (Seller.create_stocks (pre ++ watch :: post) offer_ids)
                      = Some (ValueError b_int)).
    { destruct (create_stocks_fails_at pre watch post offer_ids _ Hin Hpre Hraise)
        as (e' & Hraised & He'). by rewrite (Hstocks _ Hraised) in Hraised. }
    split; [by eauto |].
    intros utcnow warehouse_id. rewrite raised_market_create_stocks. by eauto.
  - intros pre watch post -> Hnodup Hpre.
    pose proof (consumed_row_is_skipped pre watch post offer_ids Hnodup Hpre) as Hskip.
    split; [exact Hskip |]. intros utcnow warehouse_id.
    by rewrite !market_create_stocks_as_seller, Hskip.
Qed.

End FailureKinds.

(** * Price normalization *)

Section PriceConversion.
Context `{!Unicode}.

Lemma re_sub_non_digit_digits_only s : Py.re_sub_non_digit s = digits_only s.
Proof.
  unfold digits_only. induction s as [| c s IH]; [done |].
  cbn [Py.re_sub_non_digit list_ascii_of_string List.filter].
  destruct (Py.is_digit c); [| done]. cbn [string_of_list_ascii]. by rewrite IH.
Qed.

(** The first part of [s.split(".")] is what stands before the first
    point of [s]. *)
Lemma split_dot_first s p ps :
  Py.split "." s = p :: ps →
  ("."%char ∉ list_ascii_of_string p)
  ∧ ((ps = [] ∧ s = p) ∨ ∃ fraction, s = p +:+ String "." fraction).
Proof.
  revert p ps. induction s as [| c s IH]; intros p ps; cbn [Py.split].
  { intros [= <- <-]. split; [apply not_elem_of_nil | by left]. }
  destruct (Ascii.eqb_spec c ".") as [-> | Hne].
  { intros [= <- <-]. split; [apply not_elem_of_nil | right; by exists s]. }
  destruct (split_nonempty "." s) as (p' & ps' & Hsplit). rewrite Hsplit.
  intros [= <- <-]. destruct (IH _ _ Hsplit) as [Hdot Hrest].
  split.
  - cbn [list_ascii_of_string]. apply not_elem_of_cons. by split.
  - destruct Hrest as [[-> ->] | [fraction ->]]; [by left |]. right. by exists fraction.
Qed.

Lemma digit_val_nonneg c : Py.is_digit c = true → 0 ≤ Py.digit_val c.
Proof.
  unfold Py.is_digit, Py.digit_val.
  intros [Hlo%N.leb_le _]%andb_prop. lia.
Qed.

(** A text of digits, when not empty, is a literal of [int]. *)
Lemma int_digits_re_sub s : ∀ acc b,
  0 ≤ acc → Py.re_sub_non_digit s ≠ "" ∨ b = true →
  ∃ n, 0 ≤ n ∧ Py.int_digits acc b (Py.re_sub_non_digit s) = Some n.
Proof.
  induction s as [| c s IH]; intros acc b Hacc Hne; cbn [Py.re_sub_non_digit] in *.
  { destruct Hne as [? | ->]; [done |]. by exists acc. }
  destruct (Py.is_digit c) eqn:Hc; [| by apply IH].
  cbn [Py.int_digits]. rewrite Hc. apply IH; [| by right].
  pose proof (digit_val_nonneg c Hc). lia.
Qed.

Lemma parse_ascii_int_digit_first c s :
  Py.is_digit c = true →
  Py.parse_ascii_int (String c s) = Py.int_digits 0 false (String c s).
Proof.
  destruct c as [[] [] [] [] [] [] [] []]; (discriminate || (intros _; reflexivity)).
Qed.

Lemma is_ascii_re_sub s : Py.is_ascii (Py.re_sub_non_digit s) = true.
Proof.
  induction s as [| c s IH]; cbn [Py.re_sub_non_digit]; [done |].
  destruct (Py.is_digit c) eqn:Hc; [| done].
  cbn [Py.is_ascii]. rewrite IH, andb_true_r.
  unfold Py.is_digit in Hc. apply andb_prop in Hc as [_ Hhi%N.leb_le].
  apply N.ltb_lt. lia.
Qed.

Lemma re_sub_non_digit_head s c r :
  Py.re_sub_non_digit s = String c r → Py.is_digit c = true.
Proof.
  induction s as [| c' s IH]; cbn [Py.re_sub_non_digit]; [done |].
  destruct (Py.is_digit c') eqn:Hc; [| done]. by intros [= <- _].
Qed.

Lemma int_re_sub s :
  Py.re_sub_non_digit s = "" ∨ ∃ n, 0 ≤ n ∧ Py.int (Py.PyStr (Py.re_sub_non_digit s)) = Ok n.
Proof.
  destruct (Py.re_sub_non_digit s) as [| c r] eqn:Hr; [by left | right].
  pose proof (re_sub_non_digit_head _ _ _ Hr) as Hc.
  destruct (int_digits_re_sub s 0 false) as (n & Hn & Hparse); [lia | | ].
  { left. by rewrite Hr. }
  exists n. split; [done |]. cbn [Py.int]. unfold Py.parse_int.
  rewrite <- Hr, is_ascii_re_sub, Hr, parse_ascii_int_digit_first by done.
  rewrite Hr in Hparse. by rewrite Hparse.
Qed.

(** C3, as the code has it.  [price_conversion] keeps what stands before
    the first point of the price and removes every character that is
    not a digit; it returns that text of digits, which may be empty and
    is otherwise the literal of a non-negative integer (the one that
    [market.create_prices] takes with [int]).  The two prices of the
    specification give ["5990"] and ["5000"], that is 5990 and 5000. *)
Theorem price_conversion_keeps_integer_digits :
  (∀ price : string,
     ∃ integer_part rest,
       price = integer_part +:+ rest
       ∧ ("."%char ∉ list_ascii_of_string integer_part)
       ∧ (rest = "" ∨ ∃ fraction, rest = String "." fraction)
       ∧ Seller.price_conversion (Py.PyStr price) = Ok (digits_only integer_part)
       ∧ (digits_only integer_part = ""
          ∨ ∃ n, 0 ≤ n ∧ Py.int (Py.PyStr (digits_only integer_part)) = Ok n))
  ∧ Seller.price_conversion (Py.PyStr "5'990.00 руб.") = Ok "5990"
  ∧ Py.int (Py.PyStr "5990") = Ok 5990
  ∧ Seller.price_conversion (Py.PyStr "5 000 руб.") = Ok "5000"
  ∧ Py.int (Py.PyStr "5000") = Ok 5000.
Proof.
  split; [| by vm_compute].
  intros price. destruct (price_conversion_text price) as (p & ps & Hsplit & Hconv).
  destruct (split_dot_first _ _ _ Hsplit) as [Hdot Hrest].
  rewrite re_sub_non_digit_digits_only in Hconv.
  pose proof (int_re_sub p) as Hint. rewrite re_sub_non_digit_digits_only in Hint.
  destruct Hrest as [[_ ->] | [fraction ->]].
  - exists p, "". split_and!; [| done | by left | done | done].
    clear. induction p as [| c p IH]; [done |].
    change (String c p = String c (p +:+ "")). by f_equal.
  - exists p, (String "." fraction). split_and!; [done | done | right; by eauto | done | done].
Qed.

End PriceConversion.

(** * The batch partitioner *)

Section Divide.
Context {A : Type}.
Implicit Types (lst : list A) (n : Z).

Lemma slice_batch lst (k : nat) n :
  0 < n →
  Py.slice lst (0 + Z.of_nat k * n) (0 + Z.of_nat k * n + n) = batch lst (Z.to_nat n) k.
Proof.
  intros Hn. unfold Py.slice, Py.clip, Py.len, batch.
  rewrite !decide_False by nia.
  destruct (decide (Z.of_nat (length lst) ≤ Z.of_nat k * n)) as [Hout | Hin].
  - rewrite !Z.min_r by lia. rewrite Nat.sub_diag, Nat2Z.id.
    rewrite (drop_ge lst (k * Z.to_nat n)) by nia. by rewrite take_nil.
  - replace (Z.to_nat (Z.min (0 + Z.of_nat k * n) (Z.of_nat (length lst))))
      with (k * Z.to_nat n)%nat by nia.
    destruct (decide (0 + Z.of_nat k * n + n ≤ Z.of_nat (length lst))) as [Hfull | Hlast].
    + f_equal. nia.
    + rewrite !take_ge; [done | |]; rewrite length_drop; nia.
Qed.

(** The number of batches: the length of [range(0, len(lst), n)]. *)
Lemma divide_eq lst n :
  0 < n →
  Seller.divide lst n = Ok (batch lst (Z.to_nat n) <$> seq 0 (batch_count lst n)).
Proof.
  intros Hn. unfold Seller.divide, Py.range, batch_count.
  rewrite decide_False, decide_True by lia. cbn [result_bind]. f_equal.
  unfold seqZ. rewrite <- !list_fmap_compose. apply list_fmap_ext.
  intros i k _. cbn. rewrite Z.add_0_r. apply slice_batch. done.
Qed.

Lemma concat_batches lst (size count : nat) :
  concat (batch lst size <$> seq 0 count) = take (count * size) lst.
Proof.
  induction count as [| count IH]; [done |].
  rewrite seq_S, fmap_app, concat_app, IH. cbn [fmap list_fmap concat].
  rewrite app_nil_r. unfold batch. rewrite take_take_drop. f_equal. lia.
Qed.

Lemma batches_reach_the_end lst n :
  0 < n → (length lst ≤ batch_count lst n * Z.to_nat n)%nat.
Proof.
  intros Hn. unfold batch_count, Py.len. case_decide as Hlen; [| lia].
  pose proof (Z.mul_succ_div_gt (Z.of_nat (length lst) - 0 - 1) n Hn).
  pose proof (Z.div_pos (Z.of_nat (length lst) - 0 - 1) n). nia.
Qed.

Lemma batch_starts_inside lst n (k : nat) :
  0 < n → (k < batch_count lst n)%nat → (k * Z.to_nat n < length lst)%nat.
Proof.
  intros Hn. unfold batch_count, Py.len. case_decide as Hlen; [| lia]. intros Hk.
  pose proof (Z.mul_div_le (Z.of_nat (length lst) - 0 - 1) n Hn).
  pose proof (Z.div_pos (Z.of_nat (length lst) - 0 - 1) n). nia.
Qed.

End Divide.

(** C4. For a positive size, [divide] returns batches of at most that
    many records whose concatenation is the list: the [k]-th batch is the
    slice that starts at record [k * n], and none is empty.  The two
    lists of the specification are cut as it says. *)
Theorem divide_partitions_into_batches :
  (∀ (A : Type) (lst : list A) (n : Z),
     0 < n →
     ∃ batches,
       Seller.divide lst n = Ok batches
       ∧ concat batches = lst
       ∧ Forall (λ b, Py.len b ≤ n) batches
       ∧ ∀ (k : nat) b, batches !! k = Some b →
           b = batch lst (Z.to_nat n) k ∧ b ≠ [])
  ∧ Seller.divide [1; 2; 3; 4] 2 = Ok [[1; 2]; [3; 4]]
  ∧ Seller.divide [1; 2; 3] 2 = Ok [[1; 2]; [3]].
Proof.
  split; [| by vm_compute].
  intros A lst n Hn. eexists. split; [by apply divide_eq |]. split_and!.
  - rewrite concat_batches. apply take_ge. by apply batches_reach_the_end.
  - apply Forall_fmap, Forall_true. intros k. unfold batch, Py.len. cbn.
    rewrite length_take. lia.
  - intros k b. rewrite list_lookup_fmap.
    destruct (seq 0 _ !! k) as [k' |] eqn:Hk; [| done].
    apply lookup_seq in Hk as [-> Hk]. cbn. intros [= <-]. split; [done |].
    pose proof (batch_starts_inside lst n k Hn Hk) as Hstart.
    intros Hnil%(f_equal length). unfold batch in Hnil.
    rewrite length_take, length_drop in Hnil. cbn in Hnil. lia.
Qed.

(** C5, as the code has it.  [divide] fails for the size 0, with the
    [ValueError] of [range]; for a negative size it does not fail and
    returns no batch at all. *)
Theorem divide_fails_for_size_zero_only (A : Type) (lst : list A) (n : Z) :
  n ≤ 0 →
  Seller.divide lst n = (if decide (n = 0) then Raise (ValueError b_range) else Ok [])
  ∧ classify (ValueError b_range) = InvalidArgument.
Proof.
  intros Hn. split; [| done]. unfold Seller.divide, Py.range.
  case_decide as H0; [done |]. rewrite decide_False by lia.
  unfold Py.len. rewrite decide_False by lia. done.
Qed.



(** * More on the reconciliation of stocks *)

Section MoreOnStocks.
Context `{!Unicode}.
Implicit Types (watch : dict) (σ : list string).

Lemma market_zeros warehouse_id date σ :
  to_market warehouse_id date <$> ((λ offer_id, Seller.Stock.mk offer_id 0) <$> σ)
  = (λ offer_id, Market.Stock.mk offer_id warehouse_id [Market.Item.mk 0 "FIT" date]) <$> σ.
Proof. by rewrite <- list_fmap_compose. Qed.

(** X1. Whatever the list of known identifiers, duplicates included,
    both [create_stocks] return one record per entry of the list: the
    identifiers of the records are the list up to order. *)
Theorem create_stocks_returns_one_record_per_entry
    (watch_remnants : list dict) (offer_ids : list string) :
  (∀ stocks rest,
     Seller.create_stocks watch_remnants offer_ids = (Ok stocks, rest) →
     Seller.Stock.offer_id <$> stocks ≡ₚ offer_ids
     ∧ length stocks = length offer_ids)
  ∧ (∀ utcnow warehouse_id stocks rest,
     Market.create_stocks utcnow watch_remnants warehouse_id offer_ids = (Ok stocks, rest) →
     Market.Stock.sku <$> stocks ≡ₚ offer_ids
     ∧ length stocks = length offer_ids).
Proof.
  assert (Hseller : ∀ stocks rest,
            Seller.create_stocks watch_remnants offer_ids = (Ok stocks, rest) →
            Seller.Stock.offer_id <$> stocks ≡ₚ offer_ids
            ∧ length stocks = length offer_ids).
  { intros stocks rest Hperm%create_stocks_ids_perm. split; [done |].
    by rewrite <- Hperm, length_fmap. }
  split; [exact Hseller |].
  intros utcnow warehouse_id stocks rest (stocks0 & Hrun & ->)%market_create_stocks_ok.
  destruct (Hseller _ _ Hrun) as [Hperm Hlen].
  by rewrite sku_to_market, length_fmap.
Qed.

Lemma filter_all {A} (P : A → Prop) `{!∀ x, Decision (P x)} (l : list A) :
  (∀ x, x ∈ l → P x) → filter P l = l.
Proof.
  induction l as [| x l IH]; intros Hall; [done |].
  rewrite filter_cons_True by (apply Hall; left).
  f_equal. apply IH. intros y Hy. apply Hall. by right.
Qed.

Lemma filter_ext_elem {A} (P Q : A → Prop)
    `{!∀ x, Decision (P x)} `{!∀ x, Decision (Q x)} (l : list A) :
  (∀ x, x ∈ l → P x ↔ Q x) → filter P l = filter Q l.
Proof.
  induction l as [| x l IH]; intros Hall; [done |].
  assert (Htail : filter P l = filter Q l).
  { apply IH. intros y Hy. apply Hall. by right. }
  destruct (decide (P x)) as [HP | HP].
  - rewrite !filter_cons_True; [by f_equal | by apply Hall; [left |] | done].
  - rewrite !filter_cons_False; [done | | done].
    intros HQ. apply HP, Hall; [left | done].
Qed.

Lemma without_NoDup x σ : NoDup σ → without x σ = filter (λ i, i ≠ x) σ.
Proof.
  unfold without. induction σ as [| y σ IH]; intros Hnodup; [done |].
  apply NoDup_cons in Hnodup as [Hy Hnodup]. cbn [Py.remove_first].
  destruct (decide (x = y)) as [-> | Hne].
  - rewrite filter_cons_False by (by intros ?). cbn.
    symmetry. apply filter_all. by intros i Hi ->.
  - rewrite filter_cons_True by done.
    specialize (IH Hnodup). destruct (Py.remove_first x σ) as [σ' |]; cbn in *; by f_equal.
Qed.

(** What the first loop leaves of a duplicate-free list: the identifiers
    that none of the rows carries. *)
Lemma stocks_loop_rest (watch_remnants : list dict) : ∀ stocks σ stocks' σ',
  NoDup σ →
  for_each watch_remnants Seller.create_stocks_row stocks σ = (Ok stocks', σ') →
  σ' = filter (λ i, i ∉ code <$> watch_remnants) σ.
Proof.
  induction watch_remnants as [| watch rows IH]; intros stocks σ stocks' σ' Hnodup Hrun.
  { injection Hrun as _ <-. symmetry. apply filter_all. intros i _. apply not_elem_of_nil. }
  cbn [for_each] in Hrun. unfold bind in Hrun. rewrite create_stocks_row_eq in Hrun.
  destruct (decide (code watch ∈ σ)) as [Hin | Hin].
  - destruct (stock_of watch) as [q | e]; [| done].
    rewrite without_NoDup in Hrun by done.
    apply IH in Hrun; [| by apply NoDup_filter]. rewrite Hrun, list_filter_filter.
    apply list_filter_iff. intros i. rewrite fmap_cons, not_elem_of_cons. tauto.
  - apply IH in Hrun; [| done]. rewrite Hrun.
    apply filter_ext_elem. intros i Hi. rewrite fmap_cons, not_elem_of_cons.
    split; [| tauto]. intros Hrows. split; [| done]. by intros ->.
Qed.

(** X2. After [create_stocks] has returned, a duplicate-free list of
    known identifiers holds the identifiers that no inventory row
    carries, in their order; the records start with those of the rows
    and end with the quantity-0 records of what the list still holds. *)
Theorem create_stocks_leaves_the_unmatched_identifiers
    (watch_remnants : list dict) (offer_ids : list string)
    (stocks : list Seller.Stock.t) (rest : list string) :
  NoDup offer_ids →
  Seller.create_stocks watch_remnants offer_ids = (Ok stocks, rest) →
  rest = filter (λ i, i ∉ code <$> watch_remnants) offer_ids
  ∧ (∃ matched,
       stocks = matched ++ ((λ offer_id, Seller.Stock.mk offer_id 0) <$> rest)
       ∧ Forall (λ r, Seller.Stock.offer_id r ∈ code <$> watch_remnants
                      ∧ Seller.Stock.offer_id r ∈ offer_ids) matched)
  ∧ ∀ utcnow warehouse_id,
      (Market.create_stocks utcnow watch_remnants warehouse_id offer_ids).2 = rest.
Proof.
  intros Hnodup Hrun. split_and!.
  - revert Hrun. unfold Seller.create_stocks, bind, contents, ret.
    destruct (for_each _ _ _ _) as [[stocks1 | e] σ1] eqn:Hloop; [| done].
    intros [= <- <-]. by eapply stocks_loop_rest.
  - apply create_stocks_ok in Hrun as (new & -> & Hperm & Hnew & _).
    exists new. split; [done |]. apply Forall_forall. intros r Hr.
    rewrite Forall_forall in Hnew. destruct (Hnew r Hr) as (watch & Hin & Hcode & _).
    split.
    + rewrite Hcode. apply list_elem_of_fmap. by exists watch.
    + rewrite Hperm. apply elem_of_app. left. apply list_elem_of_fmap. by exists r.
  - intros utcnow warehouse_id. rewrite market_create_stocks_as_seller. by rewrite Hrun.
Qed.

(** X3. A call of [create_stocks] that fails has consumed the list all
    the same: when the rows before the failing one leave [rest] of the
    list, the call raises the exception of [int] and the caller's list
    is left as [rest]. *)
Theorem create_stocks_failure_leaves_the_list_consumed
    (pre : list dict) watch (post : list dict) (offer_ids : list string)
    (stocks : list Seller.Stock.t) (rest : list string) :
  Seller.create_stocks pre offer_ids = (Ok stocks, rest) →
  code watch ∈ rest →
  spec_quantity (descriptor watch) = None →
  Seller.create_stocks (pre ++ watch :: post) offer_ids
  = (Raise (quantity_failure watch), rest)
  ∧ ∀ utcnow warehouse_id,
      Market.create_stocks utcnow (pre ++ watch :: post) warehouse_id offer_ids
      = (Raise (quantity_failure watch), rest).
Proof.
  intros Hpre Hin Hbad.
  assert (Hseller : Seller.create_stocks (pre ++ watch :: post) offer_ids
                    = (Raise (quantity_failure watch), rest)).
  { revert Hpre. unfold Seller.create_stocks, bind, contents, ret.
    rewrite for_each_app. unfold bind.
    destruct (for_each pre _ _ _) as [[stocks1 | e] σ1]; [| done].
    intros [= _ ->]. cbn [for_each]. unfold bind.
    rewrite create_stocks_row_eq, decide_True, stock_of_spec, Hbad by done. done. }
  split; [exact Hseller |]. intros utcnow warehouse_id.
  rewrite market_create_stocks_as_seller. by rewrite Hseller.
Qed.

Lemma stocks_loop_unmatched (watch_remnants : list dict) σ : ∀ stocks,
  (∀ watch, watch ∈ watch_remnants → code watch ∉ σ) →
  for_each watch_remnants Seller.create_stocks_row stocks σ = (Ok stocks, σ).
Proof.
  induction watch_remnants as [| watch rows IH]; intros stocks Hrows; [done |].
  cbn [for_each]. unfold bind. rewrite create_stocks_row_eq.
  rewrite decide_False by (apply Hrows; left).
  apply IH. intros w Hw. apply Hrows. by right.
Qed.

Lemma seller_prices_loop_unmatched (watch_remnants : list dict) σ : ∀ prices,
  (∀ watch, watch ∈ watch_remnants → code watch ∉ σ) →
  for_each watch_remnants Seller.create_prices_row prices σ = (Ok prices, σ).
Proof.
  induction watch_remnants as [| watch rows IH]; intros prices Hrows; [done |].
  cbn [for_each]. unfold bind. rewrite seller_create_prices_row_eq.
  rewrite decide_False by (apply Hrows; left).
  apply IH. intros w Hw. apply Hrows. by right.
Qed.

Lemma market_prices_loop_unmatched (watch_remnants : list dict) σ : ∀ prices,
  (∀ watch, watch ∈ watch_remnants → code watch ∉ σ) →
  for_each watch_remnants Market.create_prices_row prices σ = (Ok prices, σ).
Proof.
  induction watch_remnants as [| watch rows IH]; intros prices Hrows; [done |].
  cbn [for_each]. unfold bind. rewrite market_create_prices_row_eq.
  rewrite decide_False by (apply Hrows; left).
  apply IH. intros w Hw. apply Hrows. by right.
Qed.

(** X4. Rows whose code is not a known identifier are never looked at:
    whatever their cells hold, [create_stocks] returns the quantity-0
    records of the whole list, which it leaves as it is, and
    [create_prices] returns no record.  So it is for an empty inventory
    and for an empty list of identifiers. *)
Theorem unmatched_rows_are_not_converted
    (watch_remnants : list dict) (offer_ids : list string) :
  (∀ watch, watch ∈ watch_remnants → code watch ∉ offer_ids) →
  Seller.create_stocks watch_remnants offer_ids
  = (Ok ((λ offer_id, Seller.Stock.mk offer_id 0) <$> offer_ids), offer_ids)
  ∧ (∀ utcnow warehouse_id,
       Market.create_stocks utcnow watch_remnants warehouse_id offer_ids
       = (Ok ((λ offer_id,
                 Market.Stock.mk offer_id warehouse_id
                   [Market.Item.mk 0 "FIT" (stamp utcnow)]) <$> offer_ids),
          offer_ids))
  ∧ Seller.create_prices watch_remnants offer_ids = (Ok [], offer_ids)
  ∧ Market.create_prices watch_remnants offer_ids = (Ok [], offer_ids).
Proof.
  intros Hrows.
  assert (Hseller : Seller.create_stocks watch_remnants offer_ids
            = (Ok ((λ offer_id, Seller.Stock.mk offer_id 0) <$> offer_ids), offer_ids)).
  { unfold Seller.create_stocks, bind, contents, ret.
    by rewrite stocks_loop_unmatched. }
  split_and!.
  - exact Hseller.
  - intros utcnow warehouse_id. rewrite market_create_stocks_as_seller, Hseller.
    cbn. by rewrite market_zeros.
  - by apply seller_prices_loop_unmatched.
  - by apply market_prices_loop_unmatched.
Qed.

(** X5. [create_prices] never changes the list of known identifiers,
    whether it returns or raises. *)
Theorem create_prices_leaves_the_list (watch_remnants : list dict) (offer_ids : list string) :
  (Seller.create_prices watch_remnants offer_ids).2 = offer_ids
  ∧ (Market.create_prices watch_remnants offer_ids).2 = offer_ids.
Proof.
  split.
  - destruct (Seller.create_prices _ _) as [r σ'] eqn:Hrun.
    by apply seller_prices_loop in Hrun as [-> _].
  - destruct (Market.create_prices _ _) as [r σ'] eqn:Hrun.
    by apply market_prices_loop in Hrun as [-> _].
Qed.

Lemma str_int_is_one n : Py.str (Py.PyInt n) = "1" ↔ n = 1.
Proof.
  split; [| by intros ->]. intros Hstr.
  pose proof (parse_int_str n) as Hparse. rewrite Hstr in Hparse.
  vm_compute in Hparse. by injection Hparse as <-.
Qed.

Lemma str_int_is_not_more_than_ten n : Py.str (Py.PyInt n) ≠ ">10".
Proof.
  intros Hstr. pose proof (parse_int_str n) as Hparse. rewrite Hstr in Hparse.
  vm_compute in Hparse. discriminate Hparse.
Qed.

(** X6. An integer quantity cell never makes [create_stocks] fail: the
    record of a matched row holds 0 for the cell 1 and the cell itself
    otherwise, negative or not. *)
Theorem integer_quantity_cell_is_passed_on watch σ (n : Z) :
  code watch ∈ σ →
  get watch "Количество" = Py.PyInt n →
  (∀ stocks,
     Seller.create_stocks_row watch stocks σ
     = (Ok (stocks ++ [Seller.Stock.mk (code watch) (if decide (n = 1) then 0 else n)]),
        without (code watch) σ))
  ∧ (∀ warehouse_id date stocks,
     Market.create_stocks_row warehouse_id date watch stocks σ
     = (Ok (stocks ++ [Market.Stock.mk (code watch) warehouse_id
                         [Market.Item.mk (if decide (n = 1) then 0 else n) "FIT" date]]),
        without (code watch) σ)).
Proof.
  intros Hin Hcell.
  assert (Hstock : stock_of watch = Ok (if decide (n = 1) then 0 else n)).
  { unfold stock_of. rewrite Hcell.
    rewrite decide_False by apply str_int_is_not_more_than_ten.
    destruct (decide (n = 1)) as [-> | Hne]; [done |].
    by rewrite decide_False by (by rewrite str_int_is_one). }
  split.
  - intros stocks. by rewrite create_stocks_row_eq, decide_True, Hstock.
  - intros warehouse_id date stocks.
    by rewrite market_create_stocks_row_eq, decide_True, Hstock.
Qed.

End MoreOnStocks.

(** * More on prices *)

Section MoreOnPrices.
Context `{!Unicode}.
Implicit Types (watch : dict) (σ : list string).

Lemma split_without_separator sep s :
  sep ∉ list_ascii_of_string s → Py.split sep s = [s].
Proof.
  induction s as [| c s IH]; [done |]. cbn [list_ascii_of_string Py.split].
  intros [Hne Hs]%not_elem_of_cons.
  destruct (Ascii.eqb_spec c sep) as [-> | _]; [done |]. by rewrite IH.
Qed.

Lemma re_sub_non_digit_only_digits s c :
  c ∈ list_ascii_of_string (Py.re_sub_non_digit s) → Py.is_digit c = true.
Proof.
  induction s as [| c' s IH]; cbn [Py.re_sub_non_digit].
  { by intros ?%not_elem_of_nil. }
  destruct (Py.is_digit c') eqn:Hc'; [| done].
  cbn [list_ascii_of_string]. by intros [-> | ?]%elem_of_cons; [| apply IH].
Qed.

Lemma re_sub_non_digit_idempotent s :
  Py.re_sub_non_digit (Py.re_sub_non_digit s) = Py.re_sub_non_digit s.
Proof.
  induction s as [| c s IH]; cbn [Py.re_sub_non_digit]; [done |].
  destruct (Py.is_digit c) eqn:Hc; [| done].
  cbn [Py.re_sub_non_digit]. by rewrite Hc, IH.
Qed.

(** What [price_conversion] has returned is the digits of the part
    before the first point of a text. *)
Lemma price_conversion_inv (price : Py.value) digits :
  Seller.price_conversion price = Ok digits →
  ∃ s integer_part parts,
    price = Py.PyStr s ∧ Py.split "." s = integer_part :: parts
    ∧ digits = Py.re_sub_non_digit integer_part.
Proof.
  destruct price as [| n | s]; [done | done |].
  destruct (price_conversion_text s) as (p & ps & Hsplit & ->).
  intros [= <-]. by exists s, p, ps.
Qed.

(** X7. What [price_conversion] returns holds digits only, and
    [price_conversion] returns it unchanged when applied to it. *)
Theorem price_conversion_is_idempotent (price : Py.value) (digits : string) :
  Seller.price_conversion price = Ok digits →
  Seller.price_conversion (Py.PyStr digits) = Ok digits
  ∧ digits_only digits = digits
  ∧ Forall (λ c, Py.is_digit c = true) (list_ascii_of_string digits).
Proof.
  intros (s & p & ps & _ & _ & ->)%price_conversion_inv.
  assert (Hdigits : Forall (λ c, Py.is_digit c = true)
                      (list_ascii_of_string (Py.re_sub_non_digit p))).
  { apply Forall_forall. intros c. apply re_sub_non_digit_only_digits. }
  split_and!; [| | done].
  - unfold Seller.price_conversion. cbn [Py.split_dot result_bind].
    rewrite split_without_separator.
    + cbn. by rewrite re_sub_non_digit_idempotent.
    + intros Hdot. rewrite Forall_forall in Hdigits. by apply Hdigits in Hdot.
  - by rewrite <- re_sub_non_digit_digits_only, re_sub_non_digit_idempotent.
Qed.

Lemma int_of_empty_text : Py.int (Py.PyStr "") = Raise (ValueError b_int).
Proof. reflexivity. Qed.

Lemma seller_prices_digits (rows : list dict) prices :
  Forall2 seller_price_of rows prices →
  Forall (λ p, digits_only (Seller.Price.price p) = Seller.Price.price p) prices.
Proof.
  induction 1 as [| watch p rows prices [_ Hp] _ IH]; constructor; [| done].
  apply price_conversion_inv in Hp as (s & part & parts & _ & _ & Hp). rewrite Hp.
  by rewrite <- re_sub_non_digit_digits_only, re_sub_non_digit_idempotent.
Qed.

Lemma market_prices_nonnegative (rows : list dict) prices :
  Forall2 market_price_of rows prices →
  Forall (λ p, 0 ≤ Market.PriceValue.value (Market.Price.price p)) prices.
Proof.
  induction 1 as [| watch p rows prices [_ (converted & Hp & Hint)] _ IH];
    constructor; [| done].
  apply price_conversion_inv in Hp as (s & part & parts & _ & _ & ->).
  destruct (int_re_sub part) as [Hempty | (n & Hn & Hparse)].
  - rewrite Hempty, int_of_empty_text in Hint. done.
  - rewrite Hparse in Hint. by injection Hint as <-.
Qed.

(** X8. The prices that [seller.create_prices] returns hold digits
    only; the prices that [market.create_prices] returns are
    non-negative integers. *)
Theorem price_records_hold_digits (watch_remnants : list dict) (offer_ids : list string) :
  (∀ prices rest,
     Seller.create_prices watch_remnants offer_ids = (Ok prices, rest) →
     Forall (λ p, digits_only (Seller.Price.price p) = Seller.Price.price p) prices)
  ∧ (∀ prices rest,
     Market.create_prices watch_remnants offer_ids = (Ok prices, rest) →
     Forall (λ p, 0 ≤ Market.PriceValue.value (Market.Price.price p)) prices).
Proof.
  split; intros prices rest Hrun.
  - apply seller_prices_loop in Hrun as [_ Hok].
    destruct (Hok _ eq_refl) as (new & -> & Hnew). by eapply seller_prices_digits.
  - apply market_prices_loop in Hrun as [_ Hok].
    destruct (Hok _ eq_refl) as (new & -> & Hnew). by eapply market_prices_nonnegative.
Qed.

(** X9. A matched row whose price has no digit before its first point
    gets the price [""] from [seller.create_prices], where
    [market.create_prices] does not return. *)
Theorem price_without_digits watch (watch_remnants : list dict) (offer_ids : list string) :
  watch ∈ watch_remnants →
  code watch ∈ offer_ids →
  Seller.price_conversion (get watch "Цена") = Ok "" →
  (∀ prices rest,
     Seller.create_prices watch_remnants offer_ids = (Ok prices, rest) →
     ∃ p, p ∈ prices ∧ Seller.Price.offer_id p = code watch ∧ Seller.Price.price p = "")
  ∧ ∃ e, raised (Market.create_prices watch_remnants offer_ids) = Some e.
Proof.
  intros Hin Hcode Hempty.
  assert (Hmatched : watch ∈ filter (λ w, code w ∈ offer_ids) watch_remnants).
  { by apply list_elem_of_filter. }
  split.
  - intros prices rest Hrun. apply seller_prices_loop in Hrun as [_ Hok].
    destruct (Hok _ eq_refl) as (new & -> & Hnew). cbn [app].
    apply list_elem_of_lookup in Hmatched as [k Hk].
    destruct (Forall2_lookup_l _ _ _ _ _ Hnew Hk) as (p & Hp & Hid & Hconv).
    exists p. split_and!; [by eapply list_elem_of_lookup_2 | done | congruence].
  - destruct (Market.create_prices _ _) as [[prices | e] rest] eqn:Hrun;
      [exfalso | by exists e].
    apply market_prices_loop in Hrun as [_ Hok].
    destruct (Hok _ eq_refl) as (new & -> & Hnew).
    apply list_elem_of_lookup in Hmatched as [k Hk].
    destruct (Forall2_lookup_l _ _ _ _ _ Hnew Hk) as (p & Hp & Hid & c & Hconv & Hint).
    rewrite Hempty in Hconv. injection Hconv as <-.
    by rewrite int_of_empty_text in Hint.
Qed.

End MoreOnPrices.

(** * One price record per matched row *)

Section PricedRows.
Context `{!Unicode}.
Implicit Types (watch : dict) (σ : list string).

Lemma price_digits_convert watch :
  has_price_digits watch →
  ∃ digits n, Seller.price_conversion (get watch "Цена") = Ok digits
              ∧ Py.int (Py.PyStr digits) = Ok n.
Proof.
  intros (digits & Hconv & Hdigits). exists digits.
  destruct (price_conversion_inv _ _ Hconv) as (s & part & parts & _ & _ & ->).
  destruct (int_re_sub part) as [Hnil | (n & _ & Hn)]; [done |]. by exists n.
Qed.

(** The loop of [seller.create_prices] ends normally when the price of
    every matched row is text. *)
Lemma seller_prices_loop_returns (watch_remnants : list dict) σ : ∀ prices,
  (∀ watch, watch ∈ watch_remnants → code watch ∈ σ → has_text_price watch) →
  ∃ prices', for_each watch_remnants Seller.create_prices_row prices σ = (Ok prices', σ).
Proof.
  induction watch_remnants as [| watch rows IH]; intros prices Hrows; [by eexists |].
  cbn [for_each]. unfold bind. rewrite seller_create_prices_row_eq.
  assert (Hrest : ∀ w, w ∈ rows → code w ∈ σ → has_text_price w).
  { intros w Hw. apply Hrows. by right. }
  destruct (decide (code watch ∈ σ)) as [Hin | Hin]; [| by apply IH].
  destruct (Hrows watch (list_elem_of_here _ _) Hin) as [s Hs]. rewrite Hs.
  destruct (price_conversion_text s) as (part & parts & _ & ->). by apply IH.
Qed.

(** The loop of [market.create_prices] ends normally when the price of
    every matched row has a digit before its first point. *)
Lemma market_prices_loop_returns (watch_remnants : list dict) σ : ∀ prices,
  (∀ watch, watch ∈ watch_remnants → code watch ∈ σ → has_price_digits watch) →
  ∃ prices', for_each watch_remnants Market.create_prices_row prices σ = (Ok prices', σ).
Proof.
  induction watch_remnants as [| watch rows IH]; intros prices Hrows; [by eexists |].
  cbn [for_each]. unfold bind. rewrite market_create_prices_row_eq.
  assert (Hrest : ∀ w, w ∈ rows → code w ∈ σ → has_price_digits w).
  { intros w Hw. apply Hrows. by right. }
  destruct (decide (code watch ∈ σ)) as [Hin | Hin]; [| by apply IH].
  destruct (price_digits_convert watch (Hrows watch (list_elem_of_here _ _) Hin))
    as (digits & n & -> & ->).
  by apply IH.
Qed.

(** It raises the [ValueError] of [int], at the first matched row whose
    price has no such digit. *)
Lemma market_prices_loop_fails (watch_remnants : list dict) σ : ∀ prices,
  (∀ watch, watch ∈ watch_remnants → code watch ∈ σ → has_text_price watch) →
  (∃ watch, watch ∈ watch_remnants ∧ code watch ∈ σ ∧ ¬ has_price_digits watch) →
  for_each watch_remnants Market.create_prices_row prices σ = (Raise (ValueError b_int), σ).
Proof.
  induction watch_remnants as [| watch rows IH]; intros prices Hrows (bad & Hbad & Hin & Hnone).
  { by apply not_elem_of_nil in Hbad. }
  cbn [for_each]. unfold bind. rewrite market_create_prices_row_eq.
  assert (Hrest : ∀ w, w ∈ rows → code w ∈ σ → has_text_price w).
  { intros w Hw. apply Hrows. by right. }
  destruct (decide (code watch ∈ σ)) as [Hwatch | Hwatch].
  - destruct (Hrows watch (list_elem_of_here _ _) Hwatch) as [s Hs].
    destruct (price_conversion_text s) as (part & parts & _ & Hconv).
    rewrite Hs, Hconv.
    destruct (int_re_sub part) as [-> | (n & _ & Hn)]; [done |].
    rewrite Hn. apply IH; [done |]. exists bad. split; [| done].
    apply elem_of_cons in Hbad as [-> | Hbad]; [| done].
    destruct Hnone. exists (Py.re_sub_non_digit part). split; [by rewrite Hs |].
    intros Hnil. rewrite Hnil in Hn. discriminate Hn.
  - apply IH; [done |]. exists bad. split; [| done].
    apply elem_of_cons in Hbad as [-> | Hbad]; [done | done].
Qed.

(** C8, as the code has it.  When the price of every matched row is
    text, [create_prices] of [seller.py] returns, in order, exactly one
    price record per inventory row whose code is among the known
    identifiers, hence none for an identifier that no row carries.
    [create_prices] of [market.py] does so when the price of every
    matched row has a digit before its first point; when one has none,
    it raises the [ValueError] of [int], a parse error, and returns no
    record.  The identifiers of the price records are among those of
    the stock records that [create_stocks] returns on the same rows and
    identifiers. *)
Theorem create_prices_one_record_per_matched_row
    (watch_remnants : list dict) (offer_ids : list string) :
  (∀ watch, watch ∈ watch_remnants → code watch ∈ offer_ids → has_text_price watch) →
  (∃ prices,
     Seller.create_prices watch_remnants offer_ids = (Ok prices, offer_ids)
     ∧ Forall2 seller_price_of
         (filter (λ watch, code watch ∈ offer_ids) watch_remnants) prices
     ∧ (∀ i, (∀ watch, watch ∈ watch_remnants → code watch ≠ i) →
             i ∉ Seller.Price.offer_id <$> prices)
     ∧ ∀ stocks rest,
         Seller.create_stocks watch_remnants offer_ids = (Ok stocks, rest) →
         Seller.Price.offer_id <$> prices ⊆ Seller.Stock.offer_id <$> stocks)
  ∧ ((∀ watch, watch ∈ watch_remnants → code watch ∈ offer_ids → has_price_digits watch) →
     ∃ prices,
       Market.create_prices watch_remnants offer_ids = (Ok prices, offer_ids)
       ∧ Forall2 market_price_of
           (filter (λ watch, code watch ∈ offer_ids) watch_remnants) prices
       ∧ (∀ i, (∀ watch, watch ∈ watch_remnants → code watch ≠ i) →
               i ∉ Market.Price.id <$> prices)
       ∧ ∀ utcnow warehouse_id stocks rest,
           Market.create_stocks utcnow watch_remnants warehouse_id offer_ids
             = (Ok stocks, rest) →
           Market.Price.id <$> prices ⊆ Market.Stock.sku <$> stocks)
  ∧ ((∃ watch, watch ∈ watch_remnants ∧ code watch ∈ offer_ids ∧ ¬ has_price_digits watch) →
     Market.create_prices watch_remnants offer_ids = (Raise (ValueError b_int), offer_ids)
     ∧ classify (ValueError b_int) = ParseError).
Proof.
  intros Htext. split_and!.
  - destruct (seller_prices_loop_returns watch_remnants offer_ids [] Htext) as [prices Hrun].
    exists prices. split; [exact Hrun |].
    apply seller_prices_loop in Hrun as [_ Hok].
    destruct (Hok _ eq_refl) as (new & -> & Hnew). cbn [app].
    pose proof (seller_price_ids _ _ Hnew) as Hids. split_and!; [done | |].
    + intros i Hrows. rewrite Hids.
      intros (watch & -> & [_ Hin]%list_elem_of_filter)%list_elem_of_fmap.
      by apply (Hrows watch).
    + intros stocks rest Hperm%create_stocks_ids_perm c. rewrite Hids, Hperm.
      apply matched_codes_known.
  - intros Hdigits.
    destruct (market_prices_loop_returns watch_remnants offer_ids [] Hdigits) as [prices Hrun].
    exists prices. split; [exact Hrun |].
    apply market_prices_loop in Hrun as [_ Hok].
    destruct (Hok _ eq_refl) as (new & -> & Hnew). cbn [app].
    pose proof (market_price_ids _ _ Hnew) as Hids. split_and!; [done | |].
    + intros i Hrows. rewrite Hids.
      intros (watch & -> & [_ Hin]%list_elem_of_filter)%list_elem_of_fmap.
      by apply (Hrows watch).
    + intros utcnow warehouse_id stocks rest
        (stocks0 & Hperm%create_stocks_ids_perm & ->)%market_create_stocks_ok c.
      rewrite Hids, sku_to_market, Hperm. apply matched_codes_known.
  - intros Hbad. split; [| done]. by apply market_prices_loop_fails.
Qed.

End PricedRows.

(** * More on the batch partitioner *)

(** X10. For a positive size [n], [divide] cuts a list of [len] records
    into [(len + n - 1) / n] batches, every one but the last of exactly
    [n] records; there is no batch for the empty list. *)
Theorem divide_fills_every_batch_but_the_last
    (A : Type) (lst : list A) (n : Z) (batches : list (list A)) :
  0 < n →
  Seller.divide lst n = Ok batches →
  Py.len batches = (Py.len lst + n - 1) / n
  ∧ (∀ (k : nat) b, batches !! k = Some b → (S k < length batches)%nat → Py.len b = n)
  ∧ (lst = [] ↔ batches = []).
Proof.
  intros Hn. rewrite divide_eq by done. intros [= <-].
  assert (Hcount : Z.of_nat (batch_count lst n) = (Py.len lst + n - 1) / n).
  { unfold batch_count, Py.len. case_decide as Hlen.
    - pose proof (Z.div_pos (Z.of_nat (length lst) - 0 - 1) n).
      rewrite Z2Nat.id by lia.
      replace (Z.of_nat (length lst) + n - 1) with (Z.of_nat (length lst) - 0 - 1 + 1 * n) by lia.
      rewrite Z.div_add by lia. done.
    - replace (Z.of_nat (length lst)) with 0 by lia. rewrite Z.div_small by lia. done. }
  split_and!.
  - unfold Py.len at 1. by rewrite length_fmap, length_seq.
  - intros k b. rewrite length_fmap, length_seq, list_lookup_fmap.
    destruct (seq 0 _ !! k) as [k' |] eqn:Hk; [| done].
    apply lookup_seq in Hk as [-> Hk]. cbn. intros [= <-] Hlast.
    unfold batch, Py.len. rewrite length_take, length_drop.
    pose proof (batch_starts_inside lst n (S k) Hn Hlast). lia.
  - split.
    + intros ->. done.
    + intros Hnil%(f_equal length). rewrite length_fmap, length_seq in Hnil.
      pose proof (batches_reach_the_end lst n Hn) as Hend. rewrite Hnil in Hend.
      destruct lst; [done | cbn in Hend; lia].
Qed.

(** * Computations on a log *)

Section Io.
Context {E : Type}.
Implicit Types (log : list E).

Lemma io_bind_Some {A B} (m : io E A) (k : A → io E B) log r log' :
  io_bind m k log = Some (r, log') →
  (∃ a log1, m log = Some (Return a, log1) ∧ k a log1 = Some (r, log'))
  ∨ (∃ e, m log = Some (Throw e, log') ∧ r = Throw e).
Proof.
  unfold io_bind. destruct (m log) as [[[a | e] log1] |]; [| | done].
  - intros Hk. left. by exists a, log1.
  - intros [= <- <-]. right. by exists e.
Qed.

Lemma io_bind_Return {A B} (m : io E A) (k : A → io E B) log a log1 :
  m log = Some (Return a, log1) → io_bind m k log = k a log1.
Proof. unfold io_bind. by intros ->. Qed.

Lemma io_bind_None {A B} (m : io E A) (k : A → io E B) log :
  m log = None → io_bind m k log = None.
Proof. unfold io_bind. by intros ->. Qed.

Lemma appends_ret {A} (P : E → Prop) (a : A) : appends P (io_ret a).
Proof. intros log r log' [= <- <-]. exists []. by rewrite app_nil_r. Qed.

Lemma appends_bind {A B} (P : E → Prop) (m : io E A) (k : A → io E B) :
  appends P m → (∀ a, appends P (k a)) → appends P (io_bind m k).
Proof.
  intros Hm Hk log r log' [(a & log1 & Ha & Hr) | (e & He & ->)]%io_bind_Some.
  - destruct (Hm _ _ _ Ha) as (new1 & -> & Hnew1).
    destruct (Hk _ _ _ _ Hr) as (new2 & -> & Hnew2).
    exists (new1 ++ new2). split; [by rewrite app_assoc | by apply Forall_app].
  - exact (Hm _ _ _ He).
Qed.

Lemma appends_call {A} (P : E → Prop) (request : E) (answer : list E → outcome A) :
  P request → appends P (call request answer).
Proof. intros HP log r log' [= <- <-]. exists [request]. split; [done | by constructor]. Qed.

Lemma appends_core {A} (P : E → Prop) (m : prog A) offer_ids :
  appends P (core (E := E) m offer_ids).
Proof. intros log r log' [= <- <-]. exists []. by rewrite app_nil_r. Qed.

Lemma appends_core_result {A} (P : E → Prop) (r : result A) :
  appends P (core_result (E := E) r).
Proof. intros log r' log' [= <- <-]. exists []. by rewrite app_nil_r. Qed.

Lemma appends_for_each {A} (P : E → Prop) (l : list A) (body : A → io E unit) :
  (∀ x, appends P (body x)) → appends P (io_for_each l body).
Proof.
  intros Hbody. induction l as [| x l IH]; cbn [io_for_each].
  - apply appends_ret.
  - apply appends_bind; [apply Hbody | intros _; apply IH].
Qed.


Lemma appends_weaken {A} (P Q : E → Prop) (m : io E A) :
  (∀ ev, P ev → Q ev) → appends P m → appends Q m.
Proof.
  intros HPQ Hm log r log' (new & -> & Hnew)%Hm. exists new. split; [done |].
  by eapply Forall_impl.
Qed.

(** A loop that sends the batches one by one: what it has sent, when it
    ends, are the first batches, all of them unless a request failed,
    and then the failed request is the last one sent. *)
Lemma send_batches {A} (request : A → E) (answer : list E → outcome unit) :
  ∀ (batches : list A) log r log',
  io_for_each batches (λ b, call (request b) answer) log = Some (r, log') →
  ∃ sent,
    log' = log ++ (request <$> sent)
    ∧ match r with
      | Return _ => sent = batches
      | Throw e => sent `prefix_of` batches ∧ sent ≠ [] ∧ answer log' = Throw e
      end.
Proof.
  induction batches as [| b batches IH]; intros log r log'; cbn [io_for_each].
  - intros [= <- <-]. exists []. by rewrite app_nil_r.
  - unfold io_bind at 1, call at 1.
    destruct (answer (log ++ [request b])) as [[] | e] eqn:Hanswer.
    + intros (sent & -> & Hr)%IH. exists (b :: sent). split.
      * cbn. by rewrite <- app_assoc.
      * destruct r as [? | e]; [by subst |]. destruct Hr as (Hprefix & _ & Hthrow).
        split_and!; [by apply prefix_cons | done |].
        cbn. by rewrite <- app_assoc in Hthrow |- *.
    + intros [= <- <-]. exists [b]. split; [done |]. split_and!; [| done | done].
      by apply prefix_cons, prefix_nil.
Qed.

Lemma ends_ret {A} (a : A) : ends (io_ret (E := E) a).
Proof. done. Qed.

Lemma ends_call {A} (request : E) (answer : list E → outcome A) : ends (call request answer).
Proof. done. Qed.

Lemma ends_core {A} (m : prog A) offer_ids : ends (core (E := E) m offer_ids).
Proof. done. Qed.

Lemma ends_core_result {A} (r : result A) : ends (core_result (E := E) r).
Proof. done. Qed.

Lemma io_bind_ends_at {A B} (m : io E A) (k : A → io E B) log :
  m log ≠ None → (∀ a, ends (k a)) → io_bind m k log ≠ None.
Proof.
  unfold io_bind. destruct (m log) as [[[a | e] log1] |]; [| done | done].
  intros _ Hk. apply Hk.
Qed.

Lemma ends_bind {A B} (m : io E A) (k : A → io E B) :
  ends m → (∀ a, ends (k a)) → ends (io_bind m k).
Proof. intros Hm Hk log. by apply io_bind_ends_at. Qed.

Lemma ends_for_each {A} (l : list A) (body : A → io E unit) :
  (∀ x, ends (body x)) → ends (io_for_each l body).
Proof.
  intros Hbody. induction l as [| x l IH]; cbn [io_for_each]; [apply ends_ret |].
  apply ends_bind; [apply Hbody | by intros _].
Qed.

Lemma try_except_ends_at {A} (body : io E A) (handler : error → io E A) log :
  body log ≠ None → (∀ e, ends (handler e)) → try_except body handler log ≠ None.
Proof.
  unfold try_except. destruct (body log) as [[[a | e] log1] |]; [done | | done].
  intros _ Hhandler. apply Hhandler.
Qed.

End Io.

(** The steps that end whatever the log. *)
Ltac ends_steps :=
  repeat first
    [ apply ends_ret | apply ends_call | apply ends_core | apply ends_core_result
    | apply ends_bind; [| intros ?] | apply ends_for_each; intros ? ].

(** * Runs that stop at the first failure *)

Section Orderly.
Context {E : Type} (refusal : list E → option error).
Implicit Types (log requests : list E).

Lemma all_answered_app log requests1 requests2 :
  all_answered refusal log (requests1 ++ requests2)
  ↔ all_answered refusal log requests1
    ∧ all_answered refusal (log ++ requests1) requests2.
Proof.
  revert log. induction requests1 as [| request requests1 IH]; intros log; cbn.
  - rewrite app_nil_r. tauto.
  - rewrite IH, <- app_assoc. cbn. tauto.
Qed.

Lemma orderly_ret {A} (a : A) : orderly refusal (io_ret a).
Proof. intros log r log' [= <- <-]. exists []. by rewrite app_nil_r. Qed.

Lemma orderly_core {A} (m : prog A) offer_ids : orderly refusal (core m offer_ids).
Proof.
  intros log r log' [= <- <-]. exists []. rewrite app_nil_r. split; [done |].
  destruct (m offer_ids) as [[a | e] σ]; cbn; [done |]. left. by eauto.
Qed.

Lemma orderly_core_result {A} (result : result A) : orderly refusal (core_result result).
Proof.
  intros log r log' [= <- <-]. exists []. rewrite app_nil_r. split; [done |].
  destruct result as [a | e]; cbn; [done |]. left. by eauto.
Qed.

Lemma orderly_call {A} (request : E) (answer : list E → outcome A) :
  (∀ log, refusal (log ++ [request]) = thrown (answer (log ++ [request]))) →
  orderly refusal (call request answer).
Proof.
  intros Hanswer log r log' [= <- <-]. exists [request]. split; [done |].
  specialize (Hanswer log). destruct (answer _) as [a | e]; cbn in *; [done |].
  right. by exists [], request.
Qed.

Lemma orderly_bind {A B} (m : io E A) (k : A → io E B) :
  orderly refusal m → (∀ a, orderly refusal (k a)) → orderly refusal (io_bind m k).
Proof.
  intros Hm Hk log r log' [(a & log1 & Ha & Hr) | (e & He & ->)]%io_bind_Some.
  - destruct (Hm _ _ _ Ha) as (requests1 & -> & Hfirst). cbn in Hfirst.
    destruct (Hk _ _ _ _ Hr) as (requests2 & -> & Hsecond).
    exists (requests1 ++ requests2). split; [by rewrite app_assoc |].
    destruct (thrown r) as [e |]; cbn in *.
    + destruct Hsecond as [[Hall Hcore] | (front & request & -> & Hfront & Hrefusal)].
      * left. split; [| done]. by apply all_answered_app.
      * right. exists (requests1 ++ front), request.
        split; [by rewrite app_assoc |]. split; [by apply all_answered_app |].
        by rewrite <- app_assoc in Hrefusal.
    + by apply all_answered_app.
  - exact (Hm _ _ _ He).
Qed.

Lemma orderly_for_each {A} (l : list A) (body : A → io E unit) :
  (∀ x, orderly refusal (body x)) → orderly refusal (io_for_each l body).
Proof.
  intros Hbody. induction l as [| x l IH]; cbn [io_for_each]; [apply orderly_ret |].
  apply orderly_bind; [apply Hbody | by intros _].
Qed.

End Orderly.

(** * The pages of the Ozon catalogue *)

Section OzonPages.
Context `{!Ozon.World} `{!Unicode}.
Implicit Types (log : list Ozon.event) (pages : list Ozon.page).

Lemma ozon_requests_cons c t last page pages :
  ozon_requests c t last (page :: pages)
  = Ozon.ProductList last c t :: ozon_requests c t (Ozon.last_id page) pages.
Proof. done. Qed.

Lemma ozon_loop_step fuel c t last acc log :
  Ozon.get_offer_ids_loop (S fuel) c t last acc log
  = match Ozon.product_list (log ++ [Ozon.ProductList last c t]) with
    | Return page =>
        if decide (Ozon.total page = Py.len (acc ++ Ozon.items page))
        then Some (Return (acc ++ Ozon.items page), log ++ [Ozon.ProductList last c t])
        else Ozon.get_offer_ids_loop fuel c t (Ozon.last_id page) (acc ++ Ozon.items page)
               (log ++ [Ozon.ProductList last c t])
    | Throw e => Some (Throw e, log ++ [Ozon.ProductList last c t])
    end.
Proof.
  cbn [Ozon.get_offer_ids_loop]. unfold io_bind, Ozon.get_product_list, call.
  destruct (Ozon.product_list _) as [page | e]; [| done]. by case_decide.
Qed.

(** The loop, when it returns, has fetched pages that end the paging. *)
Lemma ozon_loop_returns fuel c t : ∀ last acc log product_list log',
  Ozon.get_offer_ids_loop fuel c t last acc log = Some (Return product_list, log') →
  ∃ pages,
    (length pages ≤ fuel)%nat
    ∧ ozon_paging c t log last acc pages
    ∧ product_list = acc ++ concat (Ozon.items <$> pages)
    ∧ log' = log ++ ozon_requests c t last pages.
Proof.
  induction fuel as [| fuel IH]; intros last acc log pl log'; [done |].
  rewrite ozon_loop_step.
  destruct (Ozon.product_list _) as [page | e] eqn:Hpage; [| done].
  case_decide as Htotal.
  - intros [= <- <-]. exists [page]. split_and!.
    + cbn. lia.
    + split.
      * intros [| k] answer; [| done]. intros [= <-]. split; [done |]. cbn. lia.
      * exists page. split; [done |]. cbn. by rewrite app_nil_r.
    + cbn. by rewrite app_nil_r.
    + done.
  - intros (pages & Hlen & [Hanswers (final & Hlast & Hfinal)] & -> & ->)%IH.
    exists (page :: pages). split_and!.
    + cbn. lia.
    + split.
      * intros [| k] answer Hk.
        -- injection Hk as <-. split; [done |]. intros _. cbn. by rewrite app_nil_r.
        -- destruct (Hanswers k answer Hk) as [Hanswer Hnot]. split.
           ++ rewrite ozon_requests_cons. cbn [take].
              rewrite <- app_assoc in Hanswer. exact Hanswer.
           ++ intros Hlt. cbn [take fmap list_fmap concat].
              rewrite app_assoc. apply Hnot. cbn in Hlt. lia.
      * exists final. split.
        -- destruct pages; [done | by rewrite last_cons, Hlast].
        -- cbn [fmap list_fmap concat]. by rewrite app_assoc.
    + cbn [fmap list_fmap concat]. by rewrite app_assoc.
    + rewrite ozon_requests_cons. by rewrite <- app_assoc.
Qed.

(** Pages that end the paging make the loop return, given fuel for
    one iteration per page. *)
Lemma ozon_loop_fetches c t : ∀ pages last acc log fuel,
  ozon_paging c t log last acc pages → (length pages ≤ fuel)%nat →
  Ozon.get_offer_ids_loop fuel c t last acc log
  = Some (Return (acc ++ concat (Ozon.items <$> pages)),
          log ++ ozon_requests c t last pages).
Proof.
  induction pages as [| page pages IH]; intros last acc log fuel [Hanswers Hfinal] Hfuel.
  { by destruct Hfinal as (? & ? & _). }
  destruct fuel as [| fuel]; [cbn in Hfuel; lia |].
  rewrite ozon_loop_step.
  destruct (Hanswers 0%nat page eq_refl) as [Hpage Hnot].
  rewrite ozon_requests_cons in Hpage. cbn [take] in Hpage. rewrite take_0 in Hpage.
  rewrite Hpage.
  destruct pages as [| page' pages].
  - destruct Hfinal as (final & [= <-] & Htotal). cbn in Htotal |- *.
    rewrite app_nil_r in Htotal |- *. by rewrite decide_True.
  - rewrite decide_False.
    2: { cbn in Hnot. rewrite app_nil_r in Hnot. apply Hnot. lia. }
    rewrite (IH (Ozon.last_id page) (acc ++ Ozon.items page) _ fuel).
    + rewrite ozon_requests_cons. cbn [fmap list_fmap concat].
      by rewrite <- !app_assoc.
    + split.
      * intros k answer Hk. destruct (Hanswers (S k) answer Hk) as [Hanswer Hnot'].
        split.
        -- rewrite ozon_requests_cons in Hanswer. cbn [take] in Hanswer.
           by rewrite <- app_assoc.
        -- intros Hlt. rewrite <- app_assoc. apply Hnot'. cbn in Hlt |- *. lia.
      * destruct Hfinal as (final & Hlast & Htotal). exists final. split.
        -- exact Hlast.
        -- by rewrite <- app_assoc.
    + cbn in Hfuel |- *. lia.
Qed.

Lemma ozon_loop_appends fuel c t : ∀ last acc,
  appends (is_product_list c t) (Ozon.get_offer_ids_loop fuel c t last acc).
Proof.
  induction fuel as [| fuel IH]; intros last acc; [done |].
  cbn [Ozon.get_offer_ids_loop]. apply appends_bind.
  - apply appends_call. by exists last.
  - intros page. case_decide; [apply appends_ret | apply IH].
Qed.

Lemma ozon_get_offer_ids_appends fuel c t :
  appends (is_product_list c t) (Ozon.get_offer_ids fuel c t).
Proof.
  apply appends_bind; [apply ozon_loop_appends | intros; apply appends_ret].
Qed.

(** The loop, when it raises, raises what its last request raised. *)
Lemma ozon_loop_throws fuel c t : ∀ last acc log e log',
  Ozon.get_offer_ids_loop fuel c t last acc log = Some (Throw e, log') →
  Ozon.product_list log' = Throw e
  ∧ ∃ requests last', log' = log ++ requests ++ [Ozon.ProductList last' c t]
      ∧ Forall (is_product_list c t) requests.
Proof.
  induction fuel as [| fuel IH]; intros last acc log e log'; [done |].
  rewrite ozon_loop_step.
  destruct (Ozon.product_list _) as [page | e'] eqn:Hpage.
  - case_decide; [done |].
    intros [Hthrow (requests & last' & -> & Hrequests)]%IH. split; [done |].
    exists (Ozon.ProductList last c t :: requests), last'. split.
    + by rewrite <- !app_assoc.
    + constructor; [by exists last | done].
  - intros [= <- <-]. split; [done |]. exists [], last. by split.
Qed.

(** The loop does not end while no answer reports as total the number
    of products fetched by then. *)
Lemma ozon_loop_goes_on (I : list Ozon.product → Prop) c t :
  (∀ log acc, I acc →
     ∃ page, Ozon.product_list log = Return page
       ∧ Ozon.total page ≠ Py.len (acc ++ Ozon.items page)
       ∧ I (acc ++ Ozon.items page)) →
  ∀ fuel last acc log, I acc → Ozon.get_offer_ids_loop fuel c t last acc log = None.
Proof.
  intros Hworld. induction fuel as [| fuel IH]; intros last acc log Hacc; [done |].
  rewrite ozon_loop_step.
  destruct (Hworld (log ++ [Ozon.ProductList last c t]) acc Hacc) as (page & -> & Hnot & HI).
  rewrite decide_False by done. by apply IH.
Qed.

(** X11: get_offer_ids of seller.py returns, given enough fuel, exactly
    when Ozon answers its requests (the first with an empty cursor, each
    other with the cursor of the page before) with pages of which the
    last, and none before it, reports as total the number of products
    fetched by then; it returns the offer_id of every product of these
    pages, in order, and has made these requests and nothing else. *)
Theorem get_offer_ids_returns_the_products_of_the_pages c t log offer_ids log' :
  (∃ fuel, Ozon.get_offer_ids fuel c t log = Some (Return offer_ids, log'))
  ↔ ∃ pages,
      ozon_paging c t log "" [] pages
      ∧ offer_ids = Ozon.offer_id <$> concat (Ozon.items <$> pages)
      ∧ log' = log ++ ozon_requests c t "" pages.
Proof.
  split.
  - intros [fuel [(pl & log1 & Hloop & Hret) | (e & _ & ?)]%io_bind_Some]; [| done].
    injection Hret as <- <-.
    apply ozon_loop_returns in Hloop as (pages & _ & Hpaging & -> & ->).
    by exists pages.
  - intros (pages & Hpaging & -> & ->). exists (length pages).
    unfold Ozon.get_offer_ids.
    by rewrite (io_bind_Return _ _ _ _ _ (ozon_loop_fetches c t pages "" [] log _ Hpaging (le_n _))).
Qed.

(** X12: when get_offer_ids of seller.py raises, it raises what its last
    request raised; before it, it has made requests for the product
    list with the caller's credentials and nothing else. *)
Theorem get_offer_ids_raises_what_the_last_request_raised fuel c t log e log' :
  Ozon.get_offer_ids fuel c t log = Some (Throw e, log') →
  Ozon.product_list log' = Throw e
  ∧ ∃ requests last_id,
      log' = log ++ requests ++ [Ozon.ProductList last_id c t]
      ∧ Forall (is_product_list c t) requests.
Proof.
  intros [(pl & log1 & _ & ?) | (e' & Hloop & [= <-])]%io_bind_Some; [done |].
  by apply ozon_loop_throws in Hloop.
Qed.

(** X13: get_offer_ids of seller.py never returns and never raises, for
    any fuel, when every answer is a page whose total differs from the
    number of products fetched by then: an invariant [I] of the fetched
    list says which lists can arise. *)
Theorem get_offer_ids_goes_on_while_the_total_differs
    (I : list Ozon.product → Prop) c t log :
  I [] →
  (∀ log' product_list, I product_list →
     ∃ page, Ozon.product_list log' = Return page
       ∧ Ozon.total page ≠ Py.len (product_list ++ Ozon.items page)
       ∧ I (product_list ++ Ozon.items page)) →
  ∀ fuel, Ozon.get_offer_ids fuel c t log = None.
Proof.
  intros Hnil Hworld fuel. unfold Ozon.get_offer_ids.
  apply io_bind_None. by apply (ozon_loop_goes_on I).
Qed.

End OzonPages.

(** * The pages of the Yandex Market catalogue *)

Section YandexPages.
Context `{!Yandex.World} `{!Unicode}.
Implicit Types (log : list Yandex.event) (pages : list Yandex.page).

Lemma yandex_requests_cons c t token answer pages :
  yandex_requests c t token (answer :: pages)
  = Yandex.OfferMappingEntries token c t
    :: yandex_requests c t (Yandex.nextPageToken answer) pages.
Proof. done. Qed.

Lemma yandex_loop_step fuel c t token acc log :
  Yandex.get_offer_ids_loop (S fuel) c t token acc log
  = match Yandex.offer_mapping_entries (log ++ [Yandex.OfferMappingEntries token c t]) with
    | Return answer =>
        if truth (Yandex.nextPageToken answer)
        then Yandex.get_offer_ids_loop fuel c t (Yandex.nextPageToken answer)
               (acc ++ Yandex.offerMappingEntries answer)
               (log ++ [Yandex.OfferMappingEntries token c t])
        else Some (Return (acc ++ Yandex.offerMappingEntries answer),
                   log ++ [Yandex.OfferMappingEntries token c t])
    | Throw e => Some (Throw e, log ++ [Yandex.OfferMappingEntries token c t])
    end.
Proof.
  cbn [Yandex.get_offer_ids_loop]. unfold io_bind, Yandex.get_product_list, call.
  destruct (Yandex.offer_mapping_entries _) as [answer | e]; [| done].
  by destruct (truth _).
Qed.

Lemma yandex_loop_returns fuel c t : ∀ token acc log product_list log',
  Yandex.get_offer_ids_loop fuel c t token acc log = Some (Return product_list, log') →
  ∃ pages,
    yandex_paging c t log token pages
    ∧ product_list = acc ++ concat (Yandex.offerMappingEntries <$> pages)
    ∧ log' = log ++ yandex_requests c t token pages.
Proof.
  induction fuel as [| fuel IH]; intros token acc log pl log'; [done |].
  rewrite yandex_loop_step.
  destruct (Yandex.offer_mapping_entries _) as [answer | e] eqn:Hanswer; [| done].
  destruct (truth _) eqn:Htoken.
  - intros (pages & [Hanswers (final & Hlast & Hfinal)] & -> & ->)%IH.
    exists (answer :: pages). split_and!.
    + split.
      * intros [| k] answer' Hk.
        -- by injection Hk as <-.
        -- destruct (Hanswers k answer' Hk) as [Hanswer' Hmore]. split.
           ++ rewrite yandex_requests_cons. cbn [take].
              rewrite <- app_assoc in Hanswer'. exact Hanswer'.
           ++ intros Hlt. apply Hmore. cbn in Hlt. lia.
      * exists final. split; [| done]. destruct pages; [done | exact Hlast].
    + cbn [fmap list_fmap concat]. by rewrite app_assoc.
    + rewrite yandex_requests_cons. by rewrite <- app_assoc.
  - intros [= <- <-]. exists [answer]. split_and!.
    + split.
      * intros [| k] answer'; [| done]. intros [= <-]. split; [done |]. cbn. lia.
      * by exists answer.
    + cbn. by rewrite app_nil_r.
    + done.
Qed.

Lemma yandex_loop_fetches c t : ∀ pages token acc log fuel,
  yandex_paging c t log token pages → (length pages ≤ fuel)%nat →
  Yandex.get_offer_ids_loop fuel c t token acc log
  = Some (Return (acc ++ concat (Yandex.offerMappingEntries <$> pages)),
          log ++ yandex_requests c t token pages).
Proof.
  induction pages as [| answer pages IH]; intros token acc log fuel [Hanswers Hfinal] Hfuel.
  { by destruct Hfinal as (? & ? & _). }
  destruct fuel as [| fuel]; [cbn in Hfuel; lia |].
  rewrite yandex_loop_step.
  destruct (Hanswers 0%nat answer eq_refl) as [Hanswer Hmore].
  rewrite yandex_requests_cons in Hanswer. cbn [take] in Hanswer. rewrite take_0 in Hanswer.
  rewrite Hanswer.
  destruct pages as [| answer' pages].
  - destruct Hfinal as (final & [= <-] & ->). cbn. by rewrite app_nil_r.
  - rewrite Hmore by (cbn; lia).
    rewrite (IH (Yandex.nextPageToken answer) (acc ++ Yandex.offerMappingEntries answer) _ fuel).
    + rewrite yandex_requests_cons. cbn [fmap list_fmap concat].
      by rewrite <- !app_assoc.
    + split.
      * intros k answer'' Hk. destruct (Hanswers (S k) answer'' Hk) as [Hanswer'' Hmore'].
        split.
        -- rewrite yandex_requests_cons in Hanswer''. cbn [take] in Hanswer''.
           by rewrite <- app_assoc.
        -- intros Hlt. apply Hmore'. cbn in Hlt |- *. lia.
      * destruct Hfinal as (final & Hlast & Htoken). exists final. split; [exact Hlast | done].
    + cbn in Hfuel |- *. lia.
Qed.



Lemma yandex_loop_throws fuel c t : ∀ token acc log e log',
  Yandex.get_offer_ids_loop fuel c t token acc log = Some (Throw e, log') →
  Yandex.offer_mapping_entries log' = Throw e
  ∧ ∃ requests token', log' = log ++ requests ++ [Yandex.OfferMappingEntries token' c t]
      ∧ Forall (is_offer_mapping_entries c t) requests.
Proof.
  induction fuel as [| fuel IH]; intros token acc log e log'; [done |].
  rewrite yandex_loop_step.
  destruct (Yandex.offer_mapping_entries _) as [answer | e'] eqn:Hanswer.
  - destruct (truth _); [| done].
    intros [Hthrow (requests & token' & -> & Hrequests)]%IH. split; [done |].
    exists (Yandex.OfferMappingEntries token c t :: requests), token'. split.
    + by rewrite <- !app_assoc.
    + constructor; [by exists token | done].
  - intros [= <- <-]. split; [done |]. exists [], token. by split.
Qed.

Lemma yandex_loop_goes_on c t :
  (∀ log, ∃ answer, Yandex.offer_mapping_entries log = Return answer
                    ∧ truth (Yandex.nextPageToken answer) = true) →
  ∀ fuel token acc log, Yandex.get_offer_ids_loop fuel c t token acc log = None.
Proof.
  intros Hworld. induction fuel as [| fuel IH]; intros token acc log; [done |].
  rewrite yandex_loop_step.
  destruct (Hworld (log ++ [Yandex.OfferMappingEntries token c t])) as (answer & -> & ->).
  apply IH.
Qed.

(** X14: get_offer_ids of market.py returns, given enough fuel, exactly
    when Yandex answers its requests (the first with an empty page
    token, each other with the token of the page before) with pages of
    which the last, and none before it, has no next-page token (None or
    an empty string); it returns the shopSku of every entry of these
    pages, in order, and has made these requests and nothing else. *)
Theorem market_get_offer_ids_returns_the_entries_of_the_pages c t log offer_ids log' :
  (∃ fuel, Yandex.get_offer_ids fuel c t log = Some (Return offer_ids, log'))
  ↔ ∃ pages,
      yandex_paging c t log (Py.PyStr "") pages
      ∧ offer_ids = Yandex.shopSku <$> concat (Yandex.offerMappingEntries <$> pages)
      ∧ log' = log ++ yandex_requests c t (Py.PyStr "") pages.
Proof.
  split.
  - intros [fuel [(pl & log1 & Hloop & Hret) | (e & _ & ?)]%io_bind_Some]; [| done].
    injection Hret as <- <-.
    apply yandex_loop_returns in Hloop as (pages & Hpaging & -> & ->).
    by exists pages.
  - intros (pages & Hpaging & -> & ->). exists (length pages).
    unfold Yandex.get_offer_ids.
    by rewrite (io_bind_Return _ _ _ _ _
                  (yandex_loop_fetches c t pages _ [] log _ Hpaging (le_n _))).
Qed.

(** X15: get_offer_ids of market.py never returns and never raises, for
    any fuel, when every answer of Yandex carries a next-page token. *)
Theorem market_get_offer_ids_goes_on_while_a_token_comes c t log :
  (∀ log', ∃ answer, Yandex.offer_mapping_entries log' = Return answer
                     ∧ truth (Yandex.nextPageToken answer) = true) →
  ∀ fuel, Yandex.get_offer_ids fuel c t log = None.
Proof.
  intros Hworld fuel. unfold Yandex.get_offer_ids.
  apply io_bind_None. by apply yandex_loop_goes_on.
Qed.

(** X16: when get_offer_ids of market.py raises, it raises what its last
    request raised; before it, it has made requests for the offer
    mapping of the caller's campaign and nothing else. *)
Theorem market_get_offer_ids_raises_what_the_last_request_raised fuel c t log e log' :
  Yandex.get_offer_ids fuel c t log = Some (Throw e, log') →
  Yandex.offer_mapping_entries log' = Throw e
  ∧ ∃ requests page,
      log' = log ++ requests ++ [Yandex.OfferMappingEntries page c t]
      ∧ Forall (is_offer_mapping_entries c t) requests.
Proof.
  intros [(pl & log1 & _ & ?) | (e' & Hloop & [= <-])]%io_bind_Some; [done |].
  by apply yandex_loop_throws in Hloop.
Qed.

End YandexPages.

(** * Sending the records in batches *)

Section Sending.
Context {E : Type}.
Implicit Types (log : list E).

Lemma batch_count_length {A B} (l1 : list A) (l2 : list B) n :
  length l1 = length l2 → batch_count l1 n = batch_count l2 n.
Proof. unfold batch_count, Py.len. by intros ->. Qed.

Lemma divide_batches {A} (lst : list A) n :
  0 < n →
  ∃ batches,
    Seller.divide lst n = Ok batches
    ∧ concat batches = lst
    ∧ Forall (λ b, b ≠ [] ∧ Py.len b ≤ n) batches
    ∧ length batches = batch_count lst n.
Proof.
  intros Hn. eexists. split; [by apply divide_eq |]. split_and!.
  - rewrite concat_batches. apply take_ge. by apply batches_reach_the_end.
  - apply Forall_fmap, Forall_forall. intros k [_ Hk]%elem_of_seq. cbn. split.
    + pose proof (batch_starts_inside lst n k Hn) as Hstart.
      intros Hnil%(f_equal length). unfold batch in Hnil.
      rewrite length_take, length_drop in Hnil. cbn in Hnil. lia.
    + unfold batch, Py.len. rewrite length_take. lia.
  - by rewrite length_fmap, length_seq.
Qed.

Lemma core_result_divide {A} (records : list A) n log r log' :
  0 < n →
  core_result (E := E) (Seller.divide records n) log = Some (r, log') →
  log' = log
  ∧ ∃ batches,
      r = Return batches
      ∧ concat batches = records
      ∧ Forall (λ b, b ≠ [] ∧ Py.len b ≤ n) batches
      ∧ length batches = batch_count records n.
Proof.
  intros Hn. destruct (divide_batches records n Hn) as (batches & Hdivide & Hbatches).
  unfold core_result. rewrite Hdivide. intros [= <- <-]. split; [done |]. by exists batches.
Qed.

Lemma send_checked {A} (request : list A → E) (answer : list E → outcome unit)
    (batches : list (list A)) n log r log' :
  Forall (λ b, b ≠ [] ∧ Py.len b ≤ n) batches →
  io_for_each batches (λ b, call (request b) answer) log = Some (r, log') →
  ∃ sent,
    log' = log ++ (request <$> sent)
    ∧ Forall (λ b, b ≠ [] ∧ Py.len b ≤ n) sent
    ∧ match r with
      | Return _ => sent = batches
      | Throw e =>
          answer log' = Throw e ∧ sent ≠ [] ∧ concat sent `prefix_of` concat batches
      end.
Proof.
  intros Hall (sent & -> & Hr)%send_batches. exists sent. split; [done |].
  destruct r as [[] | e].
  - by subst.
  - destruct Hr as ([later ->] & Hsent & Hanswer).
    apply Forall_app in Hall as [Hall _]. split; [done |]. split_and!; [done | done |].
    rewrite concat_app. by eexists.
Qed.

End Sending.

Section MoreOnLengths.
Context `{!Unicode}.

Lemma seller_stocks_length (watch_remnants : list dict) σ stocks rest :
  Seller.create_stocks watch_remnants σ = (Ok stocks, rest) → length stocks = length σ.
Proof.
  intros (new & -> & Hperm & _)%create_stocks_ok.
  rewrite (Permutation_length Hperm), !length_app, !length_fmap. done.
Qed.

Lemma market_stocks_length utcnow (watch_remnants : list dict) warehouse_id σ stocks rest :
  Market.create_stocks utcnow watch_remnants warehouse_id σ = (Ok stocks, rest) →
  length stocks = length σ.
Proof.
  intros (stocks0 & Hseller & ->)%market_create_stocks_ok.
  rewrite length_fmap. by eapply seller_stocks_length.
Qed.

(** The filter of [upload_stocks] of [market.py] indexes the first item
    of each record; the records of [create_stocks] have one. *)
Lemma market_filter_never_fails warehouse_id date (stocks0 : list Seller.Stock.t) :
  Yandex.py_filter Yandex.count_not_zero (to_market warehouse_id date <$> stocks0)
  = Ok (to_market warehouse_id date
          <$> filter (λ stock, Seller.Stock.stock stock ≠ 0) stocks0).
Proof.
  induction stocks0 as [| s stocks0 IH]; [done |].
  cbn [fmap list_fmap Yandex.py_filter]. fold (fmap (M := list) (to_market warehouse_id date)).
  rewrite IH. rewrite filter_cons. unfold Yandex.count_not_zero. cbn.
  destruct (Z.eqb_spec (Seller.Stock.stock s) 0) as [Hzero | Hzero]; cbn.
  - by rewrite decide_False by (by intros ?).
  - by rewrite decide_True by done.
Qed.

Lemma market_not_empty warehouse_id date (stocks0 : list Seller.Stock.t) :
  to_market warehouse_id date <$> filter (λ stock, Seller.Stock.stock stock ≠ 0) stocks0
  = filter (λ stock, Market.Item.count <$> Market.Stock.items stock ≠ [0])
      (to_market warehouse_id date <$> stocks0).
Proof.
  induction stocks0 as [| s stocks0 IH]; [done |].
  rewrite fmap_cons, !filter_cons, <- IH.
  destruct (decide (Seller.Stock.stock s ≠ 0)) as [Hs | Hs].
  - rewrite decide_True; [done |]. cbn. by intros [= ?].
  - rewrite decide_False; [done |]. cbn. intros Hne. apply Hs. intros Hzero. apply Hne.
    by rewrite Hzero.
Qed.

End MoreOnLengths.

(** * The uploads to Ozon *)

Section OzonUploads.
Context `{!Ozon.World} `{!Unicode}.
Implicit Types (log : list Ozon.event).

(** X17: upload_stocks of seller.py, once the identifiers are fetched,
    ends: it sends the stock records in order in requests of 1 to 100
    records and nothing else.  When it returns, the requests carry all the
    records of create_stocks, one per fetched identifier, in as many
    requests as the identifiers need, and the first list returned holds
    the records with a quantity other than 0.  When it raises, either
    create_stocks raised and no request was sent, or the last request
    sent raised and the records after it were not sent. *)
Theorem upload_stocks_sends_the_records_in_batches
    fuel (watch_remnants : list dict) c t log offer_ids log1 :
  Ozon.get_offer_ids fuel c t log = Some (Return offer_ids, log1) →
  ∃ r log',
  Ozon.upload_stocks fuel watch_remnants c t log = Some (r, log')
  ∧ ∃ sent,
    log' = log1 ++ ((λ b, Ozon.ImportStocks b c t) <$> sent)
    ∧ Forall (λ b, b ≠ [] ∧ Py.len b ≤ 100) sent
    ∧ match r with
      | Return (not_empty, stocks) =>
          (∃ rest, Seller.create_stocks watch_remnants offer_ids = (Ok stocks, rest))
          ∧ concat sent = stocks
          ∧ length stocks = length offer_ids
          ∧ length sent = batch_count offer_ids 100
          ∧ not_empty = filter (λ stock, Seller.Stock.stock stock ≠ 0) stocks
      | Throw e =>
          match Seller.create_stocks watch_remnants offer_ids with
          | (Raise e', _) => e = Core e' ∧ sent = []
          | (Ok stocks, _) =>
              Ozon.imported log' = Throw e ∧ sent ≠ [] ∧ concat sent `prefix_of` stocks
          end
      end.
Proof.
  intros Hids.
  destruct (Ozon.upload_stocks fuel watch_remnants c t log) as [[r log'] |] eqn:Hrun.
  2: { exfalso. revert Hrun. apply io_bind_ends_at; [by rewrite Hids |].
       intros ids. ends_steps. }
  exists r, log'. split; [done |]. unfold Ozon.upload_stocks in Hrun.
  rewrite (io_bind_Return _ _ _ _ _ Hids) in Hrun.
  unfold io_bind at 1, core in Hrun.
  destruct (Seller.create_stocks watch_remnants offer_ids) as [[stocks | e'] rest] eqn:Hstocks.
  2: { injection Hrun as <- <-. exists []. by rewrite app_nil_r. }
  cbn [fst] in Hrun.
  apply io_bind_Some in Hrun as [(batches & log2 & Hdivide & Hrun) | (e & Hdivide & _)].
  2: { by apply core_result_divide in Hdivide as [_ (? & ? & _)]. }
  apply core_result_divide in Hdivide as [-> (? & [= <-] & Hconcat & Hall & Hcount)]; [| done].
  apply io_bind_Some in Hrun as [([] & log3 & Hsend & Hrun) | (e & Hsend & ->)].
  - injection Hrun as <- <-.
    apply (send_checked (λ b, Ozon.ImportStocks b c t) Ozon.imported batches 100) in Hsend
      as (sent & -> & Hsent & ->); [| done].
    exists batches. split_and!; [done | done | by eauto | done | | | done].
    + by eapply seller_stocks_length.
    + rewrite Hcount. apply batch_count_length. by eapply seller_stocks_length.
  - apply (send_checked (λ b, Ozon.ImportStocks b c t) Ozon.imported batches 100) in Hsend
      as (sent & -> & Hsent & Hthrow); [| done].
    exists sent. rewrite Hconcat in Hthrow. done.
Qed.

(** X18: upload_prices of seller.py, once the identifiers are fetched,
    ends: it sends the price records in order in requests of 1 to 1000
    records and nothing else: all the records of create_prices when it returns
    them, none when create_prices raised, and those up to the request
    that raised otherwise.  It sends no request at all when no row
    carries a fetched identifier. *)
Theorem upload_prices_sends_the_records_in_batches
    fuel (watch_remnants : list dict) c t log offer_ids log1 :
  Ozon.get_offer_ids fuel c t log = Some (Return offer_ids, log1) →
  ∃ r log',
  Ozon.upload_prices fuel watch_remnants c t log = Some (r, log')
  ∧ ∃ sent,
    log' = log1 ++ ((λ b, Ozon.ImportPrices b c t) <$> sent)
    ∧ Forall (λ b, b ≠ [] ∧ Py.len b ≤ 1000) sent
    ∧ ((∀ watch, watch ∈ watch_remnants → code watch ∉ offer_ids) →
       sent = [] ∧ r = Return [])
    ∧ match r with
      | Return prices =>
          Seller.create_prices watch_remnants offer_ids = (Ok prices, offer_ids)
          ∧ concat sent = prices
          ∧ length sent = batch_count prices 1000
      | Throw e =>
          match Seller.create_prices watch_remnants offer_ids with
          | (Raise e', _) => e = Core e' ∧ sent = []
          | (Ok prices, _) =>
              Ozon.imported log' = Throw e ∧ sent ≠ [] ∧ concat sent `prefix_of` prices
          end
      end.
Proof.
  intros Hids.
  destruct (Ozon.upload_prices fuel watch_remnants c t log) as [[r log'] |] eqn:Hrun.
  2: { exfalso. revert Hrun. apply io_bind_ends_at; [by rewrite Hids |].
       intros ids. ends_steps. }
  exists r, log'. split; [done |]. unfold Ozon.upload_prices in Hrun.
  rewrite (io_bind_Return _ _ _ _ _ Hids) in Hrun.
  unfold io_bind at 1, core in Hrun.
  assert (Hnone : (∀ watch, watch ∈ watch_remnants → code watch ∉ offer_ids) →
                  Seller.create_prices watch_remnants offer_ids = (Ok [], offer_ids)).
  { intros Hrows. by apply seller_prices_loop_unmatched. }
  destruct (Seller.create_prices watch_remnants offer_ids) as [[prices | e'] rest] eqn:Hprices.
  2: { injection Hrun as <- <-. exists []. rewrite app_nil_r.
       split; [done |]. split; [done |]. split; [| done]. by intros ?%Hnone. }
  assert (rest = offer_ids) as ->.
  { unfold Seller.create_prices in Hprices. by apply seller_prices_loop in Hprices as [-> _]. }
  cbn [fst] in Hrun.
  apply io_bind_Some in Hrun as [(batches & log2 & Hdivide & Hrun) | (e & Hdivide & _)].
  2: { by apply core_result_divide in Hdivide as [_ (? & ? & _)]. }
  apply core_result_divide in Hdivide as [-> (? & [= <-] & Hconcat & Hall & Hcount)]; [| done].
  apply io_bind_Some in Hrun as [([] & log3 & Hsend & Hrun) | (e & Hsend & ->)].
  - injection Hrun as <- <-.
    apply (send_checked (λ b, Ozon.ImportPrices b c t) Ozon.imported batches 1000) in Hsend
      as (sent & -> & Hsent & ->); [| done].
    exists batches. split; [done |]. split; [done |]. split; [| done].
    intros [= ->]%Hnone. destruct batches as [| b batches]; [done |].
    apply Forall_cons in Hall as [[Hb _] _]. by destruct b.
  - apply (send_checked (λ b, Ozon.ImportPrices b c t) Ozon.imported batches 1000) in Hsend
      as (sent & -> & Hsent & Hthrow); [| done].
    exists sent. rewrite Hconcat in Hthrow. split; [done |]. split; [done |]. split; [| done].
    intros [= ->]%Hnone. destruct Hthrow as (_ & Hne & Hprefix).
    apply prefix_nil_inv in Hprefix.
    destruct sent as [| b sent]; [done |].
    apply Forall_cons in Hsent as [[Hb _] _]. by destruct b.
Qed.

End OzonUploads.

(** * [main] of [seller.py] *)

Section OzonMain.
Context `{!Ozon.World} `{!Unicode}.
Implicit Types (log : list Ozon.event).

Lemma ozon_report_line e log :
  Ozon.report e log = Some (Return tt, log ++ [ozon_line e]).
Proof. by destruct e. Qed.

Lemma ozon_report_prints e log :
  ∃ e' text, Ozon.report e log = Some (Return tt, log ++ [Ozon.Print e' text]).
Proof. rewrite ozon_report_line. destruct e; by eauto. Qed.

Lemma ozon_try_except_report (body : io Ozon.event unit) log r log' :
  try_except body Ozon.report log = Some (r, log') →
  r = Return tt
  ∧ ∃ r0 log0 report,
      body log = Some (r0, log0)
      ∧ log' = log0 ++ report
      ∧ match r0 with
        | Return _ => report = []
        | Throw _ => ∃ e text, report = [Ozon.Print e text]
        end.
Proof.
  unfold try_except. destruct (body log) as [[[[] | e] log0] |] eqn:Hbody; [| | done].
  - intros [= <- <-]. split; [done |]. exists (Return tt), log0, [].
    by rewrite app_nil_r.
  - destruct (ozon_report_prints e log0) as (e' & text & ->). intros [= <- <-].
    split; [done |]. exists (Throw e), log0, [Ozon.Print e' text]. by eauto.
Qed.

Lemma ozon_report_ends e : ends (Ozon.report e).
Proof. destruct e; apply ends_call. Qed.

(** The [try] block ends when the fetch of the identifiers ends. *)
Lemma ozon_main_try_ends fuel t c log :
  Ozon.get_offer_ids fuel c t log ≠ None → Ozon.main_try fuel t c log ≠ None.
Proof.
  intros Hfetch. unfold Ozon.main_try.
  apply io_bind_ends_at; [done |]. intros ids. ends_steps.
Qed.

(** [main] ends, and returns, when the fetch of the identifiers ends. *)
Lemma ozon_main_ends fuel t c log :
  Ozon.get_offer_ids fuel c t log ≠ None →
  ∃ log', Ozon.main fuel t c log = Some (Return tt, log').
Proof.
  intros Hfetch. destruct (Ozon.main fuel t c log) as [[r log'] |] eqn:Hrun.
  - exists log'. by apply ozon_try_except_report in Hrun as [-> _].
  - exfalso. revert Hrun. unfold Ozon.main.
    apply try_except_ends_at; [by apply ozon_main_try_ends | apply ozon_report_ends].
Qed.

(** X19: main of seller.py returns and sends no price to Ozon when the
    fetched identifiers are free of duplicates: create_stocks has removed from
    the list every identifier that a row carries, and create_prices,
    which is given that same list, matches no row.  All that main does
    after the fetch is the download, requests that carry stock records,
    and the printing of at most one line, at the end. *)
Theorem main_sends_no_price_for_distinct_identifiers
    fuel t c log offer_ids log1 :
  Ozon.get_offer_ids fuel c t log = Some (Return offer_ids, log1) →
  NoDup offer_ids →
  ∃ log',
  Ozon.main fuel t c log = Some (Return tt, log')
  ∧ ∃ sent report,
      log' = log1 ++ Ozon.DownloadStock :: ((λ b, Ozon.ImportStocks b c t) <$> sent) ++ report
      ∧ (report = [] ∨ ∃ e text, report = [Ozon.Print e text]).
Proof.
  intros Hids Hnodup.
  destruct (ozon_main_ends fuel t c log) as (log' & Hrun); [by rewrite Hids |].
  exists log'. split; [done |].
  apply ozon_try_except_report in Hrun as [_ (r0 & log0 & report & Hbody & -> & Hreport)].
  assert (Hrequests : ∃ sent,
            log0 = log1 ++ Ozon.DownloadStock :: ((λ b, Ozon.ImportStocks b c t) <$> sent)).
  { unfold Ozon.main_try in Hbody.
    rewrite (io_bind_Return _ _ _ _ _ Hids) in Hbody.
    apply io_bind_Some in Hbody as [(rows & log2 & Hrows & Hbody) | (e & Hrows & _)].
    2: { injection Hrows as _ <-. by exists []. }
    injection Hrows as _ <-.
    unfold io_bind at 1, core in Hbody.
    destruct (Seller.create_stocks rows offer_ids) as [[stocks | e'] rest] eqn:Hstocks.
    2: { injection Hbody as _ <-. by exists []. }
    cbn [fst snd] in Hbody.
    apply io_bind_Some in Hbody as [(batches & log3 & Hdivide & Hbody) | (e & Hdivide & _)].
    2: { by apply core_result_divide in Hdivide as [_ (? & ? & _)]. }
    apply core_result_divide in Hdivide as [-> (? & [= <-] & _ & Hall & _)]; [| done].
    apply io_bind_Some in Hbody as [([] & log4 & Hsend & Hbody) | (e & Hsend & _)].
    2: { apply send_batches in Hsend as (sent & -> & _). exists sent.
         by rewrite <- app_assoc. }
    apply send_batches in Hsend as (sent & -> & ->). exists batches.
    assert (Hprices : Seller.create_prices rows rest = (Ok [], rest)).
    { apply seller_prices_loop_unmatched. by eapply create_stocks_consumes_matches. }
    unfold io_bind at 1, core in Hbody. rewrite Hprices in Hbody. cbn [fst] in Hbody.
    injection Hbody as _ <-. by rewrite <- app_assoc. }
  destruct Hrequests as [sent ->]. exists sent, report. split.
  - by rewrite <- app_assoc.
  - destruct r0; [by left | by right].
Qed.

Lemma ozon_refusal_product_list last_id c t log :
  ozon_refusal (log ++ [Ozon.ProductList last_id c t])
  = thrown (Ozon.product_list (log ++ [Ozon.ProductList last_id c t])).
Proof. unfold ozon_refusal. by rewrite last_snoc. Qed.

Lemma ozon_refusal_import_stocks stocks c t log :
  ozon_refusal (log ++ [Ozon.ImportStocks stocks c t])
  = thrown (Ozon.imported (log ++ [Ozon.ImportStocks stocks c t])).
Proof. unfold ozon_refusal. by rewrite last_snoc. Qed.

Lemma ozon_refusal_import_prices prices c t log :
  ozon_refusal (log ++ [Ozon.ImportPrices prices c t])
  = thrown (Ozon.imported (log ++ [Ozon.ImportPrices prices c t])).
Proof. unfold ozon_refusal. by rewrite last_snoc. Qed.

Lemma ozon_refusal_download log :
  ozon_refusal (log ++ [Ozon.DownloadStock])
  = thrown (Ozon.downloaded (log ++ [Ozon.DownloadStock])).
Proof. unfold ozon_refusal. by rewrite last_snoc. Qed.

Lemma ozon_loop_orderly fuel c t : ∀ last_id acc,
  orderly ozon_refusal (Ozon.get_offer_ids_loop fuel c t last_id acc).
Proof.
  induction fuel as [| fuel IH]; intros last_id acc; [done |].
  cbn [Ozon.get_offer_ids_loop]. apply orderly_bind.
  - apply orderly_call. intros log. apply ozon_refusal_product_list.
  - intros page. case_decide; [apply orderly_ret | apply IH].
Qed.

(** The [try] block stops at the first request that raises. *)
Lemma ozon_main_try_orderly fuel t c : orderly ozon_refusal (Ozon.main_try fuel t c).
Proof.
  apply orderly_bind.
  { apply orderly_bind; [apply ozon_loop_orderly | intros; apply orderly_ret]. }
  intros offer_ids. apply orderly_bind.
  { apply orderly_call. intros log. apply ozon_refusal_download. }
  intros rows. apply orderly_bind; [apply orderly_core |].
  intros created. apply orderly_bind; [apply orderly_core_result |].
  intros batches. apply orderly_bind.
  { apply orderly_for_each. intros b. apply orderly_call.
    intros log. apply ozon_refusal_import_stocks. }
  intros _. apply orderly_bind; [apply orderly_core |].
  intros created'. apply orderly_bind; [apply orderly_core_result |].
  intros batches'. apply orderly_for_each. intros b. apply orderly_call.
  intros log. apply ozon_refusal_import_prices.
Qed.

(** The [try] block prints nothing. *)
Lemma ozon_main_try_requests fuel t c :
  appends (λ ev, ¬ is_ozon_print ev) (Ozon.main_try fuel t c).
Proof.
  assert (Hrequest : ∀ ev, (is_product_list c t ev ∨ ev = Ozon.DownloadStock
                            ∨ (∃ b, ev = Ozon.ImportStocks b c t)
                            ∨ (∃ b, ev = Ozon.ImportPrices b c t)) →
                           ¬ is_ozon_print ev).
  { intros ev [[? ->] | [-> | [[? ->] | [? ->]]]] (? & ? & ?); done. }
  apply (appends_weaken _ _ _ Hrequest).
  apply appends_bind.
  { eapply appends_weaken; [| apply ozon_get_offer_ids_appends]. by left. }
  intros offer_ids. apply appends_bind; [apply appends_call; by right; left |].
  intros rows. apply appends_bind; [apply appends_core |].
  intros created. apply appends_bind; [apply appends_core_result |].
  intros batches. apply appends_bind.
  { apply appends_for_each. intros b. apply appends_call. right; right; left. by exists b. }
  intros _. apply appends_bind; [apply appends_core |].
  intros created'. apply appends_bind; [apply appends_core_result |].
  intros batches'. apply appends_for_each. intros b. apply appends_call.
  right; right; right. by exists b.
Qed.

(** X20: main of seller.py, once its two settings are read, returns
    when the fetch of the identifiers ends: no exception of a request,
    of the download or of the core reaches its caller.  Its try block
    prints nothing and stops at the first failure: every request before
    was answered, and the request that raised is the last one made,
    unless the exception is the core's.  When the try block has raised,
    main prints one line, the one that its except clauses give for the
    exception, as the last thing it does; when it has not, main prints
    nothing. *)
Theorem main_ends_at_the_first_failure fuel t c log :
  Ozon.get_offer_ids fuel c t log ≠ None →
  ∃ r requests,
    Ozon.main_try fuel t c log = Some (r, log ++ requests)
    ∧ Forall (λ ev, ¬ is_ozon_print ev) requests
    ∧ stopped ozon_refusal log requests (thrown r)
    ∧ Ozon.main fuel t c log
      = Some (Return tt,
              log ++ requests ++ match thrown r with
                                 | None => []
                                 | Some e => [ozon_line e]
                                 end).
Proof.
  intros Hfetch%(ozon_main_try_ends fuel t c).
  destruct (Ozon.main_try fuel t c log) as [[r log0] |] eqn:Hbody; [| done].
  destruct (ozon_main_try_requests _ _ _ _ _ _ Hbody) as (requests & -> & Hrequests).
  destruct (ozon_main_try_orderly _ _ _ _ _ _ Hbody) as (requests' & Hsame & Hstopped).
  apply app_inv_head in Hsame as <-.
  exists r, requests. split; [done |]. split; [done |]. split; [done |].
  unfold Ozon.main, try_except. rewrite Hbody. destruct r as [[] | e]; cbn.
  - by rewrite app_nil_r.
  - by rewrite ozon_report_line, <- app_assoc.
Qed.

End OzonMain.

(** * The uploads to Yandex Market *)

Section YandexUploads.
Context `{!Yandex.World} `{!Unicode}.
Implicit Types (log : list Yandex.event).

Lemma yandex_create_stocks_eq (watch_remnants : list dict) offer_ids warehouse_id log :
  Yandex.create_stocks watch_remnants offer_ids warehouse_id log
  = Some (match Market.create_stocks (Yandex.utcnow log) watch_remnants warehouse_id offer_ids with
          | (Ok stocks, rest) => Return (stocks, rest)
          | (Raise e, _) => Throw (Core e)
          end, log).
Proof. done. Qed.

Lemma yandex_create_stocks_ends (watch_remnants : list dict) offer_ids warehouse_id :
  ends (Yandex.create_stocks watch_remnants offer_ids warehouse_id).
Proof. done. Qed.

(** X21: upload_stocks of market.py, once the identifiers are fetched,
    ends: it reads the clock and sends the stock records in order in
    requests of 1 to 2000 records and nothing else.  When it returns, the requests
    carry all the records of create_stocks, one per fetched identifier,
    in as many requests as the identifiers need, and the first list
    returned holds the records whose one item has a count other than 0.
    When it raises, either create_stocks raised and no request was
    sent, or the last request sent raised and the records after it were
    not sent: the filter, which indexes the first item of each record,
    never raises. *)
Theorem market_upload_stocks_sends_the_records_in_batches
    fuel (watch_remnants : list dict) c t warehouse_id log offer_ids log1 :
  Yandex.get_offer_ids fuel c t log = Some (Return offer_ids, log1) →
  ∃ r log',
  Yandex.upload_stocks fuel watch_remnants c t warehouse_id log = Some (r, log')
  ∧ ∃ sent,
    log' = log1 ++ ((λ b, Yandex.PutStocks b c t) <$> sent)
    ∧ Forall (λ b, b ≠ [] ∧ Py.len b ≤ 2000) sent
    ∧ match r with
      | Return (not_empty, stocks) =>
          (∃ rest, Market.create_stocks (Yandex.utcnow log1) watch_remnants warehouse_id
                     offer_ids = (Ok stocks, rest))
          ∧ concat sent = stocks
          ∧ length stocks = length offer_ids
          ∧ length sent = batch_count offer_ids 2000
          ∧ not_empty
            = filter (λ stock, Market.Item.count <$> Market.Stock.items stock ≠ [0]) stocks
      | Throw e =>
          match Market.create_stocks (Yandex.utcnow log1) watch_remnants warehouse_id
                  offer_ids with
          | (Raise e', _) => e = Core e' ∧ sent = []
          | (Ok stocks, _) =>
              Yandex.updated log' = Throw e ∧ sent ≠ [] ∧ concat sent `prefix_of` stocks
          end
      end.
Proof.
  intros Hids.
  destruct (Yandex.upload_stocks fuel watch_remnants c t warehouse_id log)
    as [[r log'] |] eqn:Hrun.
  2: { exfalso. revert Hrun. apply io_bind_ends_at; [by rewrite Hids |].
       intros ids. apply ends_bind; [apply yandex_create_stocks_ends |].
       intros created. ends_steps. }
  exists r, log'. split; [done |]. unfold Yandex.upload_stocks in Hrun.
  rewrite (io_bind_Return _ _ _ _ _ Hids) in Hrun.
  unfold io_bind at 1 in Hrun. rewrite yandex_create_stocks_eq in Hrun.
  destruct (Market.create_stocks _ watch_remnants warehouse_id offer_ids)
    as [[stocks | e'] rest] eqn:Hstocks.
  2: { injection Hrun as <- <-. exists []. by rewrite app_nil_r. }
  cbn [fst] in Hrun.
  apply io_bind_Some in Hrun as [(batches & log2 & Hdivide & Hrun) | (e & Hdivide & _)].
  2: { by apply core_result_divide in Hdivide as [_ (? & ? & _)]. }
  apply core_result_divide in Hdivide as [-> (? & [= <-] & Hconcat & Hall & Hcount)]; [| done].
  apply io_bind_Some in Hrun as [([] & log3 & Hsend & Hrun) | (e & Hsend & ->)].
  - apply (send_checked (λ b, Yandex.PutStocks b c t) Yandex.updated batches 2000) in Hsend
      as (sent & -> & Hsent & ->); [| done].
    pose proof Hstocks as (stocks0 & _ & Hmarket)%market_create_stocks_ok.
    pose proof (market_stocks_length _ _ _ _ _ _ Hstocks) as Hlength.
    unfold io_bind at 1, core_result in Hrun.
    rewrite Hmarket, market_filter_never_fails in Hrun. injection Hrun as <- <-.
    rewrite <- Hmarket.
    exists batches. split; [done |]. split; [done |]. split; [by eauto |].
    split; [done |]. split; [done |]. split.
    + rewrite Hcount. by apply batch_count_length.
    + rewrite Hmarket. apply market_not_empty.
  - apply (send_checked (λ b, Yandex.PutStocks b c t) Yandex.updated batches 2000) in Hsend
      as (sent & -> & Hsent & Hthrow); [| done].
    exists sent. rewrite Hconcat in Hthrow. done.
Qed.

(** X22: upload_prices of market.py, once the identifiers are fetched,
    ends: it sends the price records in order in requests of 1 to 500
    records and nothing else: all the records of create_prices when it returns
    them, none when create_prices raised, and those up to the request
    that raised otherwise.  It sends no request at all when no row
    carries a fetched identifier. *)
Theorem market_upload_prices_sends_the_records_in_batches
    fuel (watch_remnants : list dict) c t log offer_ids log1 :
  Yandex.get_offer_ids fuel c t log = Some (Return offer_ids, log1) →
  ∃ r log',
  Yandex.upload_prices fuel watch_remnants c t log = Some (r, log')
  ∧ ∃ sent,
    log' = log1 ++ ((λ b, Yandex.PostPrices b c t) <$> sent)
    ∧ Forall (λ b, b ≠ [] ∧ Py.len b ≤ 500) sent
    ∧ ((∀ watch, watch ∈ watch_remnants → code watch ∉ offer_ids) →
       sent = [] ∧ r = Return [])
    ∧ match r with
      | Return prices =>
          Market.create_prices watch_remnants offer_ids = (Ok prices, offer_ids)
          ∧ concat sent = prices
          ∧ length sent = batch_count prices 500
      | Throw e =>
          match Market.create_prices watch_remnants offer_ids with
          | (Raise e', _) => e = Core e' ∧ sent = []
          | (Ok prices, _) =>
              Yandex.updated log' = Throw e ∧ sent ≠ [] ∧ concat sent `prefix_of` prices
          end
      end.
Proof.
  intros Hids.
  destruct (Yandex.upload_prices fuel watch_remnants c t log) as [[r log'] |] eqn:Hrun.
  2: { exfalso. revert Hrun. apply io_bind_ends_at; [by rewrite Hids |].
       intros ids. ends_steps. }
  exists r, log'. split; [done |]. unfold Yandex.upload_prices in Hrun.
  rewrite (io_bind_Return _ _ _ _ _ Hids) in Hrun.
  unfold io_bind at 1, core in Hrun.
  assert (Hnone : (∀ watch, watch ∈ watch_remnants → code watch ∉ offer_ids) →
                  Market.create_prices watch_remnants offer_ids = (Ok [], offer_ids)).
  { intros Hrows. by apply market_prices_loop_unmatched. }
  destruct (Market.create_prices watch_remnants offer_ids) as [[prices | e'] rest] eqn:Hprices.
  2: { injection Hrun as <- <-. exists []. rewrite app_nil_r.
       split; [done |]. split; [done |]. split; [| done]. by intros ?%Hnone. }
  assert (rest = offer_ids) as ->.
  { unfold Market.create_prices in Hprices. by apply market_prices_loop in Hprices as [-> _]. }
  cbn [fst] in Hrun.
  apply io_bind_Some in Hrun as [(batches & log2 & Hdivide & Hrun) | (e & Hdivide & _)].
  2: { by apply core_result_divide in Hdivide as [_ (? & ? & _)]. }
  apply core_result_divide in Hdivide as [-> (? & [= <-] & Hconcat & Hall & Hcount)]; [| done].
  apply io_bind_Some in Hrun as [([] & log3 & Hsend & Hrun) | (e & Hsend & ->)].
  - injection Hrun as <- <-.
    apply (send_checked (λ b, Yandex.PostPrices b c t) Yandex.updated batches 500) in Hsend
      as (sent & -> & Hsent & ->); [| done].
    exists batches. split; [done |]. split; [done |]. split; [| done].
    intros [= ->]%Hnone. destruct batches as [| b batches]; [done |].
    apply Forall_cons in Hall as [[Hb _] _]. by destruct b.
  - apply (send_checked (λ b, Yandex.PostPrices b c t) Yandex.updated batches 500) in Hsend
      as (sent & -> & Hsent & Hthrow); [| done].
    exists sent. rewrite Hconcat in Hthrow. split; [done |]. split; [done |]. split; [| done].
    intros [= ->]%Hnone. destruct Hthrow as (_ & Hne & Hprefix).
    apply prefix_nil_inv in Hprefix.
    destruct sent as [| b sent]; [done |].
    apply Forall_cons in Hsent as [[Hb _] _]. by destruct b.
Qed.

End YandexUploads.

(** * [main] of [market.py] *)

Section YandexMain.
Context `{!Yandex.World} `{!Unicode}.
Implicit Types (log : list Yandex.event).
















End YandexMain.

(** * The theorems at sample inputs *)

(** The samples are evaluated by the interpreter [ascii_tables]; the
    statements that fail are shown to fail for every interpreter. *)
#[local] Existing Instance ascii_tables.

Lemma create_stocks_covers_known_identifiers_witness :
  NoDup sample_offer_ids
  ∧ Seller.create_stocks sample_rows sample_offer_ids
    = (Ok [Seller.Stock.mk "100" 5; Seller.Stock.mk "400" 0; Seller.Stock.mk "200" 0],
       ["200"])
  ∧ (Seller.Stock.offer_id
       <$> [Seller.Stock.mk "100" 5; Seller.Stock.mk "400" 0; Seller.Stock.mk "200" 0]
     ≡ₚ sample_offer_ids
     ∧ NoDup (Seller.Stock.offer_id
                <$> [Seller.Stock.mk "100" 5; Seller.Stock.mk "400" 0;
                     Seller.Stock.mk "200" 0])
     ∧ (∀ i, i ∈ sample_offer_ids →
          ∃ r, r ∈ [Seller.Stock.mk "100" 5; Seller.Stock.mk "400" 0; Seller.Stock.mk "200" 0]
               ∧ Seller.Stock.offer_id r = i
               ∧ ∀ r', r' ∈ [Seller.Stock.mk "100" 5; Seller.Stock.mk "400" 0;
                             Seller.Stock.mk "200" 0] →
                       Seller.Stock.offer_id r' = i → r' = r)
     ∧ (∀ i, i ∈ sample_offer_ids →
          (∀ watch, watch ∈ sample_rows → code watch ≠ i) →
          Seller.Stock.mk i 0
          ∈ [Seller.Stock.mk "100" 5; Seller.Stock.mk "400" 0; Seller.Stock.mk "200" 0])
     ∧ (∀ watch, watch ∈ sample_rows → code watch ∉ sample_offer_ids →
          ∀ r, r ∈ [Seller.Stock.mk "100" 5; Seller.Stock.mk "400" 0;
                    Seller.Stock.mk "200" 0] →
               Seller.Stock.offer_id r ≠ code watch)).
Proof.
  assert (Hnodup : NoDup sample_offer_ids).
  { apply (bool_decide_unpack _). vm_compute. exact I. }
  assert (Hrun : Seller.create_stocks sample_rows sample_offer_ids
                 = (Ok [Seller.Stock.mk "100" 5; Seller.Stock.mk "400" 0;
                        Seller.Stock.mk "200" 0], ["200"])).
  { vm_compute. reflexivity. }
  split; [exact Hnodup | split; [exact Hrun |]].
  exact (create_stocks_covers_known_identifiers
           sample_rows sample_offer_ids _ _ Hnodup Hrun).
Defined.

Lemma matched_row_quantity_follows_policy_witness :
  code (row (Py.PyInt 300) (Py.PyStr ">10") (Py.PyStr "5'990.00 руб.")) ∈ ["200"; "300"]
  ∧ ∀ stocks,
      Seller.create_stocks_row
        (row (Py.PyInt 300) (Py.PyStr ">10") (Py.PyStr "5'990.00 руб.")) stocks ["200"; "300"]
      = (Ok (stocks ++ [Seller.Stock.mk "300" 100]), ["200"]).
Proof.
  assert (Hin : code (row (Py.PyInt 300) (Py.PyStr ">10") (Py.PyStr "5'990.00 руб."))
                ∈ ["200"; "300"]).
  { apply (bool_decide_unpack _). vm_compute. exact I. }
  split; [exact Hin |]. intros stocks.
  exact (proj1 (matched_row_quantity_follows_policy _ _ Hin) stocks).
Defined.

(** C3, as stated, fails: the price without a digit gives the empty
    text, which is no integer and which [int] refuses. *)
Lemma price_conversion_not_always_an_integer :
  Seller.price_conversion (Py.PyStr "цена неизвестна") = Ok ""
  ∧ (∀ U : Unicode, Py.int (Py.PyStr "") = Raise (ValueError b_int))
  ∧ ¬ (∀ (U : Unicode) (price : string),
         ∃ n, result_bind (Seller.price_conversion (Py.PyStr price))
                (λ digits, Py.int (Py.PyStr digits)) = Ok n).
Proof.
  split_and!; [by vm_compute | by vm_compute |].
  intros Hall. destruct (Hall ascii_tables "цена неизвестна") as [n Hn].
  vm_compute in Hn. discriminate.
Qed.

Lemma divide_partitions_into_batches_witness :
  0 < 2
  ∧ ∃ batches,
      Seller.divide [10; 20; 30; 40; 50] 2 = Ok batches
      ∧ concat batches = [10; 20; 30; 40; 50]
      ∧ Forall (λ b, Py.len b ≤ 2) batches
      ∧ ∀ (k : nat) b, batches !! k = Some b →
          b = batch [10; 20; 30; 40; 50] (Z.to_nat 2) k ∧ b ≠ [].
Proof.
  assert (Hn : 0 < 2) by lia.
  split; [exact Hn |].
  exact (proj1 divide_partitions_into_batches Z [10; 20; 30; 40; 50] 2 Hn).
Defined.

Lemma divide_fails_for_size_zero_only_witness :
  0 ≤ 0
  ∧ Seller.divide [1; 2; 3] 0 = Raise (ValueError b_range)
  ∧ classify (ValueError b_range) = InvalidArgument.
Proof.
  assert (Hn : 0 ≤ 0) by lia.
  split; [exact Hn |].
  exact (divide_fails_for_size_zero_only Z [1; 2; 3] 0 Hn).
Defined.

(** C5, as stated, fails: a negative size gives the empty result. *)
Lemma divide_negative_size_returns :
  Seller.divide [1; 2; 3] (-1) = Ok []
  ∧ ¬ (∀ (lst : list Z) (n : Z), n ≤ 0 → ∃ e, Seller.divide lst n = Raise e).
Proof.
  split; [by vm_compute |]. intros Hall.
  destruct (Hall [1; 2; 3] (-1)) as [e He]; [lia |]. vm_compute in He. discriminate.
Qed.

Lemma market_create_stocks_varies_with_the_stamp_only_witness :
  stamp noon = stamp noon_and_250_microseconds
  ∧ Market.create_stocks noon sample_rows "wh1" sample_offer_ids
    = Market.create_stocks noon_and_250_microseconds sample_rows "wh1" sample_offer_ids.
Proof.
  assert (Hstamp : stamp noon = stamp noon_and_250_microseconds) by (vm_compute; reflexivity).
  split; [exact Hstamp |].
  exact (proj2 (proj2 (proj2 (market_create_stocks_varies_with_the_stamp_only
           noon noon_and_250_microseconds sample_rows "wh1" sample_offer_ids))) Hstamp).
Defined.

(** C7, as stated, fails: a second later the same arguments give other
    records. *)
Lemma market_create_stocks_not_deterministic :
  (∀ U : Unicode,
     Market.create_stocks noon [] "wh1" ["100"]
     ≠ Market.create_stocks noon_and_1_second [] "wh1" ["100"])
  ∧ ¬ (∀ (U : Unicode) utcnow1 utcnow2 (watch_remnants : list dict) warehouse_id σ,
         Market.create_stocks utcnow1 watch_remnants warehouse_id σ
         = Market.create_stocks utcnow2 watch_remnants warehouse_id σ).
Proof.
  assert (Hne : ∀ U : Unicode,
            Market.create_stocks noon [] "wh1" ["100"]
            ≠ Market.create_stocks noon_and_1_second [] "wh1" ["100"]).
  { intros U. vm_compute. discriminate. }
  split; [exact Hne |]. intros Hall. apply (Hne ascii_tables), Hall.
Qed.

Lemma create_prices_one_record_per_matched_row_witness :
  (∀ watch, watch ∈ sample_rows → code watch ∈ sample_offer_ids → has_text_price watch)
  ∧ (∀ watch, watch ∈ sample_rows → code watch ∈ sample_offer_ids → has_price_digits watch)
  ∧ Seller.create_prices sample_rows sample_offer_ids = (Ok sample_prices, sample_offer_ids)
  ∧ Market.create_prices sample_rows sample_offer_ids
    = (Ok sample_market_prices, sample_offer_ids)
  ∧ (∃ prices,
       Seller.create_prices sample_rows sample_offer_ids = (Ok prices, sample_offer_ids)
       ∧ Forall2 seller_price_of
           (filter (λ watch, code watch ∈ sample_offer_ids) sample_rows) prices
       ∧ (∀ i, (∀ watch, watch ∈ sample_rows → code watch ≠ i) →
               i ∉ Seller.Price.offer_id <$> prices)
       ∧ ∀ stocks rest,
           Seller.create_stocks sample_rows sample_offer_ids = (Ok stocks, rest) →
           Seller.Price.offer_id <$> prices ⊆ Seller.Stock.offer_id <$> stocks)
  ∧ (∃ prices,
       Market.create_prices sample_rows sample_offer_ids = (Ok prices, sample_offer_ids)
       ∧ Forall2 market_price_of
           (filter (λ watch, code watch ∈ sample_offer_ids) sample_rows) prices
       ∧ (∀ i, (∀ watch, watch ∈ sample_rows → code watch ≠ i) →
               i ∉ Market.Price.id <$> prices)
       ∧ ∀ utcnow warehouse_id stocks rest,
           Market.create_stocks utcnow sample_rows warehouse_id sample_offer_ids
             = (Ok stocks, rest) →
           Market.Price.id <$> prices ⊆ Market.Stock.sku <$> stocks).
Proof.
  assert (Htext : ∀ watch, watch ∈ sample_rows → code watch ∈ sample_offer_ids →
                           has_text_price watch).
  { intros watch Hin _. unfold sample_rows in Hin.
    repeat (apply elem_of_cons in Hin as [-> | Hin]);
      [eexists; vm_compute; reflexivity .. | by apply not_elem_of_nil in Hin]. }
  assert (Hdigits : ∀ watch, watch ∈ sample_rows → code watch ∈ sample_offer_ids →
                             has_price_digits watch).
  { intros watch Hin _. unfold sample_rows in Hin.
    repeat (apply elem_of_cons in Hin as [-> | Hin]);
      [eexists; (split; [vm_compute; reflexivity | discriminate]) ..
      | by apply not_elem_of_nil in Hin]. }
  assert (Hseller : Seller.create_prices sample_rows sample_offer_ids
                    = (Ok sample_prices, sample_offer_ids)) by (vm_compute; reflexivity).
  assert (Hmarket : Market.create_prices sample_rows sample_offer_ids
                    = (Ok sample_market_prices, sample_offer_ids))
    by (vm_compute; reflexivity).
  destruct (create_prices_one_record_per_matched_row sample_rows sample_offer_ids Htext)
    as (Hone & Hother & _).
  split; [exact Htext |]. split; [exact Hdigits |]. split; [exact Hseller |].
  split; [exact Hmarket |]. split; [exact Hone |]. exact (Hother Hdigits).
Defined.

(** C8, as stated, fails for [market.py]: a matched row whose price is
    text without a digit gives no price record, [create_prices] raises
    the [ValueError] of [int]. *)
Lemma market_create_prices_gives_no_record_without_digits :
  Forall has_quantity [row (Py.PyStr "100") (Py.PyStr "5") (Py.PyStr "цена неизвестна")]
  ∧ Forall has_text_price [row (Py.PyStr "100") (Py.PyStr "5") (Py.PyStr "цена неизвестна")]
  ∧ (∀ U : Unicode,
       Market.create_prices
         [row (Py.PyStr "100") (Py.PyStr "5") (Py.PyStr "цена неизвестна")] ["100"]
       = (Raise (ValueError b_int), ["100"]))
  ∧ ¬ (∀ (U : Unicode) (watch_remnants : list dict) (offer_ids : list string),
         Forall has_quantity watch_remnants → Forall has_text_price watch_remnants →
         ∃ prices rest,
           Market.create_prices watch_remnants offer_ids = (Ok prices, rest)
           ∧ Forall2 market_price_of
               (filter (λ watch, code watch ∈ offer_ids) watch_remnants) prices).
Proof.
  assert (Hquantity : Forall has_quantity
            [row (Py.PyStr "100") (Py.PyStr "5") (Py.PyStr "цена неизвестна")]).
  { repeat constructor; vm_compute; discriminate. }
  assert (Hprice : Forall has_text_price
            [row (Py.PyStr "100") (Py.PyStr "5") (Py.PyStr "цена неизвестна")]).
  { repeat constructor; eexists; vm_compute; reflexivity. }
  assert (Hraise : ∀ U : Unicode,
            Market.create_prices
              [row (Py.PyStr "100") (Py.PyStr "5") (Py.PyStr "цена неизвестна")] ["100"]
            = (Raise (ValueError b_int), ["100"])).
  { intros U. vm_compute. reflexivity. }
  split; [exact Hquantity |]. split; [exact Hprice |]. split; [exact Hraise |].
  intros Hall.
  destruct (Hall ascii_tables _ ["100"] Hquantity Hprice) as (prices & rest & Hrun & _).
  rewrite Hraise in Hrun. discriminate Hrun.
Qed.

Lemma core_fails_with_parse_or_argument_errors_witness :
  Forall has_quantity rows_with_bad_quantity
  ∧ Forall has_text_price rows_with_bad_quantity
  ∧ (∃ e, raised (Seller.create_stocks rows_with_bad_quantity ["100"; "200"]) = Some e
          ∧ classify e = ParseError)
  ∧ Seller.create_stocks
      ([row (Py.PyStr "200") (Py.PyStr "7") (Py.PyStr "990 руб.")]
       ++ row (Py.PyStr "200") (Py.PyStr "n/a") (Py.PyStr "990 руб.") :: []) ["100"; "200"]
    = Seller.create_stocks
        ([row (Py.PyStr "200") (Py.PyStr "7") (Py.PyStr "990 руб.")] ++ []) ["100"; "200"].
Proof.
  assert (Hquantity : Forall has_quantity rows_with_bad_quantity).
  { repeat constructor; vm_compute; discriminate. }
  assert (Hprice : Forall has_text_price rows_with_bad_quantity).
  { repeat constructor; eexists; vm_compute; reflexivity. }
  assert (Hquantity' : Forall has_quantity
            ([row (Py.PyStr "200") (Py.PyStr "7") (Py.PyStr "990 руб.")]
             ++ row (Py.PyStr "200") (Py.PyStr "n/a") (Py.PyStr "990 руб.") :: [])).
  { repeat constructor; vm_compute; discriminate. }
  assert (Hprice' : Forall has_text_price
            ([row (Py.PyStr "200") (Py.PyStr "7") (Py.PyStr "990 руб.")]
             ++ row (Py.PyStr "200") (Py.PyStr "n/a") (Py.PyStr "990 руб.") :: [])).
  { repeat constructor; eexists; vm_compute; reflexivity. }
  split; [exact Hquantity |]. split; [exact Hprice |]. split.
  - refine (proj1 (proj1 (proj2 (proj2 (proj2 (proj2 (proj2
              (core_fails_with_parse_or_argument_errors
                 rows_with_bad_quantity ["100"; "200"] Hquantity Hprice))))))
              [row (Py.PyStr "100") (Py.PyStr "5") (Py.PyStr "5 000 руб.")]
              (row (Py.PyStr "200") (Py.PyStr "n/a") (Py.PyStr "990 руб."))
              [] eq_refl _ _ _ _ _)).
    + apply (bool_decide_unpack _). vm_compute. exact I.
    + apply (bool_decide_unpack _). vm_compute. exact I.
    + vm_compute. discriminate.
    + vm_compute. discriminate.
    + vm_compute. reflexivity.
  - refine (proj1 (proj2 (proj2 (proj2 (proj2 (proj2 (proj2
              (core_fails_with_parse_or_argument_errors _ ["100"; "200"]
                 Hquantity' Hprice'))))))
              [row (Py.PyStr "200") (Py.PyStr "7") (Py.PyStr "990 руб.")]
              (row (Py.PyStr "200") (Py.PyStr "n/a") (Py.PyStr "990 руб."))
              [] eq_refl _ _)).
    + apply (bool_decide_unpack _). vm_compute. exact I.
    + apply (bool_decide_unpack _). vm_compute. exact I.
Defined.

(** C9, as stated, fails.  A row whose code is known and whose quantity
    is no number does not make [create_stocks] fail when an earlier row
    has consumed the identifier: the row is skipped. *)
Lemma row_with_a_consumed_identifier_does_not_fail :
  Forall has_quantity
    [row (Py.PyStr "100") (Py.PyStr "5") (Py.PyStr "5 000 руб.");
     row (Py.PyStr "100") (Py.PyStr "n/a") (Py.PyStr "990 руб.")]
  ∧ Forall has_text_price
      [row (Py.PyStr "100") (Py.PyStr "5") (Py.PyStr "5 000 руб.");
       row (Py.PyStr "100") (Py.PyStr "n/a") (Py.PyStr "990 руб.")]
  ∧ (∀ U : Unicode,
       Seller.create_stocks
         [row (Py.PyStr "100") (Py.PyStr "5") (Py.PyStr "5 000 руб.");
          row (Py.PyStr "100") (Py.PyStr "n/a") (Py.PyStr "990 руб.")] ["100"]
       = (Ok [Seller.Stock.mk "100" 5], []))
  ∧ ¬ (∀ (U : Unicode) (watch_remnants : list dict) (offer_ids : list string) watch,
         Forall has_quantity watch_remnants → Forall has_text_price watch_remnants →
         watch ∈ watch_remnants → code watch ∈ offer_ids →
         descriptor watch ≠ ">10" → descriptor watch ≠ "1" →
         Py.parse_int (descriptor watch) = None →
         ∃ e, raised (Seller.create_stocks watch_remnants offer_ids) = Some e
              ∧ classify e = ParseError).
Proof.
  assert (Hquantity : Forall has_quantity
            [row (Py.PyStr "100") (Py.PyStr "5") (Py.PyStr "5 000 руб.");
             row (Py.PyStr "100") (Py.PyStr "n/a") (Py.PyStr "990 руб.")]).
  { repeat constructor; vm_compute; discriminate. }
  assert (Hprice : Forall has_text_price
            [row (Py.PyStr "100") (Py.PyStr "5") (Py.PyStr "5 000 руб.");
             row (Py.PyStr "100") (Py.PyStr "n/a") (Py.PyStr "990 руб.")]).
  { repeat constructor; eexists; vm_compute; reflexivity. }
  assert (Hskipped : ∀ U : Unicode,
            Seller.create_stocks
              [row (Py.PyStr "100") (Py.PyStr "5") (Py.PyStr "5 000 руб.");
               row (Py.PyStr "100") (Py.PyStr "n/a") (Py.PyStr "990 руб.")] ["100"]
            = (Ok [Seller.Stock.mk "100" 5], [])).
  { intros U. vm_compute. reflexivity. }
  split; [exact Hquantity |]. split; [exact Hprice |]. split; [exact Hskipped |].
  intros Hall.
  destruct (Hall ascii_tables
              [row (Py.PyStr "100") (Py.PyStr "5") (Py.PyStr "5 000 руб.");
               row (Py.PyStr "100") (Py.PyStr "n/a") (Py.PyStr "990 руб.")] ["100"]
              (row (Py.PyStr "100") (Py.PyStr "n/a") (Py.PyStr "990 руб."))
              Hquantity Hprice)
    as (e & Hraised & _).
  - right. left.
  - apply (bool_decide_unpack _). vm_compute. exact I.
  - vm_compute. discriminate.
  - vm_compute. discriminate.
  - vm_compute. reflexivity.
  - rewrite Hskipped in Hraised. discriminate Hraised.
Qed.

Lemma stock_quantities_nonnegative_witness :
  Forall no_negative_quantity sample_rows
  ∧ Seller.create_stocks sample_rows sample_offer_ids
    = (Ok [Seller.Stock.mk "100" 5; Seller.Stock.mk "400" 0; Seller.Stock.mk "200" 0], ["200"])
  ∧ Forall (λ r, 0 ≤ Seller.Stock.stock r)
      [Seller.Stock.mk "100" 5; Seller.Stock.mk "400" 0; Seller.Stock.mk "200" 0].
Proof.
  assert (Hrows : Forall no_negative_quantity sample_rows).
  { repeat constructor; intros q Hq; vm_compute in Hq;
      (discriminate Hq || (injection Hq as <-; lia)). }
  assert (Hstocks : Seller.create_stocks sample_rows sample_offer_ids
    = (Ok [Seller.Stock.mk "100" 5; Seller.Stock.mk "400" 0; Seller.Stock.mk "200" 0],
       ["200"]))
    by (vm_compute; reflexivity).
  split; [exact Hrows |]. split; [exact Hstocks |].
  exact (proj1 (stock_quantities_nonnegative sample_rows sample_offer_ids Hrows)
           _ _ Hstocks).
Defined.

(** C10, as stated, fails: the quantity ["-5"] is passed on as it is. *)
Lemma negative_quantity_is_kept :
  (∀ U : Unicode,
     Seller.create_stocks
       [row (Py.PyStr "100") (Py.PyStr "-5") (Py.PyStr "5 000 руб.")] ["100"]
     = (Ok [Seller.Stock.mk "100" (-5)], []))
  ∧ ¬ (∀ (U : Unicode) (watch_remnants : list dict) (offer_ids : list string) stocks rest,
         Seller.create_stocks watch_remnants offer_ids = (Ok stocks, rest) →
         Forall (λ r, 0 ≤ Seller.Stock.stock r) stocks).
Proof.
  assert (Hrun : ∀ U : Unicode,
            Seller.create_stocks
              [row (Py.PyStr "100") (Py.PyStr "-5") (Py.PyStr "5 000 руб.")] ["100"]
            = (Ok [Seller.Stock.mk "100" (-5)], [])).
  { intros U. vm_compute. reflexivity. }
  split; [exact Hrun |]. intros Hall.
  pose proof (Hall ascii_tables _ _ _ _ (Hrun ascii_tables)) as Hpos.
  apply Forall_cons in Hpos as [Hneg _]. cbn in Hneg. lia.
Qed.

Lemma create_stocks_returns_one_record_per_entry_witness :
  Seller.create_stocks sample_rows ["100"; "100"; "200"]
  = (Ok [Seller.Stock.mk "100" 5; Seller.Stock.mk "100" 7; Seller.Stock.mk "200" 0], ["200"])
  ∧ Seller.Stock.offer_id
      <$> [Seller.Stock.mk "100" 5; Seller.Stock.mk "100" 7; Seller.Stock.mk "200" 0]
    ≡ₚ ["100"; "100"; "200"]
  ∧ length [Seller.Stock.mk "100" 5; Seller.Stock.mk "100" 7; Seller.Stock.mk "200" 0]
    = length ["100"; "100"; "200"].
Proof.
  assert (Hrun : Seller.create_stocks sample_rows ["100"; "100"; "200"]
    = (Ok [Seller.Stock.mk "100" 5; Seller.Stock.mk "100" 7; Seller.Stock.mk "200" 0],
       ["200"])) by (vm_compute; reflexivity).
  split; [exact Hrun |].
  exact (proj1 (create_stocks_returns_one_record_per_entry sample_rows ["100"; "100"; "200"])
           _ _ Hrun).
Defined.

Lemma create_stocks_leaves_the_unmatched_identifiers_witness :
  NoDup sample_offer_ids
  ∧ Seller.create_stocks sample_rows sample_offer_ids
    = (Ok [Seller.Stock.mk "100" 5; Seller.Stock.mk "400" 0; Seller.Stock.mk "200" 0],
       ["200"])
  ∧ ["200"] = filter (λ i, i ∉ code <$> sample_rows) sample_offer_ids.
Proof.
  assert (Hnodup : NoDup sample_offer_ids).
  { apply (bool_decide_unpack _). vm_compute. exact I. }
  assert (Hrun : Seller.create_stocks sample_rows sample_offer_ids
    = (Ok [Seller.Stock.mk "100" 5; Seller.Stock.mk "400" 0; Seller.Stock.mk "200" 0],
       ["200"])) by (vm_compute; reflexivity).
  split; [exact Hnodup |]. split; [exact Hrun |].
  exact (proj1 (create_stocks_leaves_the_unmatched_identifiers
                  sample_rows sample_offer_ids _ _ Hnodup Hrun)).
Defined.

Lemma create_stocks_failure_leaves_the_list_consumed_witness :
  Seller.create_stocks [row (Py.PyStr "100") (Py.PyStr "5") (Py.PyStr "5 000 руб.")]
    ["100"; "200"]
  = (Ok [Seller.Stock.mk "100" 5; Seller.Stock.mk "200" 0], ["200"])
  ∧ code (row (Py.PyStr "200") (Py.PyStr "n/a") (Py.PyStr "990 руб.")) ∈ ["200"]
  ∧ spec_quantity (descriptor (row (Py.PyStr "200") (Py.PyStr "n/a") (Py.PyStr "990 руб.")))
    = None
  ∧ Seller.create_stocks rows_with_bad_quantity ["100"; "200"]
    = (Raise (ValueError b_int), ["200"]).
Proof.
  assert (Hpre : Seller.create_stocks
                   [row (Py.PyStr "100") (Py.PyStr "5") (Py.PyStr "5 000 руб.")]
                   ["100"; "200"]
                 = (Ok [Seller.Stock.mk "100" 5; Seller.Stock.mk "200" 0], ["200"]))
    by (vm_compute; reflexivity).
  assert (Hin : code (row (Py.PyStr "200") (Py.PyStr "n/a") (Py.PyStr "990 руб.")) ∈ ["200"]).
  { apply (bool_decide_unpack _). vm_compute. exact I. }
  assert (Hbad : spec_quantity
                   (descriptor (row (Py.PyStr "200") (Py.PyStr "n/a") (Py.PyStr "990 руб.")))
                 = None) by (vm_compute; reflexivity).
  split; [exact Hpre |]. split; [exact Hin |]. split; [exact Hbad |].
  exact (proj1 (create_stocks_failure_leaves_the_list_consumed _ _ [] _ _ _ Hpre Hin Hbad)).
Defined.

Lemma unmatched_rows_are_not_converted_witness :
  Forall (λ watch, code watch ∉ ["900"; "901"]) rows_with_bad_quantity
  ∧ Seller.create_stocks rows_with_bad_quantity ["900"; "901"]
    = (Ok [Seller.Stock.mk "900" 0; Seller.Stock.mk "901" 0], ["900"; "901"])
  ∧ Seller.create_prices rows_with_bad_quantity ["900"; "901"] = (Ok [], ["900"; "901"]).
Proof.
  assert (Hrows : Forall (λ watch, code watch ∉ ["900"; "901"]) rows_with_bad_quantity).
  { apply (bool_decide_unpack _). vm_compute. exact I. }
  split; [exact Hrows |].
  destruct (unmatched_rows_are_not_converted rows_with_bad_quantity ["900"; "901"]
              (proj1 (Forall_forall _ _) Hrows)) as (Hstocks & _ & Hprices & _).
  split; [exact Hstocks | exact Hprices].
Defined.

Lemma integer_quantity_cell_is_passed_on_witness :
  code (row (Py.PyStr "400") (Py.PyInt (-3)) (Py.PyStr "990 руб.")) ∈ sample_offer_ids
  ∧ get (row (Py.PyStr "400") (Py.PyInt (-3)) (Py.PyStr "990 руб.")) "Количество"
    = Py.PyInt (-3)
  ∧ ∀ stocks,
      Seller.create_stocks_row
        (row (Py.PyStr "400") (Py.PyInt (-3)) (Py.PyStr "990 руб.")) stocks sample_offer_ids
      = (Ok (stocks ++ [Seller.Stock.mk "400" (-3)]), ["200"; "100"]).
Proof.
  assert (Hin : code (row (Py.PyStr "400") (Py.PyInt (-3)) (Py.PyStr "990 руб."))
                ∈ sample_offer_ids).
  { apply (bool_decide_unpack _). vm_compute. exact I. }
  assert (Hcell : get (row (Py.PyStr "400") (Py.PyInt (-3)) (Py.PyStr "990 руб."))
                    "Количество" = Py.PyInt (-3)) by (vm_compute; reflexivity).
  split; [exact Hin |]. split; [exact Hcell |].
  exact (proj1 (integer_quantity_cell_is_passed_on _ _ _ Hin Hcell)).
Defined.

Lemma price_conversion_is_idempotent_witness :
  Seller.price_conversion (Py.PyStr "5'990.00 руб.") = Ok "5990"
  ∧ Seller.price_conversion (Py.PyStr "5990") = Ok "5990"
  ∧ digits_only "5990" = "5990"
  ∧ Forall (λ c, Py.is_digit c = true) (list_ascii_of_string "5990").
Proof.
  assert (Hrun : Seller.price_conversion (Py.PyStr "5'990.00 руб.") = Ok "5990")
    by (vm_compute; reflexivity).
  split; [exact Hrun |].
  exact (price_conversion_is_idempotent _ _ Hrun).
Defined.

Lemma price_records_hold_digits_witness :
  Market.create_prices sample_rows sample_offer_ids
  = (Ok [Market.Price.mk "100" (Market.PriceValue.mk 5000 "RUR");
         Market.Price.mk "100" (Market.PriceValue.mk 1200 "RUR");
         Market.Price.mk "400" (Market.PriceValue.mk 990 "RUR")], sample_offer_ids)
  ∧ Forall (λ p, 0 ≤ Market.PriceValue.value (Market.Price.price p))
      [Market.Price.mk "100" (Market.PriceValue.mk 5000 "RUR");
       Market.Price.mk "100" (Market.PriceValue.mk 1200 "RUR");
       Market.Price.mk "400" (Market.PriceValue.mk 990 "RUR")].
Proof.
  assert (Hrun : Market.create_prices sample_rows sample_offer_ids
    = (Ok [Market.Price.mk "100" (Market.PriceValue.mk 5000 "RUR");
           Market.Price.mk "100" (Market.PriceValue.mk 1200 "RUR");
           Market.Price.mk "400" (Market.PriceValue.mk 990 "RUR")], sample_offer_ids))
    by (vm_compute; reflexivity).
  split; [exact Hrun |].
  exact (proj2 (price_records_hold_digits sample_rows sample_offer_ids) _ _ Hrun).
Defined.

Lemma price_without_digits_witness :
  row (Py.PyStr "100") (Py.PyStr "5") (Py.PyStr "цена неизвестна")
  ∈ [row (Py.PyStr "100") (Py.PyStr "5") (Py.PyStr "цена неизвестна")]
  ∧ code (row (Py.PyStr "100") (Py.PyStr "5") (Py.PyStr "цена неизвестна")) ∈ ["100"]
  ∧ Seller.price_conversion
      (get (row (Py.PyStr "100") (Py.PyStr "5") (Py.PyStr "цена неизвестна")) "Цена")
    = Ok ""
  ∧ ∃ e, raised (Market.create_prices
                   [row (Py.PyStr "100") (Py.PyStr "5") (Py.PyStr "цена неизвестна")]
                   ["100"]) = Some e.
Proof.
  assert (Hrow : row (Py.PyStr "100") (Py.PyStr "5") (Py.PyStr "цена неизвестна")
                 ∈ [row (Py.PyStr "100") (Py.PyStr "5") (Py.PyStr "цена неизвестна")])
    by left.
  assert (Hin : code (row (Py.PyStr "100") (Py.PyStr "5") (Py.PyStr "цена неизвестна"))
                ∈ ["100"]).
  { apply (bool_decide_unpack _). vm_compute. exact I. }
  assert (Hempty : Seller.price_conversion
                     (get (row (Py.PyStr "100") (Py.PyStr "5") (Py.PyStr "цена неизвестна"))
                        "Цена") = Ok "") by (vm_compute; reflexivity).
  split; [exact Hrow |]. split; [exact Hin |]. split; [exact Hempty |].
  exact (proj2 (price_without_digits _ _ _ Hrow Hin Hempty)).
Defined.

Lemma divide_fills_every_batch_but_the_last_witness :
  0 < 2
  ∧ Seller.divide [10; 20; 30; 40; 50] 2 = Ok [[10; 20]; [30; 40]; [50]]
  ∧ Py.len [[10; 20]; [30; 40]; [50]] = (Py.len [10; 20; 30; 40; 50] + 2 - 1) / 2.
Proof.
  assert (Hn : 0 < 2) by lia.
  assert (Hrun : Seller.divide [10; 20; 30; 40; 50] 2 = Ok [[10; 20]; [30; 40]; [50]])
    by (vm_compute; reflexivity).
  split; [exact Hn |]. split; [exact Hrun |].
  exact (proj1 (divide_fills_every_batch_but_the_last Z _ _ _ Hn Hrun)).
Defined.

Lemma get_offer_ids_returns_the_products_of_the_pages_witness :
  ∃ pages,
    @ozon_paging ozon_two_pages "c" "t" [] "" [] pages
    ∧ sample_offer_ids = Ozon.offer_id <$> concat (Ozon.items <$> pages)
    ∧ [Ozon.ProductList "" "c" "t"; Ozon.ProductList "100" "c" "t"]
      = [] ++ ozon_requests "c" "t" "" pages.
Proof.
  apply (proj1 (@get_offer_ids_returns_the_products_of_the_pages ozon_two_pages
                  "c" "t" [] sample_offer_ids
                  [Ozon.ProductList "" "c" "t"; Ozon.ProductList "100" "c" "t"])).
  exists 2%nat. vm_compute. reflexivity.
Defined.

Lemma get_offer_ids_raises_what_the_last_request_raised_witness :
  @Ozon.get_offer_ids ozon_down 3 "c" "t" []
  = Some (Throw HTTPError, [Ozon.ProductList "" "c" "t"])
  ∧ @Ozon.product_list ozon_down [Ozon.ProductList "" "c" "t"] = Throw HTTPError.
Proof.
  assert (Hrun : @Ozon.get_offer_ids ozon_down 3 "c" "t" []
                 = Some (Throw HTTPError, [Ozon.ProductList "" "c" "t"]))
    by (vm_compute; reflexivity).
  split; [exact Hrun |].
  exact (proj1 (@get_offer_ids_raises_what_the_last_request_raised ozon_down
                  3%nat "c" "t" [] _ _ Hrun)).
Defined.

Lemma get_offer_ids_goes_on_while_the_total_differs_witness :
  @Ozon.get_offer_ids ozon_stalling 1000 "c" "t" [] = None.
Proof.
  apply (@get_offer_ids_goes_on_while_the_total_differs ozon_stalling (λ l, l = [])).
  - reflexivity.
  - intros log' product_list ->. eexists. split; [reflexivity |]. split; [| reflexivity].
    vm_compute. discriminate.
Defined.

Lemma market_get_offer_ids_returns_the_entries_of_the_pages_witness :
  ∃ pages,
    @yandex_paging yandex_two_pages "c" "t" [] (Py.PyStr "") pages
    ∧ sample_offer_ids = Yandex.shopSku <$> concat (Yandex.offerMappingEntries <$> pages)
    ∧ [Yandex.OfferMappingEntries (Py.PyStr "") "c" "t";
       Yandex.OfferMappingEntries (Py.PyStr "eyBuZXh0") "c" "t"]
      = [] ++ yandex_requests "c" "t" (Py.PyStr "") pages.
Proof.
  apply (proj1 (@market_get_offer_ids_returns_the_entries_of_the_pages yandex_two_pages
                  "c" "t" [] sample_offer_ids
                  [Yandex.OfferMappingEntries (Py.PyStr "") "c" "t";
                   Yandex.OfferMappingEntries (Py.PyStr "eyBuZXh0") "c" "t"])).
  exists 2%nat. vm_compute. reflexivity.
Defined.

Lemma market_get_offer_ids_goes_on_while_a_token_comes_witness :
  @Yandex.get_offer_ids yandex_endless 1000 "c" "t" [] = None.
Proof.
  apply (@market_get_offer_ids_goes_on_while_a_token_comes yandex_endless).
  intros log'. eexists. split; reflexivity.
Defined.

Lemma market_get_offer_ids_raises_what_the_last_request_raised_witness :
  @Yandex.get_offer_ids yandex_down 3 "c" "t" []
  = Some (Throw HTTPError, [Yandex.OfferMappingEntries (Py.PyStr "") "c" "t"])
  ∧ @Yandex.offer_mapping_entries yandex_down
      [Yandex.OfferMappingEntries (Py.PyStr "") "c" "t"] = Throw HTTPError.
Proof.
  assert (Hrun : @Yandex.get_offer_ids yandex_down 3 "c" "t" []
                 = Some (Throw HTTPError, [Yandex.OfferMappingEntries (Py.PyStr "") "c" "t"]))
    by (vm_compute; reflexivity).
  split; [exact Hrun |].
  exact (proj1 (@market_get_offer_ids_raises_what_the_last_request_raised yandex_down
                  3%nat "c" "t" [] _ _ Hrun)).
Defined.

Lemma upload_stocks_sends_the_records_in_batches_witness :
  @Ozon.get_offer_ids ozon_two_pages 2 "c" "t" []
  = Some (Return sample_offer_ids,
          [Ozon.ProductList "" "c" "t"; Ozon.ProductList "100" "c" "t"])
  ∧ ∃ r log',
      @Ozon.upload_stocks ozon_two_pages ascii_tables 2 sample_rows "c" "t" [] = Some (r, log')
      ∧ ∃ sent,
          log' = [Ozon.ProductList "" "c" "t"; Ozon.ProductList "100" "c" "t"]
                 ++ ((λ b, Ozon.ImportStocks b "c" "t") <$> sent)
          ∧ Forall (λ b, b ≠ [] ∧ Py.len b ≤ 100) sent.
Proof.
  assert (Hids : @Ozon.get_offer_ids ozon_two_pages 2 "c" "t" []
                 = Some (Return sample_offer_ids,
                         [Ozon.ProductList "" "c" "t"; Ozon.ProductList "100" "c" "t"]))
    by (vm_compute; reflexivity).
  split; [exact Hids |].
  destruct (@upload_stocks_sends_the_records_in_batches ozon_two_pages ascii_tables
              2%nat sample_rows "c" "t" [] _ _ Hids)
    as (r & log' & Hrun & sent & Hlog & Hsent & _).
  exists r, log'. split; [exact Hrun |]. exists sent. split; [exact Hlog | exact Hsent].
Defined.

Lemma upload_prices_sends_the_records_in_batches_witness :
  @Ozon.get_offer_ids ozon_two_pages 2 "c" "t" []
  = Some (Return sample_offer_ids,
          [Ozon.ProductList "" "c" "t"; Ozon.ProductList "100" "c" "t"])
  ∧ ∃ r log',
      @Ozon.upload_prices ozon_two_pages 2 sample_rows "c" "t" [] = Some (r, log')
      ∧ ∃ sent,
          log' = [Ozon.ProductList "" "c" "t"; Ozon.ProductList "100" "c" "t"]
                 ++ ((λ b, Ozon.ImportPrices b "c" "t") <$> sent)
          ∧ Forall (λ b, b ≠ [] ∧ Py.len b ≤ 1000) sent.
Proof.
  assert (Hids : @Ozon.get_offer_ids ozon_two_pages 2 "c" "t" []
                 = Some (Return sample_offer_ids,
                         [Ozon.ProductList "" "c" "t"; Ozon.ProductList "100" "c" "t"]))
    by (vm_compute; reflexivity).
  split; [exact Hids |].
  destruct (@upload_prices_sends_the_records_in_batches ozon_two_pages
              2%nat sample_rows "c" "t" [] _ _ Hids)
    as (r & log' & Hrun & sent & Hlog & Hsent & _).
  exists r, log'. split; [exact Hrun |]. exists sent. split; [exact Hlog | exact Hsent].
Defined.

Lemma main_sends_no_price_for_distinct_identifiers_witness :
  @Ozon.get_offer_ids ozon_two_pages 2 "c" "t" []
  = Some (Return sample_offer_ids,
          [Ozon.ProductList "" "c" "t"; Ozon.ProductList "100" "c" "t"])
  ∧ NoDup sample_offer_ids
  ∧ ∃ log',
      @Ozon.main ozon_two_pages ascii_tables 2 "t" "c" [] = Some (Return tt, log')
      ∧ ∃ sent report,
          log' = [Ozon.ProductList "" "c" "t"; Ozon.ProductList "100" "c" "t"]
                 ++ Ozon.DownloadStock :: ((λ b, Ozon.ImportStocks b "c" "t") <$> sent)
                 ++ report
          ∧ (report = [] ∨ ∃ e text, report = [Ozon.Print e text]).
Proof.
  assert (Hids : @Ozon.get_offer_ids ozon_two_pages 2 "c" "t" []
                 = Some (Return sample_offer_ids,
                         [Ozon.ProductList "" "c" "t"; Ozon.ProductList "100" "c" "t"]))
    by (vm_compute; reflexivity).
  assert (Hnodup : NoDup sample_offer_ids).
  { apply (bool_decide_unpack _). vm_compute. exact I. }
  split; [exact Hids |]. split; [exact Hnodup |].
  exact (@main_sends_no_price_for_distinct_identifiers ozon_two_pages ascii_tables
           2%nat "t" "c" [] _ _ Hids Hnodup).
Defined.

Lemma main_ends_at_the_first_failure_witness :
  @Ozon.get_offer_ids ozon_read_only 2 "c" "t" [] ≠ None
  ∧ @Ozon.main ozon_read_only ascii_tables 2 "t" "c" []
    = Some (Return tt,
            [Ozon.ProductList "" "c" "t"; Ozon.ProductList "100" "c" "t";
             Ozon.DownloadStock; Ozon.ImportStocks sample_stocks "c" "t";
             Ozon.Print (Some HTTPError) "ERROR_2"])
  ∧ ∃ r requests,
      @Ozon.main_try ozon_read_only ascii_tables 2 "t" "c" [] = Some (r, [] ++ requests)
      ∧ Forall (λ ev, ¬ is_ozon_print ev) requests
      ∧ stopped (@ozon_refusal ozon_read_only) [] requests (thrown r)
      ∧ @Ozon.main ozon_read_only ascii_tables 2 "t" "c" []
        = Some (Return tt,
                [] ++ requests ++ match thrown r with
                                  | None => []
                                  | Some e => [ozon_line e]
                                  end).
Proof.
  assert (Hfetch : @Ozon.get_offer_ids ozon_read_only 2 "c" "t" [] ≠ None)
    by (vm_compute; discriminate).
  split; [exact Hfetch |]. split; [vm_compute; reflexivity |].
  exact (@main_ends_at_the_first_failure ozon_read_only ascii_tables 2%nat "t" "c" [] Hfetch).
Defined.

Lemma market_upload_stocks_sends_the_records_in_batches_witness :
  @Yandex.get_offer_ids yandex_two_pages 2 "c" "t" []
  = Some (Return sample_offer_ids,
          [Yandex.OfferMappingEntries (Py.PyStr "") "c" "t";
           Yandex.OfferMappingEntries (Py.PyStr "eyBuZXh0") "c" "t"])
  ∧ ∃ r log',
      @Yandex.upload_stocks yandex_two_pages ascii_tables 2 sample_rows "c" "t" "w" []
      = Some (r, log')
      ∧ ∃ sent,
          log' = [Yandex.OfferMappingEntries (Py.PyStr "") "c" "t";
                  Yandex.OfferMappingEntries (Py.PyStr "eyBuZXh0") "c" "t"]
                 ++ ((λ b, Yandex.PutStocks b "c" "t") <$> sent)
          ∧ Forall (λ b, b ≠ [] ∧ Py.len b ≤ 2000) sent.
Proof.
  assert (Hids : @Yandex.get_offer_ids yandex_two_pages 2 "c" "t" []
                 = Some (Return sample_offer_ids,
                         [Yandex.OfferMappingEntries (Py.PyStr "") "c" "t";
                          Yandex.OfferMappingEntries (Py.PyStr "eyBuZXh0") "c" "t"]))
    by (vm_compute; reflexivity).
  split; [exact Hids |].
  destruct (@market_upload_stocks_sends_the_records_in_batches yandex_two_pages ascii_tables
              2%nat sample_rows "c" "t" "w" [] _ _ Hids)
    as (r & log' & Hrun & sent & Hlog & Hsent & _).
  exists r, log'. split; [exact Hrun |]. exists sent. split; [exact Hlog | exact Hsent].
Defined.

Lemma market_upload_prices_sends_the_records_in_batches_witness :
  @Yandex.get_offer_ids yandex_two_pages 2 "c" "t" []
  = Some (Return sample_offer_ids,
          [Yandex.OfferMappingEntries (Py.PyStr "") "c" "t";
           Yandex.OfferMappingEntries (Py.PyStr "eyBuZXh0") "c" "t"])
  ∧ ∃ r log',
      @Yandex.upload_prices yandex_two_pages ascii_tables 2 sample_rows "c" "t" []
      = Some (r, log')
      ∧ ∃ sent,
          log' = [Yandex.OfferMappingEntries (Py.PyStr "") "c" "t";
                  Yandex.OfferMappingEntries (Py.PyStr "eyBuZXh0") "c" "t"]
                 ++ ((λ b, Yandex.PostPrices b "c" "t") <$> sent)
          ∧ Forall (λ b, b ≠ [] ∧ Py.len b ≤ 500) sent.
Proof.
  assert (Hids : @Yandex.get_offer_ids yandex_two_pages 2 "c" "t" []
                 = Some (Return sample_offer_ids,
                         [Yandex.OfferMappingEntries (Py.PyStr "") "c" "t";
                          Yandex.OfferMappingEntries (Py.PyStr "eyBuZXh0") "c" "t"]))
    by (vm_compute; reflexivity).
  split; [exact Hids |].
  destruct (@market_upload_prices_sends_the_records_in_batches yandex_two_pages ascii_tables
              2%nat sample_rows "c" "t" [] _ _ Hids)
    as (r & log' & Hrun & sent & Hlog & Hsent & _).
  exists r, log'. split; [exact Hrun |]. exists sent. split; [exact Hlog | exact Hsent].
Defined.

